(** * EduMind student dashboard: the calendar widget

    A shallow embedding of [frontend/pages/student_dashboard/calendar.js]
    (class [CalendarManager]) and the properties of its event normalizer,
    month grid, upcoming list, status check and event fetcher. *)

From Stdlib Require Import ZArith List String Ascii Bool Lia DecimalString.
Import ListNotations.

Set Warnings "-register-all".

Local Open Scope string_scope.
Local Open Scope list_scope.
Local Open Scope Z_scope.

(** ** Results of calls *)

(** What a call throws. *)
Inductive Exn : Type :=
| TypeError
| RangeError
| SyntaxError
| NetworkFailure
| Error (message : string).

Inductive Result (A : Type) : Type :=
| Return (a : A)
| Throw (e : Exn).
Arguments Return {A} a.
Arguments Throw {A} e.

Definition rbind {A B} (r : Result A) (k : A -> Result B) : Result B :=
  match r with
  | Return a => k a
  | Throw e => Throw e
  end.

(** [l.filter(p)] and [l.map(f)] with a callback that may throw: the callback
    runs on the elements in order and the first exception ends the call. *)
Fixpoint filterR {A} (p : A -> Result bool) (l : list A) : Result (list A) :=
  match l with
  | [] => Return []
  | x :: rest =>
      rbind (p x) (fun keep =>
      rbind (filterR p rest) (fun kept =>
      Return (if keep then x :: kept else kept)))
  end.

Fixpoint mapR {A B} (f : A -> Result B) (l : list A) : Result (list B) :=
  match l with
  | [] => Return []
  | x :: rest =>
      rbind (f x) (fun y =>
      rbind (mapR f rest) (fun ys =>
      Return (y :: ys)))
  end.

(** ** JavaScript values

    Event records, status records and response bodies come out of
    [response.json()], so they are JSON values; [VUndefined] is what reading a
    missing property gives.  Numbers are the integral ones (time stamps).  An
    object is kept as the list of its own properties; none of them is a
    function, since JSON has none. *)

Module Js.

Inductive JsValue : Type :=
| VUndefined
| VNull
| VBool (b : bool)
| VNum (n : Z)
| VStr (s : string)
| VObj (fields : list (string * JsValue))
| VArr (items : list JsValue).

(** ToBoolean. *)
Definition truthy (v : JsValue) : bool :=
  match v with
  | VUndefined | VNull => false
  | VBool b => b
  | VNum n => negb (n =? 0)
  | VStr s => negb (s =? "")%string
  | VObj _ | VArr _ => true
  end.

Definition nullish (v : JsValue) : bool :=
  match v with
  | VUndefined | VNull => true
  | _ => false
  end.

Fixpoint lookup (k : string) (fields : list (string * JsValue)) : JsValue :=
  match fields with
  | [] => VUndefined
  | (k', v) :: rest => if (k =? k')%string then v else lookup k rest
  end.

(** [v?.k].  None of the property names the widget reads ([summary], [title],
    [htmlLink], [html_link], [start_datetime], [start], [dateTime], [date],
    [start_time], [location], [description], [events], [error],
    [has_google_access]) is defined on a built-in prototype, so on a primitive
    or an array the read gives [undefined]. *)
Definition opt_get (v : JsValue) (k : string) : JsValue :=
  match v with
  | VObj fields => lookup k fields
  | _ => VUndefined
  end.

(** [a || b] *)
Definition or (a b : JsValue) : JsValue := if truthy a then a else b.

Infix "?." := opt_get (at level 25, left associativity).
Infix "||." := or (at level 50, left associativity).

Definition string_of_Z (n : Z) : string := NilZero.string_of_int (Z.to_int n).

Definition join (sep : string) (parts : list string) : string :=
  match parts with
  | [] => ""
  | p :: rest => fold_left (fun acc q => (acc ++ sep ++ q)%string) rest p
  end.

(** [v.k]: a TypeError on [null] and [undefined]. *)
Definition get (v : JsValue) (k : string) : Result JsValue :=
  if nullish v then Throw TypeError else Return (v ?. k).

(** Whether the object has an own property [k], whatever its value. *)
Definition has_own (k : string) (fields : list (string * JsValue)) : bool :=
  existsb (fun kv => (fst kv =? k)%string) fields.

(** Whether the conversion of [v] to a string, or of an object to a
    primitive, completes.  OrdinaryToPrimitive calls the [toString] and
    [valueOf] of the object that are functions.  The inherited [valueOf]
    returns the object itself, which is no primitive, and an own [valueOf] is
    no function; so the outcome rests on [toString]: inherited, it gives the
    string; an own property of that name is no function, nothing is left to
    call, and the conversion throws a TypeError.  [Array.prototype.join]
    converts every item but [null] and [undefined]. *)
Fixpoint convertible (v : JsValue) : bool :=
  match v with
  | VObj fields => negb (has_own "toString" fields)
  | VArr items => forallb convertible items
  | _ => true
  end.

(** The string of a value whose conversion completes:
    [Object.prototype.toString] on an object, [Array.prototype.join] on an
    array ([null] and [undefined] items print as the empty string). *)
Fixpoint text (v : JsValue) : string :=
  match v with
  | VUndefined => "undefined"
  | VNull => "null"
  | VBool true => "true"
  | VBool false => "false"
  | VNum n => string_of_Z n
  | VStr s => s
  | VObj _ => "[object Object]"
  | VArr items =>
      join "," (map (fun x => if nullish x then "" else text x) items)
  end.

(** ToString, as a template literal applies it to each [${...}]. *)
Definition ToString (v : JsValue) : Result string :=
  if convertible v then Return (text v) else Throw TypeError.

(** [${v ? `...${v}...` : ''}]: the text printed, if any. *)
Definition optional_text (v : JsValue) : Result (option string) :=
  if truthy v then rbind (ToString v) (fun s => Return (Some s))
  else Return None.

(** ToPrimitive: a primitive is kept, an object or an array becomes its
    string. *)
Definition ToPrimitive (v : JsValue) : Result JsValue :=
  match v with
  | VObj _ | VArr _ => rbind (ToString v) (fun s => Return (VStr s))
  | _ => Return v
  end.

End Js.
Import Js.

(** ** Time values and the civil calendar

    A time value is a number of milliseconds since the epoch, a day number a
    number of days since 1970-01-01 (ECMAScript, "Time Values and Time
    Range").  Months are numbered from 0 as [getMonth] does. *)

Module Time.

Definition msPerDay : Z := 86400000.

Definition Day (t : Z) : Z := t / msPerDay.
Definition TimeWithinDay (t : Z) : Z := t mod msPerDay.

(** 1970-01-01 was a Thursday; 0 is Sunday. *)
Definition WeekDayOfDay (day : Z) : Z := (day + 4) mod 7.
Definition WeekDay (t : Z) : Z := WeekDayOfDay (Day t).

(** Day number of day [d] of month [m] (0..11) of year [y] in the proleptic
    Gregorian calendar; years are counted from March inside, so that the leap
    day comes last. *)
Definition days_from_civil (y m d : Z) : Z :=
  let y' := if m <=? 1 then y - 1 else y in
  let era := y' / 400 in
  let yoe := y' - era * 400 in
  let mp := if m <=? 1 then m + 10 else m - 2 in
  let doy := (153 * mp + 2) / 5 + d - 1 in
  let doe := yoe * 365 + yoe / 4 - yoe / 100 + doy in
  era * 146097 + doe - 719468.

(** ECMAScript's DayFromYear, the day number of January 1st. *)
Definition DayFromYear (y : Z) : Z :=
  365 * (y - 1970) + (y - 1969) / 4 - (y - 1901) / 100 + (y - 1601) / 400.

(** Year, month (0..11) and day of the month (1..31) of a day number. *)
Definition civil_from_days (z : Z) : Z * Z * Z :=
  let z' := z + 719468 in
  let era := z' / 146097 in
  let doe := z' - era * 146097 in
  let yoe := (doe - doe / 1460 + doe / 36524 - doe / 146096) / 365 in
  let doy := doe - (365 * yoe + yoe / 4 - yoe / 100) in
  let mp := (5 * doy + 2) / 153 in
  let d := doy - (153 * mp + 2) / 5 + 1 in
  let m := if mp <? 10 then mp + 2 else mp - 10 in
  (if m <=? 1 then yoe + era * 400 + 1 else yoe + era * 400, m, d).

Definition YearFromTime (t : Z) : Z := fst (fst (civil_from_days (Day t))).
Definition MonthFromTime (t : Z) : Z := snd (fst (civil_from_days (Day t))).
Definition DateFromTime (t : Z) : Z := snd (civil_from_days (Day t)).

(** MakeDay: the month may lie outside 0..11 and the date outside the month;
    both carry over.  A day beyond the range of time values is caught by
    [TimeClip] where the Date is made. *)
Definition MakeDay (year month date : Z) : Z :=
  days_from_civil (year + month / 12) (month mod 12) 1 + date - 1.

Definition MakeDate (day time : Z) : Z := day * msPerDay + time.

(** MakeFullYear: the Date constructor reads a year 0..99 as 1900..1999. *)
Definition MakeFullYear (year : Z) : Z :=
  if (0 <=? year) && (year <=? 99) then 1900 + year else year.

Definition maxTime : Z := 8640000000000000.

(** TimeClip: [None] is NaN, the time value of an invalid Date. *)
Definition TimeClip (t : Z) : option Z :=
  if Z.abs t <=? maxTime then Some t else None.

End Time.
Import Time.

(** ** The host: time zone and date parser

    [LocalTZA t isUTC] is the offset of local time in milliseconds, at the
    instant [t] when [isUTC] and at the local time [t] otherwise.
    [Date_parse] is [Date.parse]: [None] stands for NaN.  Both belong to the
    browser, not to the widget, so the widget is modelled over any host. *)

Record Host : Type := {
  LocalTZA : Z -> bool -> Z;
  Date_parse : string -> option Z
}.

Module JsDate.

Section WithHost.
Variable H : Host.

Definition LocalTime (t : Z) : Z := t + LocalTZA H t true.
Definition UTC (t : Z) : Z := t - LocalTZA H t false.

(** A Date object is its time value; [None] is an invalid Date, and a number
    read from it is then NaN, again [None]. *)
Definition DateObj : Type := option Z.

Definition getFullYear (d : DateObj) : option Z :=
  option_map (fun t => YearFromTime (LocalTime t)) d.
Definition getMonth (d : DateObj) : option Z :=
  option_map (fun t => MonthFromTime (LocalTime t)) d.
Definition getDate (d : DateObj) : option Z :=
  option_map (fun t => DateFromTime (LocalTime t)) d.
Definition getDay (d : DateObj) : option Z :=
  option_map (fun t => WeekDay (LocalTime t)) d.

(** Arithmetic on numbers that may be NaN. *)
Definition num_add (a b : option Z) : option Z :=
  match a, b with Some x, Some y => Some (x + y) | _, _ => None end.
Definition num_sub (a b : option Z) : option Z :=
  match a, b with Some x, Some y => Some (x - y) | _, _ => None end.

(** [new Date(year, month, date)] *)
Definition newDate_ymd (year month date : option Z) : DateObj :=
  match year, month, date with
  | Some y, Some m, Some dt =>
      TimeClip (UTC (MakeDate (MakeDay (MakeFullYear y) m dt) 0))
  | _, _, _ => None
  end.

(** [d.setDate(dt)]: the new time value. *)
Definition setDate (d : DateObj) (dt : option Z) : DateObj :=
  match d, dt with
  | Some tv, Some n =>
      let t := LocalTime tv in
      TimeClip (UTC (MakeDate (MakeDay (YearFromTime t) (MonthFromTime t) n)
                              (TimeWithinDay t)))
  | _, _ => None
  end.

(** [d.setMonth(m)]: the new time value. *)
Definition setMonth (d : DateObj) (m : option Z) : DateObj :=
  match d, m with
  | Some tv, Some n =>
      let t := LocalTime tv in
      TimeClip (UTC (MakeDate (MakeDay (YearFromTime t) n (DateFromTime t))
                              (TimeWithinDay t)))
  | _, _ => None
  end.

(** [new Date(value)] for a JSON value: the value is converted to a
    primitive; a string is parsed, anything else is converted to a number of
    milliseconds. *)
Definition newDate_value (v : JsValue) : Result DateObj :=
  rbind (ToPrimitive v) (fun p =>
  Return
    match p with
    | VStr s => Date_parse H s
    | VNum n => TimeClip n
    | VBool true => Some 1
    | VBool false | VNull => Some 0
    | _ => None
    end).

End WithHost.

(** The date part of [toISOString()], that is [toISOString().split('T')[0]]:
    the UTC year (four digits, or a sign and six digits outside 0..9999),
    month and day. *)
Definition pad (width : nat) (n : Z) : string :=
  let s := string_of_Z n in
  (string_of_list_ascii (repeat "0"%char (width - String.length s)) ++ s)%string.

Definition isoDate (t : Z) : string :=
  let '(y, m, d) := civil_from_days (Day t) in
  let year :=
    if (0 <=? y) && (y <=? 9999) then pad 4 y
    else String.append (if y <? 0 then "-" else "+") (pad 6 (Z.abs y)) in
  String.concat "-" [year; pad 2 (m + 1); pad 2 d].

End JsDate.
Import JsDate.

(** ** Event normalizer (calendar.js, "Helper methods for event data
    normalization") *)

Module Normalizer.

Definition getEventTitle (event : JsValue) : JsValue :=
  event ?. "summary" ||. event ?. "title" ||. VStr "No Title".

Definition getEventHtmlLink (event : JsValue) : JsValue :=
  event ?. "htmlLink" ||. event ?. "html_link" ||. VStr "".

Definition getEventStartString (event : JsValue) : JsValue :=
  event ?. "start_datetime" ||. event ?. "start"
    ||. event ?. "start" ?. "dateTime" ||. event ?. "start" ?. "date"
    ||. VNull.

(** [None] is the [null] the function returns, both for a missing start and
    for one that [new Date] cannot read ([isNaN(d)]); the call throws what
    [new Date(s)] throws. *)
Definition getEventStartDate (H : Host) (event : JsValue)
  : Result (option Z) :=
  let s := getEventStartString event in
  if negb (truthy s) then Return None
  else newDate_value H s.

(** [formatEventDateFromEvent]: the start whose month and day the locale
    prints; [None] prints a dash. *)
Definition formatEventDateFromEvent (H : Host) (event : JsValue)
  : Result (option Z) :=
  getEventStartDate H event.

(** [formatEventTimeFromEvent]: the [start_time] of the event as it is, or the
    start whose time the locale prints. *)
Inductive TimeLabel : Type :=
| GivenTime (v : JsValue)
| LocaleTime (d : option Z).

Definition formatEventTimeFromEvent (H : Host) (event : JsValue)
  : Result TimeLabel :=
  if truthy (event ?. "start_time") then Return (GivenTime (event ?. "start_time"))
  else rbind (getEventStartDate H event) (fun d => Return (LocaleTime d)).

(** [${this.formatEventTimeFromEvent(event)}]: the text of a given
    [start_time]; [None] stands for the time the locale prints. *)
Definition time_text (l : TimeLabel) : Result (option string) :=
  match l with
  | GivenTime v => rbind (ToString v) (fun s => Return (Some s))
  | LocaleTime _ => Return None
  end.

End Normalizer.
Import Normalizer.

(** ** The widget *)

Record CalendarManager : Type := {
  currentDate : DateObj;
  events : JsValue;
  calendarStatus : JsValue;
  refreshInterval : option Z;
  isLoading : bool
}.

(** [new CalendarManager()] at the instant [now]. *)
Definition constructor (now : Z) : CalendarManager :=
  {| currentDate := Some now;
     events := VArr [];
     calendarStatus := VNull;
     refreshInterval := None;
     isLoading := false |}.

Definition has_google_access (this : CalendarManager) : bool :=
  truthy (calendarStatus this ?. "has_google_access").

(** ** Grid renderer *)

Module Grid.

Inductive DayStyle : Type := OtherMonth | Today | Normal.

(** One [<div ... data-date=...>] of the grid.  [cell_day] is the loop's
    [currentDay], the day the cell stands for; the other fields are what the
    markup shows of it: [cell_titles] the titles of the events shown, as
    [getEventTitle] gives them, and [cell_texts] the text the template prints
    for each. *)
Record DayCell : Type := {
  cell_day : Z;
  cell_style : DayStyle;
  cell_marked : bool;
  cell_data_date : string;
  cell_number : Z;
  cell_titles : list JsValue;
  cell_texts : list string;
  cell_more : option Z
}.

Section WithHost.
Variable H : Host.

(** [a.toDateString() === b.toDateString()]: the string prints the local
    weekday, month, day and year, so two of them are equal exactly when the
    local day numbers are. *)
Definition sameDateString (a b : Z) : bool :=
  Day (LocalTime H a) =? Day (LocalTime H b).

(** [toISOString()] throws a RangeError on an invalid Date. *)
Definition toISODate (d : DateObj) : Result string :=
  match d with
  | Some t => Return (isoDate t)
  | None => Throw RangeError
  end.

Definition as_array (v : JsValue) : Result (list JsValue) :=
  match v with
  | VArr items => Return items
  | _ => Throw TypeError
  end.

(** The [filter] callback of [getEventsForDate]. *)
Definition onDate (dateStr : string) (event : JsValue) : Result bool :=
  rbind (getEventStartDate H event) (fun start =>
  Return
    match start with
    | None => false
    | Some start => (isoDate start =? dateStr)%string
    end).

Definition getEventsForDate (this : CalendarManager) (date : DateObj)
  : Result (list JsValue) :=
  rbind (toISODate date) (fun dateStr =>
  rbind (as_array (events this)) (fun evs =>
  filterR (onDate dateStr) evs)).

(** The body of the [for] loop, for the loop index [i]. *)
Definition dayCell (this : CalendarManager) (today : Z)
    (month : option Z) (startDate : DateObj) (i : Z) : Result DayCell :=
  let currentDay := setDate H startDate (num_add (getDate H startDate) (Some i)) in
  let isCurrentMonth :=
    match getMonth H currentDay, month with
    | Some a, Some b => a =? b
    | _, _ => false
    end in
  let isToday :=
    match currentDay with
    | Some t => sameDateString t today
    | None => false
    end in
  rbind (getEventsForDate this currentDay) (fun dayEvents =>
  match currentDay with
  | None => Throw RangeError
  | Some t =>
      let n := Z.of_nat (List.length dayEvents) in
      let titles := map getEventTitle (firstn 2 dayEvents) in
      rbind (mapR ToString titles) (fun texts =>
      Return
        {| cell_day := t;
           cell_style := if negb isCurrentMonth then OtherMonth
                         else if isToday then Today else Normal;
           cell_marked := (0 <? n) && isCurrentMonth && negb isToday;
           cell_data_date := isoDate t;
           cell_number := DateFromTime (LocalTime H t);
           cell_titles := titles;
           cell_texts := texts;
           cell_more := if 2 <? n then Some (n - 2) else None |})
  end).

(** [for (let i = 0; i < totalDays; i++) daysHTML += ...], with [fuel] the
    number of rounds left. *)
Fixpoint daysLoop (this : CalendarManager) (today : Z) (month : option Z)
    (startDate : DateObj) (fuel : nat) (i : Z) (daysHTML : list DayCell)
  : Result (list DayCell) :=
  match fuel with
  | O => Return daysHTML
  | S fuel' =>
      rbind (dayCell this today month startDate i) (fun cell =>
      daysLoop this today month startDate fuel' (i + 1) (daysHTML ++ [cell]))
  end.

Definition totalDays : nat := 42.

(** [today] is the reading of [new Date()].  The unused [lastDay] of the
    source is left out. *)
Definition generateCalendarDays (this : CalendarManager) (today : Z)
  : Result (list DayCell) :=
  let year := getFullYear H (currentDate this) in
  let month := getMonth H (currentDate this) in
  let firstDay := newDate_ymd H year month (Some 1) in
  let startDate :=
    setDate H firstDay (num_sub (getDate H firstDay) (getDay H firstDay)) in
  daysLoop this today month startDate totalDays 0 [].

End WithHost.
End Grid.
Import Grid.

(** ** Upcoming-list renderer *)

Module Upcoming.

(** One block of the list: the event and what the template prints of it.
    [entry_date] is the start whose month and day are printed, [entry_time]
    the text of a given [start_time] ([None]: the time of the start, as the
    locale prints it); a location, a description and a link are printed when
    they are truthy. *)
Record Entry : Type := {
  entry_event : JsValue;
  entry_date : option Z;
  entry_time : option string;
  entry_title : string;
  entry_location : option string;
  entry_description : option string;
  entry_link : option string
}.

Inductive UpcomingView : Type :=
| NoUpcomingEvents
| Entries (items : list Entry).

Section WithHost.
Variable H : Host.

(** The [filter] callback: [d && d >= new Date()], with [now] the reading of
    the clock taken in this call of the callback. *)
Definition isUpcoming (now : Z) (event : JsValue) : Result bool :=
  rbind (getEventStartDate H event) (fun d =>
  Return
    match d with
    | None => false
    | Some d => now <=? d
    end).

(** [this.events.filter(...)]: the callback runs once per event, in order;
    [clock k] is what [new Date()] reads in the call for the event of index
    [k]. *)
Fixpoint filterUpcoming (clock : nat -> Z) (k : nat) (evs : list JsValue)
  : Result (list JsValue) :=
  match evs with
  | [] => Return []
  | event :: rest =>
      rbind (isUpcoming (clock k) event) (fun keep =>
      rbind (filterUpcoming clock (S k) rest) (fun kept =>
      Return (if keep then event :: kept else kept)))
  end.

(** The template of one block: each [${...}] is evaluated and converted to a
    string in turn. *)
Definition entry (event : JsValue) : Result Entry :=
  rbind (formatEventDateFromEvent H event) (fun date =>
  rbind (formatEventTimeFromEvent H event) (fun label =>
  rbind (time_text label) (fun time =>
  rbind (ToString (getEventTitle event)) (fun title =>
  rbind (get event "location") (fun location =>
  rbind (optional_text location) (fun location_text =>
  rbind (get event "description") (fun description =>
  rbind (optional_text description) (fun description_text =>
  rbind (optional_text (getEventHtmlLink event)) (fun link_text =>
  Return
    {| entry_event := event;
       entry_date := date;
       entry_time := time;
       entry_title := title;
       entry_location := location_text;
       entry_description := description_text;
       entry_link := link_text |}))))))))).

Definition upcomingEvents (clock : nat -> Z) (evs : list JsValue)
  : Result (list JsValue) :=
  rbind (filterUpcoming clock 0 evs) (fun kept => Return (firstn 5 kept)).

(** [this.events] is an array whenever the server keeps to its contract; on
    anything else [length] or [filter] is read off a value that has none. *)
Definition generateUpcomingEvents (this : CalendarManager) (clock : nat -> Z)
  : Result UpcomingView :=
  match events this with
  | VArr [] => Return NoUpcomingEvents
  | VArr evs =>
      rbind (upcomingEvents clock evs) (fun kept =>
      rbind (mapR entry kept) (fun items =>
      Return (Entries items)))
  | VStr s => if (s =? "")%string then Return NoUpcomingEvents else Throw TypeError
  | VObj fields =>
      match lookup "length" fields with
      | VNum 0 => Return NoUpcomingEvents
      | _ => Throw TypeError
      end
  | _ => Throw TypeError
  end.

End WithHost.
End Upcoming.
Import Upcoming.

(** ** Status check, event fetcher and navigation

    The methods change the manager and act on the page and the network; a
    computation takes the world before the call and gives the world after it
    together with the value returned or the exception thrown.  What the server
    answers to the one request a call can make is an argument of the call. *)

Module Widget.

Inductive View : Type :=
| NonGoogleUserHTML
| GoogleCalendarHTML (month year : option Z) (days : list DayCell)
    (upcoming : UpcomingView).

Inductive Effect : Type :=
| Fetch (url : string)
| ConsoleError (message : string)
| ShowNotification (message : JsValue) (type : string)
| UpdateLoadingState (loading : bool)
| SetInnerHTML (view : View)
| AttachCalendarEventListeners.

(** The answer to a [fetch]: the promise rejects, or resolves to a response
    with a status and a body; [None] is a body that [response.json()]
    rejects. *)
Inductive Reply : Type :=
| Rejected
| Response (status : Z) (body : option JsValue).

Definition response_ok (status : Z) : bool := (200 <=? status) && (status <=? 299).

Record World : Type := {
  manager : CalendarManager;
  has_container : bool;
  trace : list Effect
}.

Definition M (A : Type) : Type := World -> Result A * World.

Definition ret {A} (a : A) : M A := fun w => (Return a, w).
Definition throw {A} (e : Exn) : M A := fun w => (Throw e, w).
Definition bind {A B} (m : M A) (k : A -> M B) : M B :=
  fun w =>
    match m w with
    | (Return a, w') => k a w'
    | (Throw e, w') => (Throw e, w')
    end.

Notation "x <- m ;; k" := (bind m (fun x => k))
  (at level 61, m at next level, right associativity).
Notation "m ;; k" := (bind m (fun _ => k))
  (at level 61, right associativity).

Definition emit (e : Effect) : M unit :=
  fun w => (Return tt, {| manager := manager w;
                          has_container := has_container w;
                          trace := trace w ++ [e] |}).
Definition get_this : M CalendarManager := fun w => (Return (manager w), w).
Definition set_this (f : CalendarManager -> CalendarManager) : M unit :=
  fun w => (Return tt, {| manager := f (manager w);
                          has_container := has_container w;
                          trace := trace w |}).
Definition lift {A} (r : Result A) : M A := fun w => (r, w).

(** [try { body } catch (error) { handler }] *)
Definition try_catch {A} (body : M A) (handler : Exn -> M A) : M A :=
  fun w =>
    match body w with
    | (Return a, w') => (Return a, w')
    | (Throw e, w') => handler e w'
    end.

(** [try { body } catch (error) { handler } finally { finalizer }]: the
    finalizer runs on every way out, and what it throws wins. *)
Definition try_catch_finally {A} (body : M A) (handler : Exn -> M A)
    (finalizer : M unit) : M A :=
  fun w =>
    let '(r, w1) := try_catch body handler w in
    match finalizer w1 with
    | (Return _, w2) => (r, w2)
    | (Throw e, w2) => (Throw e, w2)
    end.

Definition set_calendarStatus (v : JsValue) : M unit :=
  set_this (fun m => {| currentDate := currentDate m; events := events m;
                        calendarStatus := v;
                        refreshInterval := refreshInterval m;
                        isLoading := isLoading m |}).
Definition set_events (v : JsValue) : M unit :=
  set_this (fun m => {| currentDate := currentDate m; events := v;
                        calendarStatus := calendarStatus m;
                        refreshInterval := refreshInterval m;
                        isLoading := isLoading m |}).
Definition set_isLoading (b : bool) : M unit :=
  set_this (fun m => {| currentDate := currentDate m; events := events m;
                        calendarStatus := calendarStatus m;
                        refreshInterval := refreshInterval m;
                        isLoading := b |}).
Definition set_currentDate (d : DateObj) : M unit :=
  set_this (fun m => {| currentDate := d; events := events m;
                        calendarStatus := calendarStatus m;
                        refreshInterval := refreshInterval m;
                        isLoading := isLoading m |}).

(** [await fetch(url)] *)
Definition fetch (url : string) (reply : Reply) : M (Z * option JsValue) :=
  emit (Fetch url) ;;
  match reply with
  | Rejected => throw NetworkFailure
  | Response status body => ret (status, body)
  end.

(** [await response.json()] *)
Definition json (body : option JsValue) : M JsValue :=
  match body with
  | Some v => ret v
  | None => throw SyntaxError
  end.

(** [v.k]: a TypeError on [null] and [undefined]. *)
Definition member (v : JsValue) (k : string) : M JsValue :=
  if nullish v then throw TypeError else ret (v ?. k).

Definition safe_default : JsValue :=
  VObj [("has_google_access", VBool false); ("auth_method", VStr "traditional")].

Definition checkCalendarStatus (reply : Reply) : M unit :=
  try_catch
    (response <- fetch "/api/student/me/calendar/status" reply ;;
     if response_ok (fst response) then
       status <- json (snd response) ;;
       set_calendarStatus status
     else
       emit (ConsoleError "Failed to check calendar status") ;;
       set_calendarStatus safe_default)
    (fun error =>
       emit (ConsoleError "Error checking calendar status:") ;;
       set_calendarStatus safe_default).

Definition updateLoadingState : M unit :=
  m <- get_this ;; emit (UpdateLoadingState (isLoading m)).

(** The notification is appended to the page after its markup is built; the
    template [<span>${message}</span>] converts the message to a string. *)
Definition showNotification (message : JsValue) (type : string) : M unit :=
  lift (ToString message) ;;
  emit (ShowNotification message type).

Definition events_url : string :=
  "/api/student/me/calendar/events?max_results=50&days_ahead=30".

Definition fetchCalendarEvents (reply : Reply) : M JsValue :=
  m <- get_this ;;
  if negb (has_google_access m) then ret (VArr [])
  else
    try_catch_finally
      (set_isLoading true ;;
       updateLoadingState ;;
       response <- fetch events_url reply ;;
       if response_ok (fst response) then
         data <- json (snd response) ;;
         evs <- member data "events" ;;
         set_events (evs ||. VArr []) ;;
         showNotification (VStr "Calendar events updated") "success" ;;
         m' <- get_this ;;
         ret (events m')
       else if fst response =? 403 then
         error <- json (snd response) ;;
         msg <- member error "error" ;;
         showNotification (msg ||. VStr "Calendar access denied") "error" ;;
         ret (VArr [])
       else
         throw (Error "Failed to fetch calendar events"))
      (fun error =>
         emit (ConsoleError "Error fetching calendar events:") ;;
         showNotification (VStr "Failed to load calendar events") "error" ;;
         ret (VArr []))
      (set_isLoading false ;;
       updateLoadingState).

Section WithHost.
Variable H : Host.

(** [today] is the clock as [generateCalendarDays] reads it, [clock] as the
    callback of [generateUpcomingEvents] does. *)
Definition getGoogleCalendarHTML (m : CalendarManager) (today : Z)
    (clock : nat -> Z) : Result View :=
  rbind (generateCalendarDays H m today) (fun days =>
  rbind (generateUpcomingEvents H m clock) (fun upcoming =>
  Return (GoogleCalendarHTML (getMonth H (currentDate m))
            (getFullYear H (currentDate m)) days upcoming))).

Definition getCalendarHTML (m : CalendarManager) (today : Z)
    (clock : nat -> Z) : Result View :=
  if negb (has_google_access m) then Return NonGoogleUserHTML
  else getGoogleCalendarHTML m today clock.

(** [has_container]: whether [document.getElementById('calendar-container')]
    finds the element. *)
Definition renderCalendar (today : Z) (clock : nat -> Z) (reply : Reply)
  : M unit :=
  fun w =>
    if negb (has_container w) then (Return tt, w)
    else
      (m <- get_this ;;
       (if has_google_access m
        then fetchCalendarEvents reply ;; ret tt
        else ret tt) ;;
       m' <- get_this ;;
       html <- lift (getCalendarHTML m' today clock) ;;
       emit (SetInnerHTML html) ;;
       emit AttachCalendarEventListeners) w.

Definition navigateMonth (direction : Z) (today : Z) (clock : nat -> Z)
    (reply : Reply) : M unit :=
  m <- get_this ;;
  set_currentDate
    (setMonth H (currentDate m)
       (num_add (getMonth H (currentDate m)) (Some direction))) ;;
  renderCalendar today clock reply.

(** The two requests of a manual refresh get [reply1] and [reply2]. *)
Definition refreshCalendar (today : Z) (clock : nat -> Z)
    (reply1 reply2 : Reply) : M unit :=
  fetchCalendarEvents reply1 ;;
  renderCalendar today clock reply2.

End WithHost.

(** The requests issued, read off a trace. *)
Definition is_fetch (e : Effect) : bool :=
  match e with Fetch _ => true | _ => false end.
Definition fetches (tr : list Effect) : list Effect := filter is_fetch tr.

Definition is_notification (e : Effect) : bool :=
  match e with ShowNotification _ _ => true | _ => false end.
Definition notifications (tr : list Effect) : list Effect :=
  filter is_notification tr.

End Widget.
Import Widget.

(** ** A host to run the widget on

    A zone at a fixed offset from UTC, and a parser for the date-time string
    format of ECMAScript in its forms [YYYY-MM-DD] (read as UTC),
    [YYYY-MM-DDTHH:mm:ss] (read as local time) and [YYYY-MM-DDTHH:mm:ssZ];
    every other string is refused. *)

Module FixedZone.

Definition digit (c : ascii) : option Z :=
  let n := Z.of_nat (nat_of_ascii c) in
  if (48 <=? n) && (n <=? 57) then Some (n - 48) else None.

(** Exactly [n] digits. *)
Fixpoint number (n : nat) (acc : Z) (s : string) : option (Z * string) :=
  match n with
  | O => Some (acc, s)
  | S n' =>
      match s with
      | String c rest =>
          match digit c with
          | Some v => number n' (10 * acc + v) rest
          | None => None
          end
      | EmptyString => None
      end
  end.

Definition expect (c : ascii) (s : string) : option string :=
  match s with
  | String c' rest => if Ascii.eqb c c' then Some rest else None
  | EmptyString => None
  end.

Definition DaysInMonth (y m : Z) : Z :=
  MakeDay y (m + 1) 1 - MakeDay y m 1.

Definition obind {A B} (o : option A) (k : A -> option B) : option B :=
  match o with Some a => k a | None => None end.

Notation "x <-? o ;; k" := (obind o (fun x => k))
  (at level 61, o at next level, right associativity).

Definition parse_date (s : string) : option (Z * string) :=
  y <-? number 4 0 s ;;
  r <-? expect "-" (snd y) ;;
  mo <-? number 2 0 r ;;
  r <-? expect "-" (snd mo) ;;
  d <-? number 2 0 r ;;
  if (1 <=? fst mo) && (fst mo <=? 12) && (1 <=? fst d)
     && (fst d <=? DaysInMonth (fst y) (fst mo - 1))
  then Some (MakeDay (fst y) (fst mo - 1) (fst d), snd d)
  else None.

Definition parse_time (s : string) : option (Z * string) :=
  r <-? expect "T" s ;;
  hh <-? number 2 0 r ;;
  r <-? expect ":" (snd hh) ;;
  mm <-? number 2 0 r ;;
  r <-? expect ":" (snd mm) ;;
  ss <-? number 2 0 r ;;
  if (fst hh <=? 23) && (fst mm <=? 59) && (fst ss <=? 59)
  then Some (((fst hh * 60 + fst mm) * 60 + fst ss) * 1000, snd ss)
  else None.

Definition parse (offset : Z) (s : string) : option Z :=
  day <-? parse_date s ;;
  match snd day with
  | EmptyString => TimeClip (MakeDate (fst day) 0)
  | rest =>
      time <-? parse_time rest ;;
      match snd time with
      | EmptyString => TimeClip (MakeDate (fst day) (fst time) - offset)
      | "Z" => TimeClip (MakeDate (fst day) (fst time))
      | _ => None
      end
  end.

Definition host (offset : Z) : Host :=
  {| LocalTZA := fun _ _ => offset; Date_parse := parse offset |}.

Definition hour : Z := 3600000.

End FixedZone.

(** ** The normalized view of an event

    The widget never builds a normalized record: every renderer calls the
    accessors on the raw event.  The record below is what the accessors give
    for one event, gathered. *)

Module Normalized.

(** Modelled from the spec: the NormalizedEvent of the data model, with its
    fields [title], [startInstant], [link], [location] and [description]; no
    declaration of it exists in the source.  [startInstant] is what
    [getEventStartDate] gives: an instant, [null], or the exception it
    throws. *)
Record NormalizedEvent : Type := {
  title : JsValue;
  startInstant : Result (option Z);
  link : JsValue;
  location : JsValue;
  description : JsValue
}.

Definition normalize (H : Host) (event : JsValue) : NormalizedEvent :=
  {| title := getEventTitle event;
     startInstant := getEventStartDate H event;
     link := getEventHtmlLink event;
     location := event ?. "location";
     description := event ?. "description" |}.

(** Modelled from the spec: a NormalizedEvent-shaped input, the record as an
    object under the field names of the data model; the instant is carried as
    its time value. *)
Definition shaped (n : NormalizedEvent) : JsValue :=
  VObj [("title", title n);
        ("startInstant",
         match startInstant n with Return (Some t) => VNum t | _ => VNull end);
        ("link", link n);
        ("location", location n);
        ("description", description n)].

End Normalized.
Import Normalized.

(** ** Notions used in the statements *)

(** The message of the notification that a 403 answer ends in: the [error]
    of its body, the default of the 403 branch, or the message of the [catch]
    block when the body cannot be read or its [error] cannot be printed. *)
Definition denied_message (body : option JsValue) : JsValue :=
  match body with
  | Some b =>
      if nullish b then VStr "Failed to load calendar events"
      else
        let message := b ?. "error" ||. VStr "Calendar access denied" in
        if convertible message then message
        else VStr "Failed to load calendar events"
  | None => VStr "Failed to load calendar events"
  end.

(** An event whose start can be converted to a primitive: those on which
    [getEventStartDate] returns. *)
Definition datable (event : JsValue) : bool :=
  convertible (getEventStartString event).

(** An event whose start and title can be converted: the two values the grid
    works with. *)
Definition grid_printable (event : JsValue) : bool :=
  datable event && convertible (getEventTitle event).

(** An event all of whose printed values - start, title, link, start time,
    location, description - can be converted to a string. *)
Definition printable (event : JsValue) : bool :=
  forallb convertible
    [getEventStartString event; getEventTitle event; getEventHtmlLink event;
     event ?. "start_time"; event ?. "location"; event ?. "description"].

(** What a call gives when it returns, for a callback that answers yes or
    no. *)
Definition holds (r : Result bool) : bool :=
  match r with
  | Return b => b
  | Throw _ => false
  end.

(** The start instant of an event, when the accessor returns one. *)
Definition start_of (H : Host) (event : JsValue) : option Z :=
  match getEventStartDate H event with
  | Return d => d
  | Throw _ => None
  end.

(** The events that a successful answer stores. *)
Definition stored_events (body : JsValue) : JsValue :=
  body ?. "events" ||. VArr [].

Definition is_success (reply : Reply) : bool :=
  match reply with
  | Rejected => false
  | Response status _ => response_ok status
  end.

Definition shown (view : UpcomingView) : list Entry :=
  match view with
  | NoUpcomingEvents => []
  | Entries items => items
  end.

(** [sub] picks elements of [l] without changing their order. *)
Inductive Subsequence {A : Type} : list A -> list A -> Prop :=
| Subsequence_nil : Subsequence [] []
| Subsequence_skip x sub l : Subsequence sub l -> Subsequence sub (x :: l)
| Subsequence_keep x sub l : Subsequence sub l -> Subsequence (x :: sub) (x :: l).

(** A zone in which a local time read back from its instant falls on the same
    civil day, and whose offset stays below a day.  Every zone at a fixed
    offset is one. *)
Definition civil_zone (H : Host) : Prop :=
  (forall x, Day (LocalTime H (UTC H x)) = Day x) /\
  (forall x b, - msPerDay < LocalTZA H x b < msPerDay).

(** The years in which [new Date(year, month, 1)] takes the year as it is and
    the six weeks of the grid stay inside the range of time values. *)
Definition grid_year (y : Z) : Prop :=
  -270000 <= y <= 270000 /\ ~ (0 <= y <= 99).

(** Day numbers this far from the epoch leave room for a zone offset inside
    the range of time values. *)
Definition dayBound : Z := 99999900.

(** The stored events after a call that asks for the events when [access] is
    granted: a 2xx answer with a readable body replaces them, every other
    answer leaves them. *)
Definition events_after (access : bool) (reply : Reply) (old : JsValue)
  : JsValue :=
  match reply with
  | Response status (Some body) =>
      if access && response_ok status && negb (nullish body)
      then stored_events body
      else old
  | _ => old
  end.

(** What a test reads off a cell. *)
Definition cell_summary (c : DayCell) : Z * string * list JsValue :=
  (cell_number c, cell_data_date c, cell_titles c).

(** Months counted from year 0, to compare two reference months. *)
Definition monthIndex (y m : Z) : Z := 12 * y + m.

(** The length of month [m] (0..11) of year [y]. *)
Definition InLeapYear (y : Z) : bool :=
  ((y mod 4 =? 0) && negb (y mod 100 =? 0)) || (y mod 400 =? 0).

Definition month_length (y m : Z) : Z :=
  if m =? 1 then (if InLeapYear y then 29 else 28)
  else if (m =? 3) || (m =? 5) || (m =? 8) || (m =? 10) then 30
  else 31.

(** Whether the day of the month [d] exists in the month that lies [direction]
    months after month [m] of year [y]. *)
Definition day_in_target (y m d direction : Z) : Prop :=
  d <= month_length (y + (m + direction) / 12) ((m + direction) mod 12).

(** ** Sample events and states *)

Module Sample.

Definition advising_nested : JsValue :=
  VObj [("summary", VStr "Advising");
        ("start", VObj [("dateTime", VStr "2025-03-10T15:00:00Z")])].

Definition allday_nested : JsValue :=
  VObj [("summary", VStr "Holiday");
        ("start", VObj [("date", VStr "2025-03-10")])].

Definition advising : JsValue :=
  VObj [("summary", VStr "Advising");
        ("start_datetime", VStr "2025-03-10T15:00:00Z")].

Definition advising_linked : JsValue :=
  VObj [("summary", VStr "Advising");
        ("htmlLink", VStr "https://calendar.example/advising");
        ("start_datetime", VStr "2025-03-10T15:00:00Z")].

Definition granted : JsValue :=
  VObj [("has_google_access", VBool true); ("auth_method", VStr "google")].

(** 2025-03-03T12:00:00Z *)
Definition noon_march_3 : Z := 1741003200000.

(** 2025-01-31T12:00:00Z *)
Definition noon_january_31 : Z := 1738324800000.

Definition manager_with (now : Z) (status : JsValue) (evs : list JsValue)
  : CalendarManager :=
  {| currentDate := Some now;
     events := VArr evs;
     calendarStatus := status;
     refreshInterval := None;
     isLoading := false |}.

Definition world_with (now : Z) (status : JsValue) (evs : list JsValue)
  : World :=
  {| manager := manager_with now status evs;
     has_container := true;
     trace := [] |}.

(** 2024-02-15T12:00:00Z and 2023-02-15T12:00:00Z *)
Definition noon_february_2024 : Z := 1707998400000.
Definition noon_february_2023 : Z := 1676462400000.

(** 21:00 on March 10 for a viewer five hours west of UTC. *)
Definition study_group : JsValue :=
  VObj [("summary", VStr "Study group");
        ("start", VStr "2025-03-11T02:00:00Z")].

Definition zone_minus_5 : Host := FixedZone.host (-5 * FixedZone.hour).
Definition zone_plus_2 : Host := FixedZone.host (2 * FixedZone.hour).
Definition zone_utc : Host := FixedZone.host 0.

Definition ok_with (evs : list JsValue) : Reply :=
  Response 200 (Some (VObj [("events", VArr evs)])).

Definition access_revoked : Reply :=
  Response 403 (Some (VObj [("error", VStr "Access revoked")])).

(** An event whose start is an object with a property named [toString]. *)
Definition odd_start : JsValue :=
  VObj [("summary", VStr "Odd");
        ("start", VObj [("toString", VNum 1)])].

(** An event whose title is such an object. *)
Definition odd_title : JsValue :=
  VObj [("summary", VObj [("toString", VNum 1)]);
        ("start", VStr "2025-03-10T09:00:00Z")].

(** A 403 answer whose error is such an object. *)
Definition odd_denial : Reply :=
  Response 403 (Some (VObj [("error", VObj [("toString", VNum 1)])])).

(** 0050-01-15T00:00:00Z *)
Definition january_year_50 : Z := -60588086400000.

(** 2025-03-30T12:00:00Z and 2025-07-31T12:00:00Z *)
Definition noon_march_30 : Z := 1743336000000.
Definition noon_july_31 : Z := 1753963200000.

End Sample.

(** ** Day click and modal *)

Module Interaction.

(** One block of the modal of a day: the event and what the template prints
    of it.  [item_time] is the text of a given [start_time] ([None]: the time
    of the start, as the locale prints it); a location and a description are
    printed when they are truthy. *)
Record ModalItem : Type := {
  item_event : JsValue;
  item_title : string;
  item_time : option string;
  item_location : option string;
  item_description : option string
}.

(** What [showDayEventsModal(date, events)] appends to the page; the heading
    is the date [modal_date] as the locale prints it. *)
Record Modal : Type := {
  modal_date : string;
  modal_items : list ModalItem
}.

(** The template of one block: each [${...}] is evaluated and converted to a
    string in turn. *)
Definition modalItem (H : Host) (event : JsValue) : Result ModalItem :=
  rbind (ToString (getEventTitle event)) (fun title =>
  rbind (formatEventTimeFromEvent H event) (fun label =>
  rbind (time_text label) (fun time =>
  rbind (get event "location") (fun location =>
  rbind (optional_text location) (fun location_text =>
  rbind (get event "description") (fun description =>
  rbind (optional_text description) (fun description_text =>
  Return
    {| item_event := event;
       item_title := title;
       item_time := time;
       item_location := location_text;
       item_description := description_text |}))))))).

(** The modal is appended to the page after its markup is built. *)
Definition showDayEventsModal (H : Host) (date : string) (evs : list JsValue)
  : Result Modal :=
  rbind (mapR (modalItem H) evs) (fun items =>
  Return {| modal_date := date; modal_items := items |}).

(** [handleDayClick(event)], with [date] the [data-date] of the cell that
    was clicked: the modal that is shown, or [None] when none is. *)
Definition handleDayClick (H : Host) (this : CalendarManager) (date : string)
  : Result (option Modal) :=
  rbind (newDate_value H (VStr date)) (fun d =>
  rbind (getEventsForDate H this d) (fun dayEvents =>
  if (0 <? Z.of_nat (List.length dayEvents))
  then rbind (showDayEventsModal H date dayEvents) (fun modal =>
       Return (Some modal))
  else Return None)).

End Interaction.
Import Interaction.

(** ** Periodic refresh

    The timers of the page: the intervals that are armed, each with its
    handle and delay, and the handle the next [setInterval] returns.  Handles
    are positive and never reused. *)

Module Timer.

Record Timers : Type := {
  armed : list (Z * Z);
  next_handle : Z
}.

Definition setInterval (delay : Z) (t : Timers) : Z * Timers :=
  (next_handle t,
   {| armed := (next_handle t, delay) :: armed t;
      next_handle := next_handle t + 1 |}).

Definition clearInterval (handle : Z) (t : Timers) : Timers :=
  {| armed := filter (fun e => negb (fst e =? handle)) (armed t);
     next_handle := next_handle t |}.

Definition refreshDelay : Z := 5 * 60 * 1000.

Definition set_refreshInterval (h : option Z) (m : CalendarManager)
  : CalendarManager :=
  {| currentDate := currentDate m; events := events m;
     calendarStatus := calendarStatus m;
     refreshInterval := h;
     isLoading := isLoading m |}.

(** [if (this.refreshInterval)]: a handle other than 0. *)
Definition held (m : CalendarManager) : option Z :=
  match refreshInterval m with
  | Some h => if h =? 0 then None else Some h
  | None => None
  end.

Definition startAutoRefresh (s : CalendarManager * Timers)
  : CalendarManager * Timers :=
  let '(m, t) := s in
  let t1 := match held m with
            | Some h => clearInterval h t
            | None => t
            end in
  let '(h, t2) := setInterval refreshDelay t1 in
  (set_refreshInterval (Some h) m, t2).

Definition destroy (s : CalendarManager * Timers) : CalendarManager * Timers :=
  let '(m, t) := s in
  match held m with
  | Some h => (m, clearInterval h t)
  | None => (m, t)
  end.

(** What the interval callback writes into the regions of the page. *)
Inductive RegionWrite : Type :=
| GridHTML (days : list DayCell)
| UpcomingHTML (view : UpcomingView).

Definition attachCalendarEventListeners (w : World) : World :=
  {| manager := manager w; has_container := has_container w;
     trace := trace w ++ [AttachCalendarEventListeners] |}.

(** One run of the interval callback.  [has_grid] and [has_upcoming] tell
    whether [calendar-grid] and [upcoming-events] are in the page; [reply]
    answers the request, if one is made. *)
Definition refreshTick (H : Host) (today : Z) (clock : nat -> Z)
    (reply : Reply) (has_grid has_upcoming : bool) (w : World)
  : Result unit * World * list RegionWrite :=
  if has_google_access (manager w) && negb (isLoading (manager w)) then
    match fetchCalendarEvents reply w with
    | (Throw e, w1) => (Throw e, w1, [])
    | (Return _, w1) =>
        let grid :=
          if has_grid then
            rbind (generateCalendarDays H (manager w1) today) (fun days =>
            Return ([GridHTML days], attachCalendarEventListeners w1))
          else Return ([], w1) in
        match grid with
        | Throw e => (Throw e, w1, [])
        | Return (writes, w2) =>
            if has_upcoming then
              match generateUpcomingEvents H (manager w2) clock with
              | Return view => (Return tt, w2, writes ++ [UpcomingHTML view])
              | Throw e => (Throw e, w2, writes)
              end
            else (Return tt, w2, writes)
        end
    end
  else (Return tt, w, []).

End Timer.
Import Timer.

(** ** Startup

    [init] does not wait for [renderCalendar]: the call runs up to its first
    [await] - the request for the events, when access is granted - and the
    rest runs when the answer is in, after [init] has armed the timer. *)

Module Startup.

Notation "x <- m ;; k" := (bind m (fun x => k))
  (at level 61, m at next level, right associativity).
Notation "m ;; k" := (bind m (fun _ => k))
  (at level 61, right associativity).

(** [fetchCalendarEvents] from the access test up to [await fetch(...)]. *)
Definition fetchCalendarEvents_begin : M unit :=
  set_isLoading true ;;
  updateLoadingState ;;
  emit (Fetch events_url).

(** [fetchCalendarEvents] from the answer on. *)
Definition fetchCalendarEvents_resume (reply : Reply) : M JsValue :=
  try_catch_finally
    (response <- match reply with
                 | Rejected => throw NetworkFailure
                 | Response status body => ret (status, body)
                 end ;;
     if response_ok (fst response) then
       data <- json (snd response) ;;
       evs <- member data "events" ;;
       set_events (evs ||. VArr []) ;;
       showNotification (VStr "Calendar events updated") "success" ;;
       m' <- get_this ;;
       ret (events m')
     else if fst response =? 403 then
       error <- json (snd response) ;;
       msg <- member error "error" ;;
       showNotification (msg ||. VStr "Calendar access denied") "error" ;;
       ret (VArr [])
     else
       throw (Error "Failed to fetch calendar events"))
    (fun error =>
       emit (ConsoleError "Error fetching calendar events:") ;;
       showNotification (VStr "Failed to load calendar events") "error" ;;
       ret (VArr []))
    (set_isLoading false ;;
     updateLoadingState).

Section WithHost.
Variable H : Host.

(** [renderCalendar] after its [await]. *)
Definition renderCalendar_finish (today : Z) (clock : nat -> Z) : M unit :=
  m' <- get_this ;;
  html <- lift (getCalendarHTML H m' today clock) ;;
  emit (SetInnerHTML html) ;;
  emit AttachCalendarEventListeners.

(** [renderCalendar] up to its first [await]; [true] when the call is left
    waiting for the events. *)
Definition renderCalendar_start (today : Z) (clock : nat -> Z) (w : World)
  : bool * World :=
  if negb (has_container w) then (false, w)
  else if has_google_access (manager w)
  then (true, snd (fetchCalendarEvents_begin w))
  else (false, snd (renderCalendar_finish today clock w)).

(** The rest of a [renderCalendar] that was left waiting. *)
Definition renderCalendar_resume (today : Z) (clock : nat -> Z)
    (reply : Reply) : M unit :=
  fetchCalendarEvents_resume reply ;;
  renderCalendar_finish today clock.

(** The page as [init] sees it. *)
Record Page : Type := {
  world : World;
  timers : Timers;
  pending_render : bool
}.

Definition with_manager (m : CalendarManager) (w : World) : World :=
  {| manager := m; has_container := has_container w; trace := trace w |}.

(** [init()], up to the point where only the events are waited for. *)
Definition init (status_reply : Reply) (today : Z) (clock : nat -> Z)
    (w : World) (t : Timers) : Page :=
  let w1 := snd (checkCalendarStatus status_reply w) in
  let '(pending, w2) := renderCalendar_start today clock w1 in
  if has_google_access (manager w2) then
    let '(m3, t3) := startAutoRefresh (manager w2, t) in
    {| world := with_manager m3 w2; timers := t3; pending_render := pending |}
  else
    {| world := w2; timers := t; pending_render := pending |}.

(** The answer for the events arrives. *)
Definition init_resume (today : Z) (clock : nat -> Z) (reply : Reply)
    (p : Page) : Page :=
  if pending_render p then
    {| world := snd (renderCalendar_resume today clock reply (world p));
       timers := timers p;
       pending_render := false |}
  else p.

End WithHost.
End Startup.
Import Startup.

Module Sample2.

Definition timers0 : Timers := {| armed := [(3, 100)]; next_handle := 7 |}.

Definition status_granted : Reply := Response 200 (Some Sample.granted).

Definition three_events : list JsValue :=
  [VObj [("summary", VStr "A"); ("start", VStr "2025-03-10T09:00:00Z")];
   VObj [("title", VStr "B"); ("start_datetime", VStr "2025-03-10T11:00:00Z")];
   VObj [("start", VStr "2025-03-10T13:00:00Z")]].

Definition loading_world : World :=
  {| manager :=
       {| currentDate := Some Sample.noon_march_3;
          events := VArr [];
          calendarStatus := Sample.granted;
          refreshInterval := None;
          isLoading := true |};
     has_container := true;
     trace := [] |}.

End Sample2.

(** ** Kinds of answer *)

(** A body that [response.json()] gives and that has properties to read. *)
Definition readable (body : option JsValue) : bool :=
  match body with
  | Some b => negb (nullish b)
  | None => false
  end.

(** The answers that end in the [try] block of [fetchCalendarEvents] with
    the events stored. *)
Definition succeeds (reply : Reply) : bool :=
  match reply with
  | Rejected => false
  | Response status body => response_ok status && readable body
  end.

(** The answers that end in its [catch] block: a request that fails, a
    status other than 2xx and 403, or a body that cannot be read. *)
Definition generic_failure (reply : Reply) : bool :=
  match reply with
  | Rejected => true
  | Response status body =>
      if response_ok status || (status =? 403) then negb (readable body)
      else true
  end.

Definition status_url : string := "/api/student/me/calendar/status".

(** A write of the whole container. *)
Definition is_render (e : Effect) : bool :=
  match e with SetInnerHTML _ => true | _ => false end.
Definition renders (tr : list Effect) : list Effect := filter is_render tr.

(** Timers as the page keeps them: handles are positive and below the next
    one to be handed out. *)
Definition timers_ok (t : Timers) : Prop :=
  0 < next_handle t /\ forall e, In e (armed t) -> 0 < fst e < next_handle t.

(** The grid of March 2025 with three events on March 10, for a viewer on
    UTC. *)
Module SampleGrid.

Definition this : CalendarManager :=
  Sample.manager_with Sample.noon_march_3 Sample.granted Sample2.three_events.

Definition cells : list DayCell :=
  Eval vm_compute in
    match generateCalendarDays Sample.zone_utc this Sample.noon_march_3 with
    | Return cells => cells
    | Throw _ => []
    end.

Definition march_10 : DayCell :=
  Eval vm_compute in
    nth 15 cells
      {| cell_day := 0; cell_style := Normal; cell_marked := false;
         cell_data_date := ""; cell_number := 0; cell_titles := [];
         cell_texts := []; cell_more := None |}.

End SampleGrid.

(** * Properties *)

(** ** The civil calendar *)

Module CalendarFacts.

Ltac div_lia := Z.div_mod_to_equations; lia.

Lemma Day_MakeDate day time :
  0 <= time < msPerDay -> Day (MakeDate day time) = day.
Proof.
  unfold Day, MakeDate, msPerDay. intros Ht. div_lia.
Qed.

Lemma TimeWithinDay_range t : 0 <= TimeWithinDay t < msPerDay.
Proof.
  unfold TimeWithinDay, msPerDay. div_lia.
Qed.

Lemma WeekDayOfDay_range day : 0 <= WeekDayOfDay day <= 6.
Proof.
  unfold WeekDayOfDay. div_lia.
Qed.

Lemma WeekDayOfDay_week_start day :
  WeekDayOfDay (day - WeekDayOfDay day) = 0.
Proof.
  unfold WeekDayOfDay. div_lia.
Qed.

Lemma year_of_era_day yoe doy doe :
  0 <= yoe <= 399 -> 0 <= doy <= 364 ->
  doe = yoe * 365 + yoe / 4 - yoe / 100 + doy ->
  (doe - doe / 1460 + doe / 36524 - doe / 146096) / 365 = yoe.
Proof.
  intros Hy Hd ->. div_lia.
Qed.

Lemma month_of_year_day mp d doy :
  0 <= mp <= 11 -> 1 <= d <= 28 ->
  doy = (153 * mp + 2) / 5 + d - 1 ->
  (5 * doy + 2) / 153 = mp.
Proof.
  intros Hm Hd ->. div_lia.
Qed.

(** A day number gives back the date it was made of (for the days every
    month has). *)
Lemma civil_of_days_from_civil y m d :
  0 <= m <= 11 -> 1 <= d <= 28 ->
  civil_from_days (days_from_civil y m d) = (y, m, d).
Proof.
  intros Hm Hd.
  unfold days_from_civil.
  set (y' := if m <=? 1 then y - 1 else y).
  set (era := y' / 400).
  set (yoe := y' - era * 400).
  set (mp := if m <=? 1 then m + 10 else m - 2).
  set (doy := (153 * mp + 2) / 5 + d - 1).
  set (doe := yoe * 365 + yoe / 4 - yoe / 100 + doy).
  assert (Hyoe : 0 <= yoe <= 399) by (subst yoe era; div_lia).
  assert (Hmp : 0 <= mp <= 11) by (subst mp; destruct (m <=? 1) eqn:E; lia).
  assert (Hdoy : 0 <= doy <= 364) by (subst doy; div_lia).
  assert (Hdoe : 0 <= doe < 146097) by (subst doe; div_lia).
  unfold civil_from_days. cbv zeta.
  replace (era * 146097 + doe - 719468 + 719468) with (era * 146097 + doe) by lia.
  replace ((era * 146097 + doe) / 146097) with era by div_lia.
  replace (era * 146097 + doe - era * 146097) with doe by lia.
  rewrite (year_of_era_day yoe doy doe Hyoe Hdoy eq_refl).
  replace (doe - (365 * yoe + yoe / 4 - yoe / 100)) with doy by (subst doe; lia).
  rewrite (month_of_year_day mp d doy Hmp Hd eq_refl).
  replace (doy - (153 * mp + 2) / 5 + 1) with d by (subst doy; lia).
  subst mp yoe era y'.
  destruct (m <=? 1) eqn:E; [apply Z.leb_le in E | apply Z.leb_gt in E].
  - assert (E1 : (m + 10 <? 10) = false) by (apply Z.ltb_ge; lia). rewrite E1.
    replace (m + 10 - 10) with m by lia. rewrite (proj2 (Z.leb_le m 1) E).
    f_equal. f_equal. lia.
  - assert (E1 : (m - 2 <? 10) = true) by (apply Z.ltb_lt; lia). rewrite E1.
    replace (m - 2 + 2) with m by lia. rewrite (proj2 (Z.leb_gt m 1) E).
    f_equal. f_equal. lia.
Qed.

Lemma year_of_era_last_day yoe doe :
  0 <= yoe <= 399 ->
  (yoe + 1) mod 4 = 0 -> ((yoe + 1) mod 100 <> 0 \/ yoe = 399) ->
  doe = yoe * 365 + yoe / 4 - yoe / 100 + 365 ->
  (doe - doe / 1460 + doe / 36524 - doe / 146096) / 365 = yoe.
Proof.
  intros Hy H4 H100 ->. div_lia.
Qed.

Lemma month_of_year_day_in mp doy :
  0 <= mp <= 11 ->
  (153 * mp + 2) / 5 <= doy < (153 * (mp + 1) + 2) / 5 ->
  (5 * doy + 2) / 153 = mp.
Proof.
  intros Hm Hd. div_lia.
Qed.

Lemma InLeapYear_spec y :
  InLeapYear y = true <->
  y mod 4 = 0 /\ (y mod 100 <> 0 \/ y mod 400 = 0).
Proof.
  unfold InLeapYear.
  rewrite orb_true_iff, andb_true_iff, negb_true_iff, !Z.eqb_eq, Z.eqb_neq.
  split.
  - intros [[A B]|C]; [tauto|]. split; [div_lia | right; exact C].
  - intros [A [B|C]]; [left; tauto | right; exact C].
Qed.

(** A day number gives back the date it was made of, for every day that the
    month has. *)
Lemma civil_of_days_from_civil_month y m d :
  0 <= m <= 11 -> 1 <= d <= month_length y m ->
  civil_from_days (days_from_civil y m d) = (y, m, d).
Proof.
  intros Hm Hd.
  destruct (Z.le_gt_cases d 28) as [L|G];
    [apply civil_of_days_from_civil; lia|].
  unfold days_from_civil.
  set (y' := if m <=? 1 then y - 1 else y).
  set (era := y' / 400).
  set (yoe := y' - era * 400).
  set (mp := if m <=? 1 then m + 10 else m - 2).
  set (doy := (153 * mp + 2) / 5 + d - 1).
  set (doe := yoe * 365 + yoe / 4 - yoe / 100 + doy).
  assert (Hyoe : 0 <= yoe <= 399) by (subst yoe era; div_lia).
  assert (Hmp : 0 <= mp <= 11) by (subst mp; destruct (m <=? 1) eqn:E; lia).
  assert (Hin : (153 * mp + 2) / 5 <= doy < (153 * (mp + 1) + 2) / 5
                /\ 0 <= doy <= 365
                /\ (doy = 365 ->
                    (yoe + 1) mod 4 = 0
                    /\ ((yoe + 1) mod 100 <> 0 \/ yoe = 399))).
  { destruct (Z.eq_dec m 1) as [->|Nm].
    - change (month_length y 1) with (if InLeapYear y then 29 else 28) in Hd.
      destruct (InLeapYear y) eqn:Leap; [|lia].
      apply InLeapYear_spec in Leap.
      assert (Emp : mp = 11) by reflexivity.
      assert (Ey : y' = y - 1) by reflexivity.
      clearbody mp y'. subst mp y' doy.
      split; [div_lia | split; [div_lia | intros _]].
      subst yoe era. div_lia.
    - assert (Cases : m = 0 \/ m = 2 \/ m = 3 \/ m = 4 \/ m = 5 \/ m = 6
                      \/ m = 7 \/ m = 8 \/ m = 9 \/ m = 10 \/ m = 11) by lia.
      destruct Cases as [->|[->|[->|[->|[->|[->|[->|[->|[->|[->| ->]]]]]]]]]];
        cbn in Hd;
        (let v := eval vm_compute in mp in
         assert (Emp : mp = v) by reflexivity);
        clearbody mp; subst mp doy;
        (split; [div_lia | split; [div_lia | intros; div_lia]]). }
  destruct Hin as [Hin [Hdoy Hleap]].
  assert (Yoe : (doe - doe / 1460 + doe / 36524 - doe / 146096) / 365 = yoe).
  { destruct (Z.eq_dec doy 365) as [E|N].
    - destruct (Hleap E) as [H4 H100].
      apply year_of_era_last_day; try assumption. subst doe. lia.
    - apply (year_of_era_day yoe doy doe); [exact Hyoe | lia | reflexivity]. }
  assert (Hdoe : 0 <= doe < 146097).
  { subst doe. destruct (Z.eq_dec doy 365) as [E|N].
    - destruct (Hleap E) as [H4 H100]. div_lia.
    - div_lia. }
  unfold civil_from_days. cbv zeta.
  replace (era * 146097 + doe - 719468 + 719468) with (era * 146097 + doe) by lia.
  replace ((era * 146097 + doe) / 146097) with era by div_lia.
  replace (era * 146097 + doe - era * 146097) with doe by lia.
  rewrite Yoe.
  replace (doe - (365 * yoe + yoe / 4 - yoe / 100)) with doy by (subst doe; lia).
  rewrite (month_of_year_day_in mp doy Hmp Hin).
  replace (doy - (153 * mp + 2) / 5 + 1) with d by (subst doy; lia).
  subst mp yoe era y'.
  destruct (m <=? 1) eqn:E; [apply Z.leb_le in E | apply Z.leb_gt in E].
  - assert (E1 : (m + 10 <? 10) = false) by (apply Z.ltb_ge; lia). rewrite E1.
    replace (m + 10 - 10) with m by lia. rewrite (proj2 (Z.leb_le m 1) E).
    f_equal. f_equal. lia.
  - assert (E1 : (m - 2 <? 10) = true) by (apply Z.ltb_lt; lia). rewrite E1.
    replace (m - 2 + 2) with m by lia. rewrite (proj2 (Z.leb_gt m 1) E).
    f_equal. f_equal. lia.
Qed.

Lemma civil_month_range z :
  0 <= snd (fst (civil_from_days z)) <= 11.
Proof.
  unfold civil_from_days. cbv zeta. cbn [fst snd].
  set (z' := z + 719468).
  set (era := z' / 146097).
  set (doe := z' - era * 146097).
  set (yoe := (doe - doe / 1460 + doe / 36524 - doe / 146096) / 365).
  set (doy := doe - (365 * yoe + yoe / 4 - yoe / 100)).
  set (mp := (5 * doy + 2) / 153).
  assert (Hdoe : 0 <= doe < 146097) by (subst doe era; div_lia).
  assert (Hyoe : 0 <= yoe <= 399 /\ 0 <= doy <= 365) by (subst doy yoe; div_lia).
  assert (Hmp : 0 <= mp <= 11) by (subst mp; div_lia).
  destruct (mp <? 10) eqn:E; [apply Z.ltb_lt in E | apply Z.ltb_ge in E]; lia.
Qed.

Lemma civil_date_range z :
  1 <= snd (civil_from_days z) <= 31.
Proof.
  unfold civil_from_days. cbv zeta. cbn [fst snd].
  set (z' := z + 719468).
  set (era := z' / 146097).
  set (doe := z' - era * 146097).
  set (yoe := (doe - doe / 1460 + doe / 36524 - doe / 146096) / 365).
  set (doy := doe - (365 * yoe + yoe / 4 - yoe / 100)).
  set (mp := (5 * doy + 2) / 153).
  assert (Hdoe : 0 <= doe < 146097) by (subst doe era; div_lia).
  assert (Hyoe : 0 <= yoe <= 399 /\ 0 <= doy <= 365) by (subst doy yoe; div_lia).
  subst mp. div_lia.
Qed.

(** The date of a day number gives the day number back. *)
Lemma days_of_civil_from_days z :
  days_from_civil (fst (fst (civil_from_days z)))
    (snd (fst (civil_from_days z))) (snd (civil_from_days z)) = z.
Proof.
  unfold civil_from_days, days_from_civil. cbv zeta. cbn [fst snd].
  set (z' := z + 719468).
  set (era := z' / 146097).
  set (doe := z' - era * 146097).
  set (yoe := (doe - doe / 1460 + doe / 36524 - doe / 146096) / 365).
  set (doy := doe - (365 * yoe + yoe / 4 - yoe / 100)).
  set (mp := (5 * doy + 2) / 153).
  assert (Hdoe : 0 <= doe < 146097) by (subst doe era; div_lia).
  assert (Hyoe : 0 <= yoe <= 399 /\ 0 <= doy <= 365) by (subst doy yoe; div_lia).
  assert (Hmp : 0 <= mp <= 11) by (subst mp; div_lia).
  destruct (mp <? 10) eqn:E; [apply Z.ltb_lt in E | apply Z.ltb_ge in E].
  - assert (E1 : (mp + 2 <=? 1) = false) by (apply Z.leb_gt; lia). rewrite E1.
    replace ((yoe + era * 400) / 400) with era by div_lia.
    replace (mp + 2 - 2) with mp by lia.
    subst doy z'. div_lia.
  - assert (E1 : (mp - 10 <=? 1) = true) by (apply Z.leb_le; lia). rewrite E1.
    replace ((yoe + era * 400 + 1 - 1) / 400) with era by div_lia.
    replace (mp - 10 + 10) with mp by lia.
    subst doy z'. div_lia.
Qed.

Lemma days_from_civil_date y m d :
  days_from_civil y m d = days_from_civil y m 1 + d - 1.
Proof.
  unfold days_from_civil. lia.
Qed.

Lemma MakeDay_in_year y m d :
  0 <= m <= 11 -> MakeDay y m d = days_from_civil y m d.
Proof.
  intros Hm. unfold MakeDay.
  replace (m / 12) with 0 by div_lia.
  replace (m mod 12) with m by div_lia.
  rewrite (days_from_civil_date y m d).
  replace (y + 0) with y by lia. lia.
Qed.

(** [setDate] on a day number: the date of the month is replaced, with carry. *)
Lemma MakeDay_of_civil z n :
  MakeDay (fst (fst (civil_from_days z))) (snd (fst (civil_from_days z))) n
  = z - snd (civil_from_days z) + n.
Proof.
  rewrite MakeDay_in_year by apply civil_month_range.
  rewrite days_from_civil_date.
  pose proof (days_of_civil_from_days z) as R.
  rewrite days_from_civil_date in R. lia.
Qed.

(** The day numbers agree with ECMAScript's count of the days before a
    year. *)
Lemma days_from_civil_year_start y : days_from_civil y 0 1 = DayFromYear y.
Proof.
  unfold days_from_civil, DayFromYear.
  change (0 <=? 1) with true. cbv iota. div_lia.
Qed.

Lemma days_from_civil_bound y m :
  -270001 <= y <= 270001 -> 0 <= m <= 11 ->
  -99999000 <= days_from_civil y m 1 <= 99999000.
Proof.
  intros Hy Hm. unfold days_from_civil.
  destruct (m <=? 1) eqn:E; [apply Z.leb_le in E | apply Z.leb_gt in E];
    div_lia.
Qed.

Lemma TimeClip_in_range t :
  - maxTime <= t <= maxTime -> TimeClip t = Some t.
Proof.
  intros Ht. unfold TimeClip.
  destruct (Z.abs t <=? maxTime) eqn:E; [reflexivity|].
  apply Z.leb_gt in E. lia.
Qed.

End CalendarFacts.

(** ** Event normalizer *)

Module NormalizerFacts.

Lemma or_truthy a b : truthy a = true -> a ||. b = a.
Proof. unfold or. intros ->. reflexivity. Qed.

Lemma or_falsy a b : truthy a = false -> a ||. b = b.
Proof. unfold or. intros ->. reflexivity. Qed.

Lemma truthy_or a b : truthy b = true -> truthy (a ||. b) = true.
Proof. unfold or. destruct (truthy a) eqn:E; auto. Qed.

Lemma truthy_not_nullish v : truthy v = true -> nullish v = false.
Proof. destruct v; simpl; congruence. Qed.

Lemma getEventTitle_truthy event : truthy (getEventTitle event) = true.
Proof.
  unfold getEventTitle. apply truthy_or. reflexivity.
Qed.

(** C9. [getEventTitle] returns the [summary] when the event has one, else
    the [title] when it has one, else the literal "No Title" (a field is had
    when it holds a truthy value: a missing key, [null] and the empty string
    all count as missing); the result is never [null] or [undefined], and
    the function, being total, never throws. *)
Theorem getEventTitle_fallback (event : JsValue) :
  getEventTitle event =
    (if truthy (event ?. "summary") then event ?. "summary"
     else if truthy (event ?. "title") then event ?. "title"
     else VStr "No Title")
  /\ truthy (getEventTitle event) = true
  /\ nullish (getEventTitle event) = false.
Proof.
  pose proof (getEventTitle_truthy event) as T.
  split; [|split; [exact T | apply truthy_not_nullish, T]].
  unfold getEventTitle.
  destruct (truthy (event ?. "summary")) eqn:S.
  - rewrite !(or_truthy _ _ S). reflexivity.
  - rewrite (or_falsy _ _ S).
    destruct (truthy (event ?. "title")) eqn:T'.
    + apply or_truthy, T'.
    + apply or_falsy, T'.
Qed.

(** An event with neither field, whatever else it holds. *)
Lemma getEventTitle_missing (event : JsValue) :
  event ?. "summary" = VUndefined -> event ?. "title" = VUndefined ->
  getEventTitle event = VStr "No Title".
Proof.
  intros S T. unfold getEventTitle. rewrite S, T. reflexivity.
Qed.

(** The first two ways of giving a start work as the accessor intends. *)
Lemma getEventStartString_start_datetime event :
  truthy (event ?. "start_datetime") = true ->
  getEventStartString event = event ?. "start_datetime".
Proof.
  intros T. unfold getEventStartString.
  rewrite !(or_truthy _ _ T). reflexivity.
Qed.

Lemma getEventStartString_start event :
  truthy (event ?. "start_datetime") = false ->
  truthy (event ?. "start") = true ->
  getEventStartString event = event ?. "start".
Proof.
  intros F T. unfold getEventStartString.
  rewrite (or_falsy _ _ F).
  rewrite !(or_truthy _ _ T). reflexivity.
Qed.

(** A nested start object is truthy, so it is what the chain of [||]
    returns: the reads of [dateTime] and [date] behind it are never
    reached. *)
Lemma getEventStartString_start_object event fields :
  truthy (event ?. "start_datetime") = false ->
  event ?. "start" = VObj fields ->
  getEventStartString event = VObj fields.
Proof.
  intros F S. rewrite getEventStartString_start; auto.
  rewrite S. reflexivity.
Qed.

Lemma getEventStartDate_start_object H event fields :
  Date_parse H "[object Object]" = None ->
  truthy (event ?. "start_datetime") = false ->
  event ?. "start" = VObj fields ->
  has_own "toString" fields = false ->
  getEventStartDate H event = Return None.
Proof.
  intros P F S O. unfold getEventStartDate.
  rewrite (getEventStartString_start_object event fields F S).
  simpl. unfold newDate_value, ToPrimitive, ToString. simpl. rewrite O.
  simpl. rewrite P. reflexivity.
Qed.

Lemma getEventStartDate_string H event s :
  getEventStartString event = VStr s -> s <> "" ->
  getEventStartDate H event = Return (Date_parse H s).
Proof.
  intros E N. unfold getEventStartDate. rewrite E. simpl.
  destruct (String.eqb_spec s ""); [contradiction|]. reflexivity.
Qed.


Lemma ToString_convertible v : convertible v = true -> ToString v = Return (text v).
Proof. unfold ToString. intros ->. reflexivity. Qed.


Lemma optional_text_convertible v :
  convertible v = true -> exists t, optional_text v = Return t.
Proof.
  intros C. unfold optional_text. rewrite (ToString_convertible v C).
  destruct (truthy v); simpl; eauto.
Qed.

Lemma ToPrimitive_convertible v :
  convertible v = true -> exists p, ToPrimitive v = Return p.
Proof.
  intros C. unfold ToPrimitive.
  destruct v; eauto; rewrite (ToString_convertible _ C); simpl; eauto.
Qed.


(** [getEventStartDate] returns exactly on the events whose start can be
    converted to a primitive; on the others it throws a TypeError. *)
Lemma getEventStartDate_returns H event :
  convertible (getEventStartString event) = true ->
  exists d, getEventStartDate H event = Return d.
Proof.
  intros C. unfold getEventStartDate.
  destruct (truthy (getEventStartString event)); simpl; eauto.
  unfold newDate_value.
  destruct (ToPrimitive_convertible _ C) as [p ->]. simpl. eauto.
Qed.



Lemma printable_grid_printable event :
  printable event = true -> grid_printable event = true.
Proof.
  unfold printable, grid_printable, datable. cbn [forallb].
  rewrite !andb_true_iff. tauto.
Qed.

Lemma grid_printable_parts event :
  grid_printable event = true ->
  datable event = true /\ convertible (getEventTitle event) = true.
Proof.
  unfold grid_printable. rewrite andb_true_iff. tauto.
Qed.

Lemma start_of_Return H event d :
  getEventStartDate H event = Return d -> start_of H event = d.
Proof. unfold start_of. intros ->. reflexivity. Qed.

(** What [printable] asks of each printed value. *)
Lemma printable_parts event :
  printable event = true ->
  convertible (getEventStartString event) = true
  /\ convertible (getEventTitle event) = true
  /\ convertible (getEventHtmlLink event) = true
  /\ convertible (event ?. "start_time") = true
  /\ convertible (event ?. "location") = true
  /\ convertible (event ?. "description") = true.
Proof.
  unfold printable. cbn [forallb]. rewrite !andb_true_iff. tauto.
Qed.

(** C1. On the event of the specification's own scenario, whose start is the
    nested object [{dateTime: "2025-03-10T15:00:00Z"}], the start-string
    extraction returns the nested object itself, not its [dateTime], and the
    instant parser returns [null], although the host parses the [dateTime]
    string; the same holds for the nested all-day [date]. *)
Theorem getEventStartDate_nested_start_lost :
  getEventStartString Sample.advising_nested
    = VObj [("dateTime", VStr "2025-03-10T15:00:00Z")]
  /\ getEventStartDate Sample.zone_utc Sample.advising_nested = Return None
  /\ Date_parse Sample.zone_utc "2025-03-10T15:00:00Z" = Some 1741618800000
  /\ getEventStartString Sample.allday_nested
    = VObj [("date", VStr "2025-03-10")]
  /\ getEventStartDate Sample.zone_utc Sample.allday_nested = Return None
  /\ Date_parse Sample.zone_utc "2025-03-10" = Some 1741564800000.
Proof.
  repeat split; vm_compute; reflexivity.
Qed.

(** C8, as stated: normalizing the NormalizedEvent-shaped record of an
    event's normalized values does not give these values back; the link and
    the start instant are lost. *)
Lemma normalize_not_idempotent :
  normalize Sample.zone_utc
    (shaped (normalize Sample.zone_utc Sample.advising_linked))
  <> normalize Sample.zone_utc Sample.advising_linked.
Proof.
  vm_compute. intros E. discriminate E.
Qed.

Lemma getEventHtmlLink_values event :
  truthy (getEventHtmlLink event) = true \/ getEventHtmlLink event = VStr "".
Proof.
  unfold getEventHtmlLink.
  destruct (truthy (event ?. "htmlLink")) eqn:A.
  - left. rewrite !(or_truthy _ _ A). exact A.
  - rewrite (or_falsy _ _ A).
    destruct (truthy (event ?. "html_link")) eqn:B.
    + left. rewrite (or_truthy _ _ B). exact B.
    + right. apply or_falsy, B.
Qed.

(** C8, amended.  Normalizing the NormalizedEvent-shaped record of an
    event's normalized values gives back the title, the location and the
    description; the link comes back empty and the start instant [null],
    since the accessors read [htmlLink]/[html_link] and
    [start_datetime]/[start], not [link] and [startInstant].  So the whole
    record comes back exactly when the event has no link and no start
    instant. *)
Theorem normalize_shaped (H : Host) (event : JsValue) :
  let n := normalize H event in
  let n' := normalize H (shaped n) in
  title n' = title n
  /\ location n' = location n
  /\ description n' = description n
  /\ link n' = VStr ""
  /\ startInstant n' = Return None
  /\ (n' = n <-> link n = VStr "" /\ startInstant n = Return None).
Proof.
  intros n n'.
  assert (T : title n' = title n).
  { pose proof (getEventTitle_truthy event) as T.
    change (title n) with (getEventTitle event).
    change (title n')
      with (VUndefined ||. getEventTitle event ||. VStr "No Title").
    rewrite (or_falsy VUndefined _ eq_refl). apply or_truthy, T. }
  assert (L : link n' = VStr "") by reflexivity.
  assert (S : startInstant n' = Return None) by reflexivity.
  assert (Lo : location n' = location n) by reflexivity.
  assert (De : description n' = description n) by reflexivity.
  repeat (split; [assumption|]).
  split.
  - intros E. rewrite <- E. split; assumption.
  - intros [E1 E2]. destruct n' as [t' s' l' lo' d'], n as [t s l lo d].
    cbn in *. congruence.
Qed.

End NormalizerFacts.

(** ** Status check and event fetcher *)

Module FetcherFacts.

Ltac run :=
  cbv [checkCalendarStatus fetchCalendarEvents try_catch_finally try_catch
       bind ret throw emit get_this set_this lift fetch json member
       set_calendarStatus set_events set_isLoading updateLoadingState
       showNotification ToString fst snd];
  cbn [manager has_container trace currentDate events calendarStatus
       refreshInterval isLoading fst snd negb convertible].

(** The message of the 403 branch can be printed, or it cannot. *)
Ltac by_message :=
  try match goal with
      | |- context [convertible ?m] => destruct (convertible m) eqn:?; cbn
      | |- context [ToString ?m] => destruct (ToString m) eqn:?; cbn
      end.

Ltac in_trace :=
  cbn [trace]; repeat rewrite <- app_assoc;
  apply in_or_app; right; simpl; auto.

Lemma notifications_app tr tr' :
  notifications (tr ++ tr') = notifications tr ++ notifications tr'.
Proof. apply filter_app. Qed.

Lemma fetches_app tr tr' : fetches (tr ++ tr') = fetches tr ++ fetches tr'.
Proof. apply filter_app. Qed.

(** A 2xx answer that cannot be read as JSON degrades in the same way, and
    one that can is stored as it is. *)
Lemma checkCalendarStatus_unreadable status w :
  response_ok status = true ->
  calendarStatus (manager (snd (checkCalendarStatus (Response status None) w)))
  = safe_default.
Proof.
  intros T. run. rewrite T. reflexivity.
Qed.

Lemma checkCalendarStatus_success status v w :
  response_ok status = true ->
  calendarStatus
    (manager (snd (checkCalendarStatus (Response status (Some v)) w))) = v.
Proof.
  intros T. run. rewrite T. reflexivity.
Qed.

Lemma checkCalendarStatus_failure reply w :
  is_success reply = false ->
  calendarStatus (manager (snd (checkCalendarStatus reply w))) = safe_default.
Proof.
  intros F. destruct reply as [|status body]; run.
  - reflexivity.
  - simpl in F. rewrite F. reflexivity.
Qed.

Lemma checkCalendarStatus_returns reply w :
  fst (checkCalendarStatus reply w) = Return tt.
Proof.
  destruct reply as [|status body]; run; [reflexivity|].
  destruct (response_ok status); [destruct body|]; reflexivity.
Qed.

(** C7, as stated: after a check that completes, the stored status can be
    [null]; a 2xx answer whose body is the JSON value [null] is stored as it
    is. *)
Lemma checkCalendarStatus_stores_null :
  fst (checkCalendarStatus (Response 200 (Some VNull))
         (Sample.world_with Sample.noon_march_3 Sample.granted []))
    = Return tt
  /\ calendarStatus
       (manager (snd (checkCalendarStatus (Response 200 (Some VNull))
                        (Sample.world_with Sample.noon_march_3 Sample.granted
                           []))))
     = VNull.
Proof.
  split; vm_compute; reflexivity.
Qed.

(** C7, amended.  [checkCalendarStatus] never throws.  Whenever the status
    request does not end in a 2xx response - the response has another
    status, or the request itself fails - it stores exactly the safe default
    [{has_google_access: false, auth_method: "traditional"}], and so it does
    for a 2xx response whose body cannot be read.  A 2xx response with a
    readable body is stored as received; so after the check the stored
    status is [null] exactly when a 2xx response carries the JSON body
    [null]. *)
Theorem checkCalendarStatus_degrades (reply : Reply) (w : World) :
  fst (checkCalendarStatus reply w) = Return tt
  /\ (is_success reply = false ->
      calendarStatus (manager (snd (checkCalendarStatus reply w)))
      = VObj [("has_google_access", VBool false);
              ("auth_method", VStr "traditional")])
  /\ (forall status, reply = Response status None ->
      calendarStatus (manager (snd (checkCalendarStatus reply w)))
      = VObj [("has_google_access", VBool false);
              ("auth_method", VStr "traditional")])
  /\ (forall status body, reply = Response status (Some body) ->
      response_ok status = true ->
      calendarStatus (manager (snd (checkCalendarStatus reply w))) = body)
  /\ (calendarStatus (manager (snd (checkCalendarStatus reply w))) = VNull
      <-> exists status,
            reply = Response status (Some VNull) /\ response_ok status = true).
Proof.
  split; [apply checkCalendarStatus_returns|].
  split; [apply checkCalendarStatus_failure|].
  split.
  { intros status ->. destruct (response_ok status) eqn:OK.
    - apply checkCalendarStatus_unreadable, OK.
    - apply checkCalendarStatus_failure. exact OK. }
  split.
  { intros status body -> OK. apply checkCalendarStatus_success, OK. }
  split.
  - intros N. destruct (is_success reply) eqn:S.
    + destruct reply as [|status [body|]]; [discriminate S| |].
      * simpl in S. rewrite (checkCalendarStatus_success status body w S) in N.
        subst body. exists status. split; [reflexivity | exact S].
      * simpl in S. rewrite (checkCalendarStatus_unreadable status w S) in N.
        discriminate N.
    + rewrite (checkCalendarStatus_failure reply w S) in N. discriminate N.
  - intros [status [-> OK]]. apply checkCalendarStatus_success, OK.
Qed.

Lemma checkCalendarStatus_degrades_witness :
  fst (checkCalendarStatus (Response 500 None)
         (Sample.world_with Sample.noon_march_3 VNull [])) = Return tt
  /\ calendarStatus
       (manager (snd (checkCalendarStatus (Response 500 None)
                        (Sample.world_with Sample.noon_march_3 VNull []))))
     = VObj [("has_google_access", VBool false);
             ("auth_method", VStr "traditional")]
  /\ calendarStatus
       (manager (snd (checkCalendarStatus (Response 500 None)
                        (Sample.world_with Sample.noon_march_3 VNull []))))
     <> VNull.
Proof.
  destruct (checkCalendarStatus_degrades (Response 500 None)
              (Sample.world_with Sample.noon_march_3 VNull []))
    as [R [F [_ [_ N]]]].
  split; [exact R | split; [exact (F eq_refl)|]].
  intros E. apply N in E. destruct E as [status [E _]]. discriminate E.
Defined.

(** What one call of [fetchCalendarEvents] does, answer by answer, when
    access is granted. *)
Lemma fetchCalendarEvents_no_access reply w :
  has_google_access (manager w) = false ->
  fetchCalendarEvents reply w = (Return (VArr []), w).
Proof.
  intros F. unfold fetchCalendarEvents, bind, get_this. rewrite F. reflexivity.
Qed.

(** C10. In every run of [fetchCalendarEvents] that sets the loading flag,
    that is whenever provider access is granted, the flag is [false] again
    when the call ends, whatever the answer: a 2xx response, a 403, any
    other status, a body that cannot be read, or a request that fails; the
    call itself returns and does not throw. *)
Theorem fetchCalendarEvents_resets_isLoading reply w :
  has_google_access (manager w) = true ->
  isLoading (manager (snd (fetchCalendarEvents reply w))) = false
  /\ In (UpdateLoadingState true) (trace (snd (fetchCalendarEvents reply w)))
  /\ exists v, fst (fetchCalendarEvents reply w) = Return v.
Proof.
  intros A. run. rewrite !A. cbn [negb].
  destruct reply as [|status body]; run;
    [| destruct (response_ok status) eqn:OK;
       [| destruct (status =? 403) eqn:D];
       try (destruct body as [v|]; cbn; [destruct (nullish v) eqn:N; cbn|])];
    by_message;
    (split; [reflexivity|]; split; [in_trace | eexists; reflexivity]).
Qed.

Lemma fetchCalendarEvents_resets_isLoading_witness :
  isLoading
    (manager (snd (fetchCalendarEvents Rejected
                     (Sample.world_with Sample.noon_march_3 Sample.granted []))))
  = false
  /\ In (UpdateLoadingState true)
       (trace (snd (fetchCalendarEvents Rejected
                      (Sample.world_with Sample.noon_march_3 Sample.granted []))))
  /\ exists v,
       fst (fetchCalendarEvents Rejected
              (Sample.world_with Sample.noon_march_3 Sample.granted []))
       = Return v.
Proof.
  apply (fetchCalendarEvents_resets_isLoading Rejected
           (Sample.world_with Sample.noon_march_3 Sample.granted [])).
  reflexivity.
Defined.

(** A 2xx answer replaces the stored events by those of the body. *)
Lemma fetchCalendarEvents_success status body w :
  has_google_access (manager w) = true ->
  response_ok status = true -> nullish body = false ->
  fst (fetchCalendarEvents (Response status (Some body)) w)
    = Return (stored_events body)
  /\ events (manager (snd (fetchCalendarEvents (Response status (Some body)) w)))
    = stored_events body
  /\ currentDate
       (manager (snd (fetchCalendarEvents (Response status (Some body)) w)))
    = currentDate (manager w)
  /\ trace (snd (fetchCalendarEvents (Response status (Some body)) w))
    = trace w ++ [UpdateLoadingState true; Fetch events_url;
                  ShowNotification (VStr "Calendar events updated") "success";
                  UpdateLoadingState false].
Proof.
  intros A OK N. run. rewrite !A. cbn [negb]. run. rewrite !OK, !N. cbn.
  repeat split. rewrite <- !app_assoc. reflexivity.
Qed.

(** Every answer leaves the reference date and the status alone and asks the
    server once. *)
Lemma fetchCalendarEvents_frame reply w :
  has_google_access (manager w) = true ->
  currentDate (manager (snd (fetchCalendarEvents reply w)))
    = currentDate (manager w)
  /\ calendarStatus (manager (snd (fetchCalendarEvents reply w)))
    = calendarStatus (manager w)
  /\ has_container (snd (fetchCalendarEvents reply w)) = has_container w
  /\ fetches (trace (snd (fetchCalendarEvents reply w)))
    = fetches (trace w) ++ [Fetch events_url].
Proof.
  intros A. run. rewrite !A. cbn [negb].
  destruct reply as [|status body]; run;
    [| destruct (response_ok status) eqn:OK;
       [| destruct (status =? 403) eqn:D];
       try (destruct body as [v|]; cbn; [destruct (nullish v) eqn:N; cbn|])];
    by_message;
    (repeat split; rewrite !fetches_app; cbn; rewrite ?app_nil_r; reflexivity).
Qed.

(** An answer that is not a readable 2xx leaves the stored events alone. *)
Lemma fetchCalendarEvents_failure reply w :
  has_google_access (manager w) = true ->
  (forall status body,
      reply = Response status (Some body) ->
      response_ok status = true -> nullish body = true) ->
  events (manager (snd (fetchCalendarEvents reply w))) = events (manager w).
Proof.
  intros A P. run. rewrite !A. cbn [negb].
  destruct reply as [|status body]; run; [reflexivity|].
  destruct (response_ok status) eqn:OK.
  - destruct body as [v|]; cbn; [|reflexivity].
    rewrite (P status v eq_refl OK). reflexivity.
  - destruct (status =? 403) eqn:D; [|reflexivity].
    destruct body as [v|]; cbn; [destruct (nullish v) eqn:N; cbn|];
      by_message; reflexivity.
Qed.

(** C6, as stated: a 403 answer does not leave the stored event list empty
    when an earlier fetch has filled it; the events stay as they were. *)
Lemma fetchCalendarEvents_403_keeps_stale_events :
  events
    (manager (snd (fetchCalendarEvents Sample.access_revoked
                     (Sample.world_with Sample.noon_march_3 Sample.granted
                        [Sample.advising]))))
  <> VArr [].
Proof.
  vm_compute. discriminate.
Qed.

(** A 403 answer whose [error] cannot be printed: the call of
    [showNotification] in the 403 branch throws before anything is shown,
    and the [catch] block logs the error and shows its own message. *)
Lemma fetchCalendarEvents_403_unprintable_error :
  trace (snd (fetchCalendarEvents Sample.odd_denial
                (Sample.world_with Sample.noon_march_3 Sample.granted [])))
  = [UpdateLoadingState true;
     Fetch events_url;
     ConsoleError "Error fetching calendar events:";
     ShowNotification (VStr "Failed to load calendar events") "error";
     UpdateLoadingState false].
Proof.
  vm_compute. reflexivity.
Qed.

(** C6, amended.  When the event request is answered by a 403, with access
    granted, [fetchCalendarEvents] returns the empty list without throwing,
    emits one error notification - the [error] of the body, or "Calendar
    access denied" when the body has none, or "Failed to load calendar
    events" when the body cannot be read or its [error] cannot be converted
    to a string - and leaves the stored event list as it was: empty only if
    it was empty before. *)
Theorem fetchCalendarEvents_403 body w :
  has_google_access (manager w) = true ->
  fst (fetchCalendarEvents (Response 403 body) w) = Return (VArr [])
  /\ notifications (trace (snd (fetchCalendarEvents (Response 403 body) w)))
     = notifications (trace w)
       ++ [ShowNotification (denied_message body) "error"]
  /\ events (manager (snd (fetchCalendarEvents (Response 403 body) w)))
     = events (manager w)
  /\ (events (manager w) = VArr [] ->
      events (manager (snd (fetchCalendarEvents (Response 403 body) w)))
      = VArr []).
Proof.
  intros A.
  assert (E : events (manager (snd (fetchCalendarEvents (Response 403 body) w)))
              = events (manager w)).
  { apply fetchCalendarEvents_failure; [exact A|].
    intros status b [= <- _] OK. discriminate OK. }
  split; [|split; [|split; [exact E | intros Z; rewrite E; exact Z]]].
  - run. rewrite !A. cbn [negb]. run.
    destruct body as [v|]; cbn; [destruct (nullish v); cbn|]; by_message;
      reflexivity.
  - unfold denied_message. run. rewrite !A. cbn [negb]. run.
    destruct body as [v|]; cbn; [destruct (nullish v) eqn:N; cbn|];
      by_message;
      rewrite !notifications_app; cbn; rewrite ?app_nil_r; reflexivity.
Qed.

Lemma fetchCalendarEvents_403_witness :
  fst (fetchCalendarEvents Sample.access_revoked
         (Sample.world_with Sample.noon_march_3 Sample.granted []))
    = Return (VArr [])
  /\ notifications
       (trace (snd (fetchCalendarEvents Sample.access_revoked
                      (Sample.world_with Sample.noon_march_3 Sample.granted []))))
     = [ShowNotification (VStr "Access revoked") "error"]
  /\ events
       (manager (snd (fetchCalendarEvents Sample.access_revoked
                        (Sample.world_with Sample.noon_march_3 Sample.granted []))))
     = VArr [].
Proof.
  destruct (fetchCalendarEvents_403
              (Some (VObj [("error", VStr "Access revoked")]))
              (Sample.world_with Sample.noon_march_3 Sample.granted [])
              eq_refl) as [R [N [_ E]]].
  split; [exact R | split; [exact N | exact (E eq_refl)]].
Defined.

End FetcherFacts.

(** ** Callbacks that may throw *)

Module ResultFacts.

(** Splits a hypothesis [rbind r k = Return _] into the value of [r] and the
    rest. *)
Ltac rbind_inv h :=
  repeat match type of h with
         | rbind ?r _ = Return _ =>
             let e := fresh "R" in
             destruct r eqn:e; cbn [rbind] in h; [|discriminate h]
         end.

Lemma filterR_returns {A} (p : A -> Result bool) (l : list A) :
  Forall (fun x => exists b, p x = Return b) l ->
  filterR p l = Return (filter (fun x => holds (p x)) l).
Proof.
  induction 1 as [|x l [b E] _ IH]; simpl; [reflexivity|].
  rewrite E, IH. simpl. reflexivity.
Qed.

Lemma filterR_Return {A} (p : A -> Result bool) (l kept : list A) :
  filterR p l = Return kept ->
  kept = filter (fun x => holds (p x)) l
  /\ Forall (fun x => exists b, p x = Return b) l.
Proof.
  revert kept. induction l as [|x l IH]; simpl; intros kept R.
  - inversion R. split; constructor.
  - rbind_inv R. inversion R; subst kept.
    destruct (IH _ eq_refl) as [-> F]. split.
    + reflexivity.
    + constructor; [exists a; exact R0 | exact F].
Qed.


Lemma mapR_returns {A B} (f : A -> Result B) (l : list A) :
  Forall (fun x => exists y, f x = Return y) l ->
  exists ys, mapR f l = Return ys.
Proof.
  induction 1 as [|x l [y E] _ [ys IH]]; simpl; [eauto|].
  rewrite E, IH. simpl. eauto.
Qed.

(** The results of [l.map(f)] stand in the order of [l]. *)
Lemma mapR_Return {A B} (f : A -> Result B) (l : list A) (ys : list B) :
  mapR f l = Return ys -> Forall2 (fun x y => f x = Return y) l ys.
Proof.
  revert ys. induction l as [|x l IH]; simpl; intros ys R.
  - inversion R. constructor.
  - rbind_inv R. inversion R; subst ys. constructor; auto.
Qed.

Lemma mapR_Throw {A B} (f : A -> Result B) (l : list A) e :
  mapR f l = Throw e -> exists x, In x l /\ f x = Throw e.
Proof.
  induction l as [|x l IH]; simpl; [discriminate|].
  destruct (f x) as [y|e'] eqn:P; simpl.
  - destruct (mapR f l) as [ys|e'']; simpl; [discriminate|].
    intros [= <-]. destruct (IH eq_refl) as [z [I Q]]. exists z. auto.
  - intros [= <-]. exists x. auto.
Qed.

Lemma Forall_firstn {A} (P : A -> Prop) (n : nat) (l : list A) :
  Forall P l -> Forall P (firstn n l).
Proof.
  intros F. revert n. induction F; intros [|n]; simpl; constructor; auto.
Qed.

Lemma Forall_filter {A} (P : A -> Prop) (p : A -> bool) (l : list A) :
  Forall P l -> Forall P (filter p l).
Proof.
  induction 1; simpl; [constructor|].
  destruct (p x); [constructor|]; auto.
Qed.

End ResultFacts.

(** ** Upcoming list *)

Module UpcomingFacts.

Import NormalizerFacts ResultFacts.

Lemma isUpcoming_returns H now event :
  convertible (getEventStartString event) = true ->
  exists b, isUpcoming H now event = Return b.
Proof.
  intros C. unfold isUpcoming.
  destruct (getEventStartDate_returns H event C) as [d ->]. simpl. eauto.
Qed.


Lemma isUpcoming_iff H now event :
  holds (isUpcoming H now event) = true <->
  exists d, getEventStartDate H event = Return (Some d) /\ now <= d.
Proof.
  unfold isUpcoming. destruct (getEventStartDate H event) as [[d|]|e]; simpl.
  - rewrite Z.leb_le. split.
    + intros L. exists d. auto.
    + intros [d' [[= <-] L]]. exact L.
  - split; [discriminate | intros [d [E _]]; discriminate E].
  - split; [discriminate | intros [d [E _]]; discriminate E].
Qed.

(** Only an object can be kept: every other value has no start. *)
Lemma isUpcoming_not_nullish H now event :
  holds (isUpcoming H now event) = true -> nullish event = false.
Proof.
  destruct event; try reflexivity; vm_compute; discriminate.
Qed.


Lemma Subsequence_nil_l {A} (l : list A) : Subsequence [] l.
Proof.
  induction l; constructor; assumption.
Qed.

Lemma Subsequence_firstn {A} (n : nat) (l : list A) :
  Subsequence (firstn n l) l.
Proof.
  revert n. induction l as [|x l IH]; intros [|n]; simpl.
  - constructor.
  - constructor.
  - apply Subsequence_nil_l.
  - apply Subsequence_keep, IH.
Qed.

Lemma Subsequence_trans {A} (a b c : list A) :
  Subsequence a b -> Subsequence b c -> Subsequence a c.
Proof.
  intros AB BC. revert a AB.
  induction BC as [|x sub l BC IH|x sub l BC IH]; intros a AB.
  - exact AB.
  - constructor. apply IH, AB.
  - inversion AB; subst.
    + apply Subsequence_skip, IH. assumption.
    + apply Subsequence_keep, IH. assumption.
Qed.

Lemma In_firstn {A} (n : nat) (l : list A) x : In x (firstn n l) -> In x l.
Proof.
  revert n. induction l as [|y l IH]; intros [|n]; simpl; try tauto.
  intros [E|I]; [left; exact E | right; exact (IH n I)].
Qed.

(** The template of a block completes on a printable event that is not
    [null] or [undefined]. *)
Lemma entry_returns H event :
  printable event = true -> nullish event = false ->
  exists e, entry H event = Return e.
Proof.
  intros P N.
  destruct (printable_parts event P) as [Cs [Ct [Cl [Cst [Clo Cd]]]]].
  unfold entry, formatEventDateFromEvent, formatEventTimeFromEvent, get.
  destruct (getEventStartDate_returns H event Cs) as [d ->]. rewrite N.
  cbn [rbind].
  assert (T : exists t,
             rbind (if truthy (event ?. "start_time")
                    then Return (GivenTime (event ?. "start_time"))
                    else Return (LocaleTime d)) time_text = Return t).
  { destruct (truthy (event ?. "start_time")); cbn [rbind time_text].
    - rewrite (ToString_convertible _ Cst). simpl. eauto.
    - eauto. }
  destruct (truthy (event ?. "start_time")); cbn [rbind] in *;
    destruct T as [t ->]; cbn [rbind];
    rewrite (ToString_convertible _ Ct); cbn [rbind];
    destruct (optional_text_convertible _ Clo) as [lo ->]; cbn [rbind];
    destruct (optional_text_convertible _ Cd) as [de ->]; cbn [rbind];
    destruct (optional_text_convertible _ Cl) as [li ->]; cbn [rbind];
    eauto.
Qed.

Lemma entry_event_Return H event e :
  entry H event = Return e -> entry_event e = event.
Proof.
  unfold entry. intros R. rbind_inv R. inversion R. reflexivity.
Qed.

Lemma map_entry_event H evs items :
  mapR (entry H) evs = Return items -> map entry_event items = evs.
Proof.
  intros R. apply mapR_Return in R.
  induction R as [|x y l l' E _ IH]; simpl; [reflexivity|].
  rewrite IH, (entry_event_Return H x y E). reflexivity.
Qed.

(** What [generateUpcomingEvents] returns lists the first five of the events
    that the filter kept. *)
Lemma generateUpcomingEvents_Return H this clock evs view :
  events this = VArr evs ->
  generateUpcomingEvents H this clock = Return view ->
  exists kept,
    filterUpcoming H clock 0 evs = Return kept
    /\ map entry_event (shown view) = firstn 5 kept.
Proof.
  intros E. unfold generateUpcomingEvents. rewrite E.
  destruct evs as [|e rest].
  - intros [= <-]. exists []. split; reflexivity.
  - generalize (e :: rest). intros l R. unfold upcomingEvents in R.
    rbind_inv R. injection R as <-. rbind_inv R0. injection R0 as <-.
    eexists. split; [reflexivity|].
    cbn [shown]. eapply map_entry_event. eassumption.
Qed.

(** It returns whenever the filter does and the events kept are printable. *)
Lemma generateUpcomingEvents_returns H this clock evs kept :
  events this = VArr evs ->
  filterUpcoming H clock 0 evs = Return kept ->
  Forall (fun e => printable e = true /\ nullish e = false) (firstn 5 kept) ->
  exists view, generateUpcomingEvents H this clock = Return view.
Proof.
  intros E K F. unfold generateUpcomingEvents, upcomingEvents. rewrite E.
  destruct evs as [|e rest]; [eauto|].
  revert K. generalize (e :: rest). intros l K.
  rewrite K. cbn [rbind].
  destruct (mapR_returns (entry H) (firstn 5 kept)) as [items ->].
  - eapply Forall_impl; [|exact F]. intros x [P N]. apply entry_returns; auto.
  - simpl. eauto.
Qed.





(** With a clock that moves on while the callback runs, an event is kept
    when it starts no earlier than the reading taken for it. *)
Lemma filterUpcoming_In H clock k evs kept event :
  filterUpcoming H clock k evs = Return kept ->
  In event kept ->
  exists j, holds (isUpcoming H (clock j) event) = true.
Proof.
  revert k kept. induction evs as [|e rest IH]; intros k kept; simpl.
  - intros [= <-] [].
  - intros R. rbind_inv R. inversion R; subst kept.
    destruct a.
    + intros [<-|I]; [exists k; rewrite R0; reflexivity | exact (IH _ _ R1 I)].
    + intros I. exact (IH _ _ R1 I).
Qed.

Lemma filterUpcoming_Subsequence H clock k evs kept :
  filterUpcoming H clock k evs = Return kept -> Subsequence kept evs.
Proof.
  revert k kept. induction evs as [|e rest IH]; intros k kept; simpl.
  - intros [= <-]. constructor.
  - intros R. rbind_inv R. inversion R; subst kept.
    destruct a; [apply Subsequence_keep | apply Subsequence_skip];
      exact (IH _ _ R1).
Qed.

Lemma filterUpcoming_returns H clock k evs :
  Forall (fun e => printable e = true) evs ->
  exists kept, filterUpcoming H clock k evs = Return kept.
Proof.
  intros F. revert k. induction F as [|e rest P _ IH]; intros k; simpl.
  - eauto.
  - destruct (isUpcoming_returns H (clock k) e) as [b ->].
    { apply (printable_parts e P). }
    destruct (IH (S k)) as [kept ->]. simpl. eauto.
Qed.

End UpcomingFacts.

(** ** Month grid *)

Module GridFacts.
Import CalendarFacts NormalizerFacts ResultFacts.

Lemma onDate_returns H dateStr event :
  datable event = true -> exists b, onDate H dateStr event = Return b.
Proof.
  intros C. unfold onDate.
  destruct (getEventStartDate_returns H event C) as [d ->]. simpl. eauto.
Qed.


(** The titles of printable events can be printed. *)
Lemma titles_print (l : list JsValue) :
  Forall (fun e => grid_printable e = true) l ->
  exists texts, mapR ToString (map getEventTitle l) = Return texts.
Proof.
  intros F. apply mapR_returns. apply Forall_map.
  eapply Forall_impl; [|exact F]. intros e P.
  exists (text (getEventTitle e)).
  apply ToString_convertible. apply (grid_printable_parts e P).
Qed.

(** On every host and in every state, a grid that is returned has 42 cells:
    the loop adds one cell per round and runs [totalDays] rounds. *)
Lemma daysLoop_length H this today month startDate fuel :
  forall i daysHTML cells,
    daysLoop H this today month startDate fuel i daysHTML = Return cells ->
    List.length cells = (List.length daysHTML + fuel)%nat.
Proof.
  induction fuel as [|fuel IH]; intros i daysHTML cells; cbn [daysLoop].
  - intros [= <-]. lia.
  - destruct (dayCell H this today month startDate i) as [cell|e];
      cbn [rbind]; [|discriminate].
    intros R. rewrite (IH _ _ _ R), length_app. cbn. lia.
Qed.

Lemma generateCalendarDays_length H this today cells :
  generateCalendarDays H this today = Return cells ->
  List.length cells = 42%nat.
Proof.
  unfold generateCalendarDays. intros R.
  rewrite (daysLoop_length _ _ _ _ _ _ _ _ _ R). reflexivity.
Qed.

Section InZone.
Variable H : Host.
Hypothesis zone : civil_zone H.

Lemma LocalTime_UTC_Day x : Day (LocalTime H (UTC H x)) = Day x.
Proof. apply (proj1 zone). Qed.

Lemma UTC_in_range day time :
  - dayBound <= day <= dayBound -> 0 <= time < msPerDay ->
  TimeClip (UTC H (MakeDate day time)) = Some (UTC H (MakeDate day time)).
Proof.
  intros Hd Ht. apply TimeClip_in_range.
  pose proof (proj2 zone (MakeDate day time) false) as Hz.
  unfold UTC, MakeDate, maxTime, dayBound, msPerDay in *. lia.
Qed.

Lemma Day_LocalTime_UTC_MakeDate day time :
  0 <= time < msPerDay ->
  Day (LocalTime H (UTC H (MakeDate day time))) = day.
Proof.
  intros Ht. rewrite LocalTime_UTC_Day. apply Day_MakeDate, Ht.
Qed.

(** [setDate] moves a Date to the day [n] of its month, counted with carry
    from the first of the month. *)
Lemma setDate_Day tv n :
  let z := Day (LocalTime H tv) in
  - dayBound <= z - DateFromTime (LocalTime H tv) + n <= dayBound ->
  exists tv',
    setDate H (Some tv) (Some n) = Some tv'
    /\ Day (LocalTime H tv') = z - DateFromTime (LocalTime H tv) + n.
Proof.
  intros z Hb. unfold setDate.
  unfold YearFromTime, MonthFromTime. fold z.
  rewrite MakeDay_of_civil.
  unfold DateFromTime in *. fold z in Hb |- *.
  pose proof (TimeWithinDay_range (LocalTime H tv)) as Ht.
  rewrite UTC_in_range by assumption.
  eexists. split; [reflexivity|].
  apply Day_LocalTime_UTC_MakeDate, Ht.
Qed.

(** [new Date(year, month, 1)] is the first day of that month. *)
Lemma newDate_ymd_first y m :
  grid_year y -> 0 <= m <= 11 ->
  exists tv,
    newDate_ymd H (Some y) (Some m) (Some 1) = Some tv
    /\ Day (LocalTime H tv) = days_from_civil y m 1
    /\ - (dayBound - 100) <= days_from_civil y m 1 <= dayBound - 100.
Proof.
  intros [Hy Hc] Hm. unfold newDate_ymd, MakeFullYear.
  assert (E : (0 <=? y) && (y <=? 99) = false).
  { apply andb_false_iff.
    destruct (Z.leb_spec 0 y); [|left; reflexivity].
    destruct (Z.leb_spec y 99); [lia | right; reflexivity]. }
  rewrite E. rewrite MakeDay_in_year by exact Hm.
  assert (Hb : -99999000 <= days_from_civil y m 1 <= 99999000)
    by (apply days_from_civil_bound; lia).
  rewrite UTC_in_range by (unfold dayBound, msPerDay; lia).
  eexists. split; [reflexivity|]. split.
  - apply Day_LocalTime_UTC_MakeDate. unfold msPerDay. lia.
  - unfold dayBound. lia.
Qed.

Variable this : CalendarManager.
Variable today : Z.
Variable evs : list JsValue.
Hypothesis events_array : events this = VArr evs.
Hypothesis events_printable : Forall (fun e => grid_printable e = true) evs.

Lemma getEventsForDate_array t :
  getEventsForDate H this (Some t)
  = Return (filter (fun e => holds (onDate H (isoDate t) e)) evs).
Proof.
  unfold getEventsForDate. rewrite events_array. cbn [toISODate as_array rbind].
  apply filterR_returns.
  eapply Forall_impl; [|exact events_printable]. intros e P.
  apply onDate_returns. apply (grid_printable_parts e P).
Qed.

(** The cell of index [i] stands for the day [i] days after the start of the
    grid. *)
Lemma dayCell_Day month ts i :
  let s := Day (LocalTime H ts) in
  - (dayBound - 50) <= s <= dayBound - 50 -> 0 <= i <= 41 ->
  exists cell,
    dayCell H this today month (Some ts) i = Return cell
    /\ Day (LocalTime H (cell_day cell)) = s + i
    /\ cell_number cell = snd (civil_from_days (s + i))
    /\ cell_titles cell
       = map getEventTitle
           (firstn 2
              (filter (fun e => holds (onDate H (isoDate (cell_day cell)) e))
                 evs))
    /\ cell_data_date cell = isoDate (cell_day cell).
Proof.
  intros s Hs Hi. unfold dayCell.
  cbn [getDate option_map num_add].
  destruct (setDate_Day ts (DateFromTime (LocalTime H ts) + i))
    as [tv [E D]].
  { fold s. lia. }
  fold s in D. rewrite E. rewrite getEventsForDate_array. cbn [rbind].
  destruct (titles_print
              (firstn 2 (filter (fun e => holds (onDate H (isoDate tv) e)) evs)))
    as [texts ->].
  { apply Forall_firstn, Forall_filter, events_printable. }
  cbn [rbind].
  eexists. split; [reflexivity|]. cbn [cell_day cell_number cell_titles
                                       cell_data_date].
  replace (s - DateFromTime (LocalTime H ts)
           + (DateFromTime (LocalTime H ts) + i)) with (s + i) in D by lia.
  split; [exact D|]. split; [|split; reflexivity].
  unfold DateFromTime. rewrite D. reflexivity.
Qed.

Lemma daysLoop_cells month ts fuel :
  let s := Day (LocalTime H ts) in
  - (dayBound - 50) <= s <= dayBound - 50 ->
  forall i daysHTML,
    0 <= i -> i + Z.of_nat fuel <= 42 ->
    exists cells,
      daysLoop H this today month (Some ts) fuel i daysHTML
        = Return (daysHTML ++ cells)
      /\ List.length cells = fuel
      /\ forall j, (j < fuel)%nat ->
         exists cell,
           nth_error cells j = Some cell
           /\ Day (LocalTime H (cell_day cell)) = s + i + Z.of_nat j
           /\ cell_number cell = snd (civil_from_days (s + i + Z.of_nat j)).
Proof.
  intros s Hs. induction fuel as [|fuel IH]; intros i daysHTML Hi Hf.
  - exists []. cbn. rewrite app_nil_r. repeat split. intros j Hj. lia.
  - cbn [daysLoop].
    destruct (dayCell_Day month ts i Hs) as [cell [E [D [N _]]]]; [lia|].
    fold s in D, N. rewrite E. cbn [rbind].
    destruct (IH (i + 1) (daysHTML ++ [cell])) as [cells [L [Len P]]];
      [lia | lia |].
    exists (cell :: cells). rewrite L, <- app_assoc. split; [reflexivity|].
    split; [cbn; rewrite Len; reflexivity|].
    intros [|j] Hj.
    + exists cell. cbn. rewrite Z.add_0_r. auto.
    + destruct (P j) as [c [Nth [Dc Nc]]]; [lia|].
      exists c. cbn [nth_error]. split; [exact Nth|].
      replace (s + i + Z.of_nat (S j)) with (s + (i + 1) + Z.of_nat j) by lia.
      auto.
Qed.

End InZone.

(** C2, amended.  For every reference date - in a zone that keeps civil
    days, in a year outside 0..99 (which [new Date(year, month, 1)] takes as
    it is) and within 270000 years of the epoch, with an array of events
    stored whose starts and titles can be converted to a string -
    [generateCalendarDays] returns exactly 42 cells; the first cell is the
    Sunday on or before the first day of the reference month, at most six
    days back, and the cell of index [i] is the day [i] days later, whatever
    the length of the month. *)
Theorem generateCalendarDays_42_consecutive
    (H : Host) (this : CalendarManager) (today t : Z) (evs : list JsValue) :
  civil_zone H ->
  currentDate this = Some t ->
  events this = VArr evs ->
  Forall (fun e => grid_printable e = true) evs ->
  grid_year (YearFromTime (LocalTime H t)) ->
  let year := YearFromTime (LocalTime H t) in
  let month := MonthFromTime (LocalTime H t) in
  let first := days_from_civil year month 1 in
  let start := first - WeekDayOfDay first in
  exists cells,
    generateCalendarDays H this today = Return cells
    /\ List.length cells = 42%nat
    /\ civil_from_days first = (year, month, 1)
    /\ WeekDayOfDay start = 0
    /\ first - 6 <= start <= first
    /\ forall i, (i < 42)%nat ->
       exists cell,
         nth_error cells i = Some cell
         /\ Day (LocalTime H (cell_day cell)) = start + Z.of_nat i
         /\ cell_number cell = snd (civil_from_days (start + Z.of_nat i)).
Proof.
  intros zone Cur Ev Pr Gy year month first start.
  assert (Hm : 0 <= month <= 11) by apply civil_month_range.
  assert (Cf : civil_from_days first = (year, month, 1))
    by (apply civil_of_days_from_civil; lia).
  pose proof (WeekDayOfDay_range first) as Hw.
  unfold generateCalendarDays. rewrite Cur.
  cbn [getFullYear getMonth option_map]. fold year month.
  destruct (newDate_ymd_first H zone year month Gy Hm) as [tf [Ef [Df Bf]]].
  fold first in Df, Bf. rewrite Ef.
  cbn [getDate getDay option_map num_sub].
  destruct (setDate_Day H zone tf
              (DateFromTime (LocalTime H tf) - WeekDay (LocalTime H tf)))
    as [ts [Es Ds]].
  { rewrite Df. unfold WeekDay. rewrite Df. unfold dayBound in *. lia. }
  rewrite Es.
  assert (S : Day (LocalTime H ts) = start).
  { rewrite Ds, Df. unfold WeekDay. rewrite Df. unfold start. lia. }
  destruct (daysLoop_cells H zone this today evs Ev Pr (Some month) ts
              totalDays)
    with (i := 0) (daysHTML := @nil DayCell) as [cells [L [Len P]]].
  { rewrite S. unfold start, dayBound in *. lia. }
  { lia. }
  { unfold totalDays. lia. }
  exists cells. cbn [app] in L. split; [exact L|].
  split; [exact Len|]. split; [exact Cf|].
  split; [apply WeekDayOfDay_week_start|]. split; [unfold start; lia|].
  intros i Hi. destruct (P i Hi) as [cell [Nth [Dc Nc]]].
  exists cell. rewrite S, Z.add_0_r in Dc, Nc. auto.
Qed.

End GridFacts.

(** ** The sample zones *)

Module ZoneFacts.
Import CalendarFacts.

Lemma fixed_zone_civil offset :
  - msPerDay < offset < msPerDay -> civil_zone (FixedZone.host offset).
Proof.
  intros Ho. split.
  - intros x. unfold LocalTime, UTC. cbn. f_equal. lia.
  - intros x b. cbn. exact Ho.
Qed.

Lemma zone_plus_2_civil : civil_zone Sample.zone_plus_2.
Proof.
  apply fixed_zone_civil. unfold msPerDay. cbn. lia.
Qed.

Lemma zone_utc_civil : civil_zone Sample.zone_utc.
Proof.
  apply fixed_zone_civil. unfold msPerDay. lia.
Qed.

Lemma grid_year_2025 : grid_year 2025.
Proof.
  unfold grid_year. lia.
Qed.

Lemma noon_march_3_year :
  -270000 <= YearFromTime (LocalTime Sample.zone_utc Sample.noon_march_3)
  <= 270000.
Proof.
  split; apply Z.leb_le; vm_compute; reflexivity.
Qed.

Lemma noon_march_3_date :
  DateFromTime (LocalTime Sample.zone_utc Sample.noon_march_3) <= 28.
Proof.
  apply Z.leb_le. vm_compute. reflexivity.
Qed.

End ZoneFacts.

Module GridExamples.
Import GridFacts ZoneFacts.

Lemma generateCalendarDays_42_consecutive_witness :
  exists cells,
    generateCalendarDays Sample.zone_plus_2
      (Sample.manager_with Sample.noon_march_3 Sample.granted [Sample.advising])
      Sample.noon_march_3 = Return cells
    /\ List.length cells = 42%nat.
Proof.
  destruct (generateCalendarDays_42_consecutive Sample.zone_plus_2
              (Sample.manager_with Sample.noon_march_3 Sample.granted
                 [Sample.advising])
              Sample.noon_march_3 Sample.noon_march_3 [Sample.advising]
              zone_plus_2_civil eq_refl eq_refl
              (Forall_cons Sample.advising
                 (eq_refl : grid_printable Sample.advising = true)
                 (Forall_nil _))
              grid_year_2025)
    as [cells [R [L _]]].
  exists cells. split; [exact R | exact L].
Defined.

(** February of a leap year and of a common year: 42 cells, from the Sunday
    before the 1st to the Saturday six weeks on. *)
Lemma generateCalendarDays_february :
  (exists cells,
      generateCalendarDays Sample.zone_utc
        (Sample.manager_with Sample.noon_february_2024 Sample.granted [])
        Sample.noon_march_3 = Return cells
      /\ List.length cells = 42%nat
      /\ map cell_data_date (firstn 1 cells ++ skipn 41 cells)
         = ["2024-01-28"; "2024-03-09"])
  /\ (exists cells,
      generateCalendarDays Sample.zone_utc
        (Sample.manager_with Sample.noon_february_2023 Sample.granted [])
        Sample.noon_march_3 = Return cells
      /\ List.length cells = 42%nat
      /\ map cell_data_date (firstn 1 cells ++ skipn 41 cells)
         = ["2023-01-29"; "2023-03-11"]).
Proof.
  split; eexists; (split; [vm_compute; reflexivity|]);
    split; vm_compute; reflexivity.
Qed.

(** C2, as stated: for the reference month January of the year 50 the grid
    does not start on the Sunday on or before January 1st of the year 50;
    [new Date(50, 0, 1)] is January 1st, 1950, and the grid starts there. *)
Lemma generateCalendarDays_year_50 :
  let H := Sample.zone_utc in
  let t := Sample.january_year_50 in
  let first :=
    days_from_civil (YearFromTime (LocalTime H t)) (MonthFromTime (LocalTime H t))
      1 in
  exists cells,
    generateCalendarDays H (Sample.manager_with t Sample.granted [])
      Sample.noon_march_3 = Return cells
    /\ (YearFromTime (LocalTime H t), MonthFromTime (LocalTime H t)) = (50, 0)
    /\ map cell_data_date (firstn 1 cells) = ["1950-01-01"]
    /\ map (fun c => Day (LocalTime H (cell_day c))) (firstn 1 cells)
       <> [first - WeekDayOfDay first].
Proof.
  cbv zeta. eexists. split; [vm_compute; reflexivity|].
  split; [vm_compute; reflexivity|].
  split; [vm_compute; reflexivity|].
  vm_compute. discriminate.
Qed.

(** No grid is returned when the start of a stored event, or the title of an
    event that a cell shows, is an object with a property named [toString]:
    [new Date(s)] and the template convert it, and the conversion throws. *)
Lemma generateCalendarDays_throws :
  generateCalendarDays Sample.zone_utc
    (Sample.manager_with Sample.noon_march_3 Sample.granted
       [Sample.advising; Sample.odd_start])
    Sample.noon_march_3 = Throw TypeError
  /\ generateCalendarDays Sample.zone_utc
       (Sample.manager_with Sample.noon_march_3 Sample.granted
          [Sample.odd_title])
       Sample.noon_march_3 = Throw TypeError.
Proof.
  split; vm_compute; reflexivity.
Qed.

(** The part of the placement that holds: a cell lists at most two titles
    and counts the events beyond two. *)
Lemma dayCell_overflow H this today month startDate i cell :
  dayCell H this today month startDate i = Return cell ->
  exists dayEvents,
    getEventsForDate H this (Some (cell_day cell)) = Return dayEvents
    /\ cell_titles cell = map getEventTitle (firstn 2 dayEvents)
    /\ (List.length (cell_titles cell) <= 2)%nat
    /\ cell_more cell
       = if 2 <? Z.of_nat (List.length dayEvents)
         then Some (Z.of_nat (List.length dayEvents) - 2) else None.
Proof.
  unfold dayCell.
  destruct (setDate H startDate (num_add (getDate H startDate) (Some i)))
    as [t|]; [|discriminate].
  destruct (getEventsForDate H this (Some t)) as [dayEvents|e] eqn:G;
    [|discriminate].
  cbn [rbind].
  destruct (mapR ToString (map getEventTitle (firstn 2 dayEvents)))
    as [texts|e]; [|discriminate].
  cbn [rbind]. intros [= <-]. cbn [cell_day cell_titles cell_more].
  exists dayEvents. split; [exact G|]. split; [reflexivity|].
  split; [|reflexivity].
  rewrite length_map. destruct dayEvents as [|a [|b rest]]; cbn; lia.
Qed.

(** C4. A viewer two hours east of UTC looks at March 2025; the one stored
    event starts at 2025-03-10T15:00:00Z, which is 17:00 on March 10 in the
    viewer's calendar.  The cell of March 10 (index 15 of the grid, key
    "2025-03-09") shows no event, and the cell of March 11 (key
    "2025-03-10") shows it: events are matched on the UTC date of the cell's
    local midnight, not on the local date of the cell. *)
Theorem generateCalendarDays_places_by_UTC_date :
  exists cells,
    generateCalendarDays Sample.zone_plus_2
      (Sample.manager_with Sample.noon_march_3 Sample.granted [Sample.advising])
      Sample.noon_march_3 = Return cells
    /\ (exists start,
          getEventStartDate Sample.zone_plus_2 Sample.advising
          = Return (Some start)
          /\ civil_from_days (Day (LocalTime Sample.zone_plus_2 start))
             = (2025, 2, 10))
    /\ map (fun c => civil_from_days (Day (LocalTime Sample.zone_plus_2 (cell_day c))))
         (firstn 2 (skipn 15 cells))
       = [(2025, 2, 10); (2025, 2, 11)]
    /\ map cell_summary (firstn 2 (skipn 15 cells))
       = [(10, "2025-03-09", []); (11, "2025-03-10", [VStr "Advising"])].
Proof.
  eexists. split; [vm_compute; reflexivity|].
  split; [eexists; split; [vm_compute; reflexivity | vm_compute; reflexivity]|].
  split; vm_compute; reflexivity.
Qed.

(** West of UTC the keys of the cells are their local dates, and an evening
    event moves to the next day: 21:00 on March 10, five hours west, is
    02:00Z on March 11 and is shown in the cell of March 11. *)
Lemma generateCalendarDays_evening_event_west :
  exists cells,
    generateCalendarDays Sample.zone_minus_5
      (Sample.manager_with Sample.noon_march_3 Sample.granted
         [Sample.study_group])
      Sample.noon_march_3 = Return cells
    /\ option_map
         (fun start => civil_from_days (Day (LocalTime Sample.zone_minus_5 start)))
         (start_of Sample.zone_minus_5 Sample.study_group)
       = Some (2025, 2, 10)
    /\ map cell_summary (firstn 2 (skipn 15 cells))
       = [(10, "2025-03-10", []); (11, "2025-03-11", [VStr "Study group"])].
Proof.
  eexists. split; [vm_compute; reflexivity|].
  split; vm_compute; reflexivity.
Qed.

End GridExamples.

(** ** Month navigation *)

Module NavigationFacts.
Import CalendarFacts GridFacts FetcherFacts ZoneFacts.

Lemma monthIndex_carry y m :
  monthIndex (y + m / 12) (m mod 12) = monthIndex y m.
Proof.
  unfold monthIndex. div_lia.
Qed.

(** [setMonth] on a day that every month has moves the reference month by
    the change of the month number and keeps the day of the month. *)
Lemma setMonth_month H tv n :
  civil_zone H ->
  let t := LocalTime H tv in
  -270000 <= YearFromTime t <= 270000 ->
  1 <= DateFromTime t <= 28 ->
  -12 <= n <= 23 ->
  exists tv',
    setMonth H (Some tv) (Some n) = Some tv'
    /\ monthIndex (YearFromTime (LocalTime H tv'))
         (MonthFromTime (LocalTime H tv'))
       = monthIndex (YearFromTime t) n
    /\ DateFromTime (LocalTime H tv') = DateFromTime t.
Proof.
  intros zone t Hy Hd Hn. unfold setMonth. fold t.
  set (y := YearFromTime t) in *. set (d := DateFromTime t) in *.
  assert (Hm : 0 <= n mod 12 <= 11) by div_lia.
  assert (Hc : -270001 <= y + n / 12 <= 270001) by div_lia.
  unfold MakeDay.
  pose proof (days_from_civil_bound (y + n / 12) (n mod 12) Hc Hm) as Hb.
  pose proof (TimeWithinDay_range t) as Ht.
  rewrite (UTC_in_range H zone) by (unfold dayBound; lia).
  eexists. split; [reflexivity|].
  unfold YearFromTime, MonthFromTime, DateFromTime.
  rewrite (Day_LocalTime_UTC_MakeDate H zone) by exact Ht.
  replace (days_from_civil (y + n / 12) (n mod 12) 1 + d - 1)
    with (days_from_civil (y + n / 12) (n mod 12) d)
    by (rewrite (days_from_civil_date _ _ d); reflexivity).
  rewrite civil_of_days_from_civil by assumption. cbn [fst snd].
  split; [apply monthIndex_carry | reflexivity].
Qed.

(** [setMonth] on a day that the target month has moves the reference month
    by the change of the month number and keeps the day of the month. *)
Lemma setMonth_month_length H tv n :
  civil_zone H ->
  let t := LocalTime H tv in
  -270000 <= YearFromTime t <= 270000 ->
  DateFromTime t <= month_length (YearFromTime t + n / 12) (n mod 12) ->
  -12 <= n <= 23 ->
  exists tv',
    setMonth H (Some tv) (Some n) = Some tv'
    /\ monthIndex (YearFromTime (LocalTime H tv'))
         (MonthFromTime (LocalTime H tv'))
       = monthIndex (YearFromTime t) n
    /\ DateFromTime (LocalTime H tv') = DateFromTime t.
Proof.
  intros zone t Hy Hd Hn. unfold setMonth. fold t.
  pose proof (civil_date_range (Day t)) as Hd1.
  change (snd (civil_from_days (Day t))) with (DateFromTime t) in Hd1.
  set (y := YearFromTime t) in *. set (d := DateFromTime t) in *.
  assert (Hm : 0 <= n mod 12 <= 11) by div_lia.
  assert (Hc : -270001 <= y + n / 12 <= 270001) by div_lia.
  unfold MakeDay.
  pose proof (days_from_civil_bound (y + n / 12) (n mod 12) Hc Hm) as Hb.
  pose proof (TimeWithinDay_range t) as Ht.
  rewrite (UTC_in_range H zone) by (unfold dayBound; lia).
  eexists. split; [reflexivity|].
  unfold YearFromTime, MonthFromTime, DateFromTime.
  rewrite (Day_LocalTime_UTC_MakeDate H zone) by exact Ht.
  replace (days_from_civil (y + n / 12) (n mod 12) 1 + d - 1)
    with (days_from_civil (y + n / 12) (n mod 12) d)
    by (rewrite (days_from_civil_date _ _ d); reflexivity).
  rewrite civil_of_days_from_civil_month by (try assumption; lia).
  cbn [fst snd].
  split; [apply monthIndex_carry | reflexivity].
Qed.

Lemma fetchCalendarEvents_returns reply w :
  exists v, fst (fetchCalendarEvents reply w) = Return v.
Proof.
  run. destruct (has_google_access (manager w)); cbn [negb];
    [|eexists; reflexivity].
  destruct reply as [|status body]; run;
    [| destruct (response_ok status) eqn:OK;
       [| destruct (status =? 403) eqn:D];
       try (destruct body as [v|]; cbn; [destruct (nullish v) eqn:N; cbn|])];
    by_message;
    by_message; eexists; reflexivity.
Qed.

Lemma fetchCalendarEvents_events reply w :
  events (manager (snd (fetchCalendarEvents reply w)))
  = events_after (has_google_access (manager w)) reply (events (manager w)).
Proof.
  destruct (has_google_access (manager w)) eqn:A.
  - destruct reply as [|status [body|]].
    + apply fetchCalendarEvents_failure; [exact A | discriminate].
    + cbn [events_after andb].
      destruct (response_ok status) eqn:OK;
        [destruct (nullish body) eqn:N|]; cbn [andb negb].
      * apply fetchCalendarEvents_failure; [exact A|].
        intros s b [= <- <-] _. exact N.
      * apply fetchCalendarEvents_success; assumption.
      * apply fetchCalendarEvents_failure; [exact A|].
        intros s b [= <- <-] OK'. congruence.
    + apply fetchCalendarEvents_failure; [exact A | discriminate].
  - rewrite fetchCalendarEvents_no_access by exact A.
    destruct reply as [|status [body|]]; reflexivity.
Qed.

(** After the events are in, rendering changes neither the manager nor the
    requests made. *)
Lemma renderCalendar_outcome H today clock reply w :
  has_container w = true ->
  let w1 := if has_google_access (manager w)
            then snd (fetchCalendarEvents reply w) else w in
  exists r tr,
    renderCalendar H today clock reply w
    = (r, {| manager := manager w1; has_container := has_container w1;
             trace := trace w1 ++ tr |})
    /\ fetches tr = [].
Proof.
  intros C w1. unfold renderCalendar. rewrite C. cbn [negb].
  unfold bind, get_this, ret, lift, emit.
  destruct (has_google_access (manager w)) eqn:A.
  - destruct (fetchCalendarEvents_returns reply w) as [v R].
    destruct (fetchCalendarEvents reply w) as [r w'] eqn:E.
    cbn [fst snd] in *. subst r w1.
    destruct (getCalendarHTML H (manager w') today clock) as [html|e];
      cbn [manager has_container trace].
    + eexists. exists [SetInnerHTML html; AttachCalendarEventListeners].
      split; [|reflexivity]. rewrite <- app_assoc. reflexivity.
    + eexists. exists []. split; [|reflexivity].
      destruct w'. cbn. rewrite app_nil_r. reflexivity.
  - subst w1.
    destruct (getCalendarHTML H (manager w) today clock) as [html|e];
      cbn [manager has_container trace].
    + eexists. exists [SetInnerHTML html; AttachCalendarEventListeners].
      split; [|reflexivity]. rewrite <- app_assoc. reflexivity.
    + eexists. exists []. split; [|reflexivity].
      destruct w. cbn. rewrite app_nil_r. reflexivity.
Qed.

(** C5, as stated: with access granted, going to the next month asks the
    server for the events, and the answer replaces the stored list. *)
Lemma navigateMonth_fetches :
  fetches
    (trace (snd (navigateMonth Sample.zone_utc 1 Sample.noon_march_3
                   (fun _ => Sample.noon_march_3)
                   (Sample.ok_with [Sample.advising])
                   (Sample.world_with Sample.noon_march_3 Sample.granted []))))
  = [Fetch events_url]
  /\ events
       (manager (snd (navigateMonth Sample.zone_utc 1 Sample.noon_march_3
                        (fun _ => Sample.noon_march_3)
                        (Sample.ok_with [Sample.advising])
                        (Sample.world_with Sample.noon_march_3 Sample.granted []))))
     <> events
          (manager (Sample.world_with Sample.noon_march_3 Sample.granted [])).
Proof.
  split; [vm_compute; reflexivity|].
  vm_compute. discriminate.
Qed.

(** From the 31st of January, "next month" lands in March: the day of the
    month is carried into a month that does not have it. *)
Lemma navigateMonth_from_january_31 :
  option_map (fun t => MonthFromTime (LocalTime Sample.zone_utc t))
    (currentDate
       (manager (snd (navigateMonth Sample.zone_utc 1 Sample.noon_january_31
                        (fun _ => Sample.noon_january_31) Rejected
                        (Sample.world_with Sample.noon_january_31
                           Sample.granted [])))))
  = Some 2.
Proof.
  vm_compute. reflexivity.
Qed.

(** From the 30th of March "next month" is the 30th of April, and from the
    31st of July the 31st of August. *)
Lemma navigateMonth_from_march_30 :
  option_map (fun t => civil_from_days (Day (LocalTime Sample.zone_utc t)))
    (currentDate
       (manager (snd (navigateMonth Sample.zone_utc 1 Sample.noon_march_30
                        (fun _ => Sample.noon_march_30) Rejected
                        (Sample.world_with Sample.noon_march_30
                           Sample.granted [])))))
  = Some (2025, 3, 30)
  /\ option_map (fun t => civil_from_days (Day (LocalTime Sample.zone_utc t)))
       (currentDate
          (manager (snd (navigateMonth Sample.zone_utc 1 Sample.noon_july_31
                           (fun _ => Sample.noon_july_31) Rejected
                           (Sample.world_with Sample.noon_july_31
                              Sample.granted [])))))
     = Some (2025, 7, 31).
Proof.
  split; vm_compute; reflexivity.
Qed.

(** C5, amended.  While the widget is rendered, prev/next navigation calls
    [setMonth(getMonth() + direction)] and renders again.  The render asks
    the server for the events once when provider access is granted and not
    at all otherwise; the stored event list is replaced by what a readable
    2xx answer carries and is left as it was by every other answer.  The
    reference month moves by exactly one month, the day of the month kept,
    whenever the target month has that day (in a zone that keeps civil days
    and a year within 270000 of the epoch). *)
Theorem navigateMonth_step (H : Host) (direction today : Z)
    (clock : nat -> Z) (reply : Reply) (w : World) :
  has_container w = true ->
  let w' := snd (navigateMonth H direction today clock reply w) in
  fetches (trace w')
  = fetches (trace w)
    ++ (if has_google_access (manager w) then [Fetch events_url] else [])
  /\ events (manager w')
     = events_after (has_google_access (manager w)) reply (events (manager w))
  /\ forall t,
       civil_zone H ->
       currentDate (manager w) = Some t ->
       -270000 <= YearFromTime (LocalTime H t) <= 270000 ->
       direction = 1 \/ direction = -1 ->
       day_in_target (YearFromTime (LocalTime H t))
         (MonthFromTime (LocalTime H t)) (DateFromTime (LocalTime H t))
         direction ->
       exists t',
         currentDate (manager w') = Some t'
         /\ monthIndex (YearFromTime (LocalTime H t'))
              (MonthFromTime (LocalTime H t'))
            = monthIndex (YearFromTime (LocalTime H t))
                (MonthFromTime (LocalTime H t)) + direction
         /\ DateFromTime (LocalTime H t') = DateFromTime (LocalTime H t).
Proof.
  intros C w'.
  set (d' := setMonth H (currentDate (manager w))
               (num_add (getMonth H (currentDate (manager w)))
                  (Some direction))).
  set (w0 := {| manager :=
                  {| currentDate := d';
                     events := events (manager w);
                     calendarStatus := calendarStatus (manager w);
                     refreshInterval := refreshInterval (manager w);
                     isLoading := isLoading (manager w) |};
                has_container := has_container w;
                trace := trace w |}).
  assert (N : navigateMonth H direction today clock reply w
              = renderCalendar H today clock reply w0) by reflexivity.
  destruct (renderCalendar_outcome H today clock reply w0 C) as [r [tr [R F]]].
  assert (A0 : has_google_access (manager w0) = has_google_access (manager w))
    by reflexivity.
  unfold w'. rewrite N, R. cbn [snd manager trace]. rewrite A0.
  rewrite fetches_app, F, app_nil_r.
  split; [|split].
  - destruct (has_google_access (manager w)) eqn:A.
    + destruct (fetchCalendarEvents_frame reply w0 A) as [_ [_ [_ Fe]]].
      rewrite Fe. reflexivity.
    + rewrite app_nil_r. reflexivity.
  - destruct (has_google_access (manager w)) eqn:A.
    + rewrite fetchCalendarEvents_events, A0. reflexivity.
    + destruct reply as [|status [body|]]; reflexivity.
  - intros t zone Cur Hy Hdir Hday.
    pose proof (civil_month_range (Day (LocalTime H t))) as Hm.
    destruct (setMonth_month_length H t
                (MonthFromTime (LocalTime H t) + direction) zone)
      as [t' [Es [Mi Da]]];
      [exact Hy | exact Hday | unfold MonthFromTime; lia |].
    assert (D : d' = Some t').
    { unfold d'. rewrite Cur. cbn [getMonth option_map num_add]. exact Es. }
    exists t'. split; [|split; [|exact Da]].
    + destruct (has_google_access (manager w)) eqn:A.
      * destruct (fetchCalendarEvents_frame reply w0 A) as [Cd _].
        rewrite Cd. exact D.
      * exact D.
    + rewrite Mi. unfold monthIndex. lia.
Qed.

Lemma noon_march_30_year :
  -270000 <= YearFromTime (LocalTime Sample.zone_utc Sample.noon_march_30)
  <= 270000.
Proof.
  split; apply Z.leb_le; vm_compute; reflexivity.
Qed.

Lemma noon_march_30_next :
  day_in_target
    (YearFromTime (LocalTime Sample.zone_utc Sample.noon_march_30))
    (MonthFromTime (LocalTime Sample.zone_utc Sample.noon_march_30))
    (DateFromTime (LocalTime Sample.zone_utc Sample.noon_march_30)) 1.
Proof.
  unfold day_in_target. apply Z.leb_le. vm_compute. reflexivity.
Qed.

Lemma navigateMonth_step_witness :
  let w := Sample.world_with Sample.noon_march_30 Sample.granted [] in
  let w' :=
    snd (navigateMonth Sample.zone_utc 1 Sample.noon_march_3
           (fun _ => Sample.noon_march_3) (Sample.ok_with [Sample.advising])
           w) in
  fetches (trace w') = [Fetch events_url]
  /\ events (manager w') = VArr [Sample.advising]
  /\ exists t',
       currentDate (manager w') = Some t'
       /\ DateFromTime (LocalTime Sample.zone_utc t')
          = DateFromTime (LocalTime Sample.zone_utc Sample.noon_march_30).
Proof.
  intros w w'.
  destruct (navigateMonth_step Sample.zone_utc 1 Sample.noon_march_3
              (fun _ => Sample.noon_march_3)
              (Sample.ok_with [Sample.advising]) w eq_refl) as [F [E S]].
  split; [exact F | split; [exact E|]].
  destruct (S Sample.noon_march_30 zone_utc_civil eq_refl noon_march_30_year
              (or_introl eq_refl) noon_march_30_next) as [t' [Cd [_ Da]]].
  exists t'. split; [exact Cd | exact Da].
Defined.

End NavigationFacts.

(** * Further properties of the widget *)

(** ** The accessors on any value *)

Module AccessorFacts.
Import NormalizerFacts.

Lemma falsy_opt_get v k : truthy v = false -> v ?. k = VUndefined.
Proof.
  destruct v; simpl; intros E; try reflexivity. discriminate E.
Qed.

(** X1. An event that is not an object - [null], [undefined], a number, a
    string, a boolean or an array - is tolerated by every accessor: the
    title is "No Title", the link empty, the start string and the start
    instant [null]. *)
Theorem accessors_on_non_object (H : Host) (event : JsValue) :
  (forall fields, event <> VObj fields) ->
  getEventTitle event = VStr "No Title"
  /\ getEventHtmlLink event = VStr ""
  /\ getEventStartString event = VNull
  /\ getEventStartDate H event = Return None.
Proof.
  intros N.
  assert (U : forall k, event ?. k = VUndefined).
  { intros k. destruct event; try reflexivity. exfalso. apply (N fields).
    reflexivity. }
  unfold getEventStartDate, getEventStartString, getEventTitle,
    getEventHtmlLink.
  rewrite !U. repeat split.
Qed.

Lemma accessors_on_non_object_witness :
  getEventTitle (VArr [VStr "x"]) = VStr "No Title"
  /\ getEventHtmlLink (VArr [VStr "x"]) = VStr ""
  /\ getEventStartString (VArr [VStr "x"]) = VNull
  /\ getEventStartDate Sample.zone_utc (VArr [VStr "x"]) = Return None.
Proof.
  apply (accessors_on_non_object Sample.zone_utc (VArr [VStr "x"])).
  intros fields E. discriminate E.
Defined.

(** X2. [getEventHtmlLink] returns [htmlLink] when it is truthy, else
    [html_link] when it is truthy, else the empty string; it never returns
    [null] or [undefined], and what it returns is falsy only when it is the
    empty string. *)
Theorem getEventHtmlLink_fallback (event : JsValue) :
  getEventHtmlLink event =
    (if truthy (event ?. "htmlLink") then event ?. "htmlLink"
     else if truthy (event ?. "html_link") then event ?. "html_link"
     else VStr "")
  /\ nullish (getEventHtmlLink event) = false
  /\ (truthy (getEventHtmlLink event) = false <->
      getEventHtmlLink event = VStr "").
Proof.
  assert (F : getEventHtmlLink event =
    (if truthy (event ?. "htmlLink") then event ?. "htmlLink"
     else if truthy (event ?. "html_link") then event ?. "html_link"
     else VStr "")).
  { unfold getEventHtmlLink.
    destruct (truthy (event ?. "htmlLink")) eqn:A.
    - rewrite !(or_truthy _ _ A). reflexivity.
    - rewrite (or_falsy _ _ A).
      destruct (truthy (event ?. "html_link")) eqn:B.
      + apply or_truthy, B.
      + apply or_falsy, B. }
  split; [exact F|].
  destruct (getEventHtmlLink_values event) as [T|E].
  - split; [apply truthy_not_nullish, T|].
    split; [rewrite T; discriminate | intros E; rewrite E in T; discriminate T].
  - rewrite E. split; [reflexivity|]. split; reflexivity.
Qed.

(** X3. For every event the start string is [start_datetime || start ||
    null]: whenever [start] is falsy it is not an object, so the reads of
    [start.dateTime] and [start.date] at the end of the chain give
    [undefined] and never change the result. *)
Theorem getEventStartString_two_fields (event : JsValue) :
  getEventStartString event
  = event ?. "start_datetime" ||. event ?. "start" ||. VNull.
Proof.
  unfold getEventStartString.
  destruct (truthy (event ?. "start_datetime" ||. event ?. "start")) eqn:T.
  - rewrite !(or_truthy _ _ T). reflexivity.
  - assert (S : truthy (event ?. "start") = false).
    { unfold or in T. destruct (truthy (event ?. "start_datetime")) eqn:A.
      - rewrite A in T. discriminate T.
      - exact T. }
    rewrite !(falsy_opt_get _ _ S).
    rewrite (or_falsy _ VUndefined T), (or_falsy _ VNull T). reflexivity.
Qed.

End AccessorFacts.

(** ** Events of a day and the upcoming list *)

Module PlacementFacts.
Import NormalizerFacts ResultFacts UpcomingFacts GridFacts.



Lemma filterUpcoming_none H clock evs :
  (forall k event, In event evs ->
     isUpcoming H (clock k) event = Return false) ->
  forall k, filterUpcoming H clock k evs = Return [].
Proof.
  induction evs as [|e rest IH]; intros P k; simpl; [reflexivity|].
  rewrite (P k e (or_introl eq_refl)). cbn [rbind]. rewrite IH; [reflexivity|].
  intros j event I. apply P. right. exact I.
Qed.

(** X5. The "No upcoming events" placeholder is shown only for an empty
    stored list: when events are stored and the callback of the filter
    answers no for each of them, the list is rendered with no entry at
    all. *)
Theorem generateUpcomingEvents_no_placeholder
    (H : Host) (this : CalendarManager) (evs : list JsValue)
    (clock : nat -> Z) :
  events this = VArr evs ->
  evs <> [] ->
  (forall k event, In event evs ->
     isUpcoming H (clock k) event = Return false) ->
  generateUpcomingEvents H this clock = Return (Entries []).
Proof.
  intros E N P. unfold generateUpcomingEvents. rewrite E.
  destruct evs as [|e rest]; [contradiction|].
  unfold upcomingEvents. rewrite (filterUpcoming_none H clock _ P).
  reflexivity.
Qed.

Lemma generateUpcomingEvents_no_placeholder_witness :
  generateUpcomingEvents Sample.zone_utc
    (Sample.manager_with Sample.noon_march_3 Sample.granted
       [Sample.advising_nested])
    (fun _ => Sample.noon_march_3)
  = Return (Entries []).
Proof.
  apply (generateUpcomingEvents_no_placeholder Sample.zone_utc
           (Sample.manager_with Sample.noon_march_3 Sample.granted
              [Sample.advising_nested])
           [Sample.advising_nested] (fun _ => Sample.noon_march_3) eq_refl).
  - discriminate.
  - intros k event [<-|[]]. reflexivity.
Defined.

(** X6. While the callback of the filter runs the clock may move on.  If it
    never reads earlier than [now], whatever list is returned has at most
    five entries, taken from the stored events in their order, and none of
    them starts before [now]; and a list is returned whenever every printed
    value of the events can be converted to a string. *)
Theorem generateUpcomingEvents_moving_clock
    (H : Host) (this : CalendarManager) (evs : list JsValue)
    (clock : nat -> Z) (now : Z) :
  events this = VArr evs ->
  (forall k, now <= clock k) ->
  (Forall (fun e => printable e = true) evs ->
   exists view, generateUpcomingEvents H this clock = Return view)
  /\ forall view,
       generateUpcomingEvents H this clock = Return view ->
       (List.length (shown view) <= 5)%nat
       /\ Subsequence (map entry_event (shown view)) evs
       /\ forall event, In event (map entry_event (shown view)) ->
          exists d, getEventStartDate H event = Return (Some d) /\ now <= d.
Proof.
  intros E C. split.
  - intros F. destruct (filterUpcoming_returns H clock 0 evs F) as [kept K].
    apply (generateUpcomingEvents_returns H this clock evs kept E K).
    apply Forall_forall. intros e I. apply In_firstn in I.
    destruct (filterUpcoming_In H clock 0 evs kept e K I) as [j U]. split.
    + apply (proj1 (Forall_forall _ _) F).
      pose proof (filterUpcoming_Subsequence H clock 0 evs kept K) as S.
      clear - S I. induction S; simpl in *; tauto.
    + exact (isUpcoming_not_nullish H _ e U).
  - intros view R.
    destruct (generateUpcomingEvents_Return H this clock evs view E R)
      as [kept [K V]].
    split; [|rewrite V; split].
    + rewrite <- (length_map entry_event), V.
      rewrite length_firstn. apply Nat.le_min_l.
    + apply Subsequence_trans with (b := kept).
      * apply Subsequence_firstn.
      * exact (filterUpcoming_Subsequence H clock 0 evs kept K).
    + intros event I. apply In_firstn in I.
      destruct (filterUpcoming_In H clock 0 evs kept event K I) as [j U].
      apply isUpcoming_iff in U.
      destruct U as [d [S L]]. exists d. split; [exact S|].
      specialize (C j). lia.
Qed.

Lemma moving_clock_bound k :
  Sample.noon_march_3 <= Sample.noon_march_3 + Z.of_nat k.
Proof. lia. Qed.

Lemma generateUpcomingEvents_moving_clock_witness :
  exists view,
    generateUpcomingEvents Sample.zone_utc
      (Sample.manager_with Sample.noon_march_3 Sample.granted
         [Sample.advising])
      (fun k => Sample.noon_march_3 + Z.of_nat k) = Return view
    /\ (List.length (shown view) <= 5)%nat.
Proof.
  destruct (generateUpcomingEvents_moving_clock Sample.zone_utc
              (Sample.manager_with Sample.noon_march_3 Sample.granted
                 [Sample.advising])
              [Sample.advising]
              (fun k => Sample.noon_march_3 + Z.of_nat k)
              Sample.noon_march_3 eq_refl moving_clock_bound)
    as [R P].
  destruct R as [view R].
  - repeat constructor.
  - exists view. split; [exact R | exact (proj1 (P view R))].
Defined.

End PlacementFacts.

(** ** More on the event fetcher and the render *)

Module FetcherExtra.
Import FetcherFacts NavigationFacts.

Lemma events_after_twice access reply old :
  events_after access reply (events_after access reply old)
  = events_after access reply old.
Proof.
  unfold events_after. destruct reply as [|status [body|]]; try reflexivity.
  destruct (access && response_ok status && negb (nullish body)); reflexivity.
Qed.

Lemma fetchCalendarEvents_access reply w :
  has_google_access (manager (snd (fetchCalendarEvents reply w)))
  = has_google_access (manager w).
Proof.
  destruct (has_google_access (manager w)) eqn:A.
  - destruct (fetchCalendarEvents_frame reply w A) as [_ [S _]].
    unfold has_google_access in *. rewrite S. exact A.
  - rewrite fetchCalendarEvents_no_access by exact A. exact A.
Qed.

(** X7. [renderCalendar] asks the server nothing when the container is
    missing or access is not granted.  Without the container it changes
    nothing at all; with it and without access it leaves the manager alone
    and writes the sign-in view. *)
Theorem renderCalendar_without_request
    (H : Host) (today : Z) (clock : nat -> Z) (reply : Reply) (w : World) :
  has_container w = false \/ has_google_access (manager w) = false ->
  fst (renderCalendar H today clock reply w) = Return tt
  /\ manager (snd (renderCalendar H today clock reply w)) = manager w
  /\ fetches (trace (snd (renderCalendar H today clock reply w)))
     = fetches (trace w)
  /\ (has_container w = false ->
      snd (renderCalendar H today clock reply w) = w)
  /\ (has_container w = true ->
      trace (snd (renderCalendar H today clock reply w))
      = trace w ++ [SetInnerHTML NonGoogleUserHTML;
                    AttachCalendarEventListeners]).
Proof.
  intros D. unfold renderCalendar.
  destruct (has_container w) eqn:C; cbn [negb].
  - destruct D as [D|A]; [discriminate D|].
    unfold bind, get_this, ret, lift, emit, getCalendarHTML.
    rewrite A. cbn [negb fst snd manager trace]. rewrite ?A.
    cbn [negb fst snd manager trace].
    split; [reflexivity|]. split; [reflexivity|]. split; [|split].
    + rewrite !fetches_app. cbn. rewrite !app_nil_r. reflexivity.
    + intros F. discriminate F.
    + intros _. rewrite <- app_assoc. reflexivity.
  - cbn [fst snd]. repeat split. intros F. discriminate F.
Qed.

Lemma renderCalendar_without_request_witness :
  fst (renderCalendar Sample.zone_utc Sample.noon_march_3
         (fun _ => Sample.noon_march_3) (Sample.ok_with [Sample.advising])
         (Sample.world_with Sample.noon_march_3 VNull []))
  = Return tt
  /\ fetches
       (trace (snd (renderCalendar Sample.zone_utc Sample.noon_march_3
                      (fun _ => Sample.noon_march_3)
                      (Sample.ok_with [Sample.advising])
                      (Sample.world_with Sample.noon_march_3 VNull []))))
     = [].
Proof.
  destruct (renderCalendar_without_request Sample.zone_utc Sample.noon_march_3
              (fun _ => Sample.noon_march_3) (Sample.ok_with [Sample.advising])
              (Sample.world_with Sample.noon_march_3 VNull [])
              (or_intror eq_refl)) as [R [_ [F _]]].
  split; [exact R | exact F].
Defined.

(** X8. A 2xx answer with a readable body replaces the stored events by the
    [events] of the body, whatever was stored before: an array there is
    stored as it is, and a missing or falsy [events] stores the empty
    list. *)
Theorem fetchCalendarEvents_replaces
    (status : Z) (body : JsValue) (w : World) :
  has_google_access (manager w) = true ->
  response_ok status = true ->
  nullish body = false ->
  (forall evs, body ?. "events" = VArr evs ->
     events (manager (snd (fetchCalendarEvents (Response status (Some body)) w)))
     = VArr evs)
  /\ (truthy (body ?. "events") = false ->
      events (manager (snd (fetchCalendarEvents (Response status (Some body)) w)))
      = VArr [])
  /\ notifications
       (trace (snd (fetchCalendarEvents (Response status (Some body)) w)))
     = notifications (trace w)
       ++ [ShowNotification (VStr "Calendar events updated") "success"].
Proof.
  intros A OK N.
  destruct (fetchCalendarEvents_success status body w A OK N)
    as [_ [E [_ T]]].
  rewrite E, T. unfold stored_events. split; [|split].
  - intros evs B. rewrite B. reflexivity.
  - intros F. unfold or. rewrite F. reflexivity.
  - rewrite notifications_app. reflexivity.
Qed.

Lemma fetchCalendarEvents_replaces_witness :
  events
    (manager (snd (fetchCalendarEvents (Sample.ok_with [])
                     (Sample.world_with Sample.noon_march_3 Sample.granted
                        [Sample.advising]))))
  = VArr [].
Proof.
  destruct (fetchCalendarEvents_replaces 200
              (VObj [("events", VArr [])])
              (Sample.world_with Sample.noon_march_3 Sample.granted
                 [Sample.advising])
              eq_refl eq_refl eq_refl) as [E _].
  exact (E [] eq_refl).
Defined.

(** X9. Fetching twice with the same answer stores what fetching once
    stores, for every answer and with or without access. *)
Theorem fetchCalendarEvents_twice (reply : Reply) (w : World) :
  events
    (manager (snd (fetchCalendarEvents reply
                     (snd (fetchCalendarEvents reply w)))))
  = events (manager (snd (fetchCalendarEvents reply w))).
Proof.
  rewrite (fetchCalendarEvents_events reply (snd (fetchCalendarEvents reply w))).
  rewrite fetchCalendarEvents_access.
  rewrite (fetchCalendarEvents_events reply w).
  apply events_after_twice.
Qed.

(** X10. Every answer that is neither a readable 2xx nor a readable 403 - a
    request that fails, another status, a body that cannot be read - ends in
    the [catch] block: the error is logged, the one notification is "Failed
    to load calendar events", the empty list is returned, and the manager is
    as before except that [isLoading] is [false]. *)
Theorem fetchCalendarEvents_generic_failure
    (reply : Reply) (w : World) :
  has_google_access (manager w) = true ->
  generic_failure reply = true ->
  fst (fetchCalendarEvents reply w) = Return (VArr [])
  /\ trace (snd (fetchCalendarEvents reply w))
     = trace w
       ++ [UpdateLoadingState true;
           Fetch events_url;
           ConsoleError "Error fetching calendar events:";
           ShowNotification (VStr "Failed to load calendar events") "error";
           UpdateLoadingState false]
  /\ manager (snd (fetchCalendarEvents reply w))
     = {| currentDate := currentDate (manager w);
          events := events (manager w);
          calendarStatus := calendarStatus (manager w);
          refreshInterval := refreshInterval (manager w);
          isLoading := false |}.
Proof.
  intros A G. run. rewrite !A. cbn [negb].
  destruct reply as [|status body]; run.
  - repeat split. rewrite <- !app_assoc. reflexivity.
  - unfold generic_failure, readable in G.
    destruct (response_ok status) eqn:OK; cbn [orb] in G.
    + destruct body as [v|]; cbn.
      * apply negb_true_iff, negb_false_iff in G. rewrite G. cbn.
        repeat split. rewrite <- !app_assoc. reflexivity.
      * repeat split. rewrite <- !app_assoc. reflexivity.
    + destruct (status =? 403) eqn:D.
      * destruct body as [v|]; cbn.
        -- apply negb_true_iff, negb_false_iff in G. rewrite G. cbn.
           repeat split. rewrite <- !app_assoc. reflexivity.
        -- repeat split. rewrite <- !app_assoc. reflexivity.
      * cbn. repeat split. rewrite <- !app_assoc. reflexivity.
Qed.

Lemma fetchCalendarEvents_generic_failure_witness :
  fst (fetchCalendarEvents (Response 500 None)
         (Sample.world_with Sample.noon_march_3 Sample.granted
            [Sample.advising]))
  = Return (VArr [])
  /\ events
       (manager (snd (fetchCalendarEvents (Response 500 None)
                        (Sample.world_with Sample.noon_march_3 Sample.granted
                           [Sample.advising]))))
     = VArr [Sample.advising].
Proof.
  destruct (fetchCalendarEvents_generic_failure (Response 500 None)
              (Sample.world_with Sample.noon_march_3 Sample.granted
                 [Sample.advising])
              eq_refl eq_refl) as [R [_ M]].
  split; [exact R | rewrite M; reflexivity].
Defined.

(** X11. With access granted, one call of [fetchCalendarEvents] makes
    exactly one request and shows exactly one notification, whatever the
    answer: a success notification when the events were stored, an error
    notification otherwise. *)
Theorem fetchCalendarEvents_one_notification
    (reply : Reply) (w : World) :
  has_google_access (manager w) = true ->
  fetches (trace (snd (fetchCalendarEvents reply w)))
  = fetches (trace w) ++ [Fetch events_url]
  /\ exists message,
       notifications (trace (snd (fetchCalendarEvents reply w)))
       = notifications (trace w)
         ++ [ShowNotification message
               (if succeeds reply then "success" else "error")].
Proof.
  intros A. split; [apply fetchCalendarEvents_frame, A|].
  run. rewrite !A. cbn [negb].
  destruct reply as [|status body]; run;
    [| unfold succeeds, readable;
       destruct (response_ok status) eqn:OK;
       [| destruct (status =? 403) eqn:D];
       try (destruct body as [v|]; cbn; [destruct (nullish v) eqn:N; cbn|])];
    by_message;
    eexists; rewrite !notifications_app; cbn; rewrite ?app_nil_r; reflexivity.
Qed.

Lemma fetchCalendarEvents_one_notification_witness :
  fetches
    (trace (snd (fetchCalendarEvents Rejected
                   (Sample.world_with Sample.noon_march_3 Sample.granted []))))
  = [Fetch events_url].
Proof.
  exact (proj1 (fetchCalendarEvents_one_notification Rejected
                  (Sample.world_with Sample.noon_march_3 Sample.granted [])
                  eq_refl)).
Defined.

(** X12. A manual refresh asks for the events twice when access is granted
    and the container is there: once itself and once more in the render it
    ends with.  The stored events are those of the second answer when it is
    a readable 2xx, else those of the first when that is one, else the old
    ones. *)
Theorem refreshCalendar_two_requests
    (H : Host) (today : Z) (clock : nat -> Z) (reply1 reply2 : Reply)
    (w : World) :
  has_google_access (manager w) = true ->
  has_container w = true ->
  fetches (trace (snd (refreshCalendar H today clock reply1 reply2 w)))
  = fetches (trace w) ++ [Fetch events_url; Fetch events_url]
  /\ events (manager (snd (refreshCalendar H today clock reply1 reply2 w)))
     = events_after true reply2 (events_after true reply1 (events (manager w))).
Proof.
  intros A C.
  destruct (fetchCalendarEvents_returns reply1 w) as [v R].
  destruct (fetchCalendarEvents_frame reply1 w A) as [_ [_ [C1 F1]]].
  pose proof (fetchCalendarEvents_access reply1 w) as A1. rewrite A in A1.
  pose proof (fetchCalendarEvents_events reply1 w) as E1. rewrite A in E1.
  unfold refreshCalendar, bind.
  destruct (fetchCalendarEvents reply1 w) as [r w1] eqn:Q.
  cbn [fst snd] in *. subst r. rewrite C in C1.
  destruct (renderCalendar_outcome H today clock reply2 w1 C1)
    as [r2 [tr [Rn F]]].
  rewrite A1 in Rn. rewrite Rn. cbn [snd manager trace].
  destruct (fetchCalendarEvents_frame reply2 w1 A1) as [_ [_ [_ F2]]].
  rewrite fetches_app, F, app_nil_r, F2, F1, <- app_assoc.
  split; [reflexivity|].
  rewrite (fetchCalendarEvents_events reply2 w1), A1, E1. reflexivity.
Qed.

Lemma refreshCalendar_two_requests_witness :
  fetches
    (trace (snd (refreshCalendar Sample.zone_utc Sample.noon_march_3
                   (fun _ => Sample.noon_march_3)
                   (Sample.ok_with [Sample.advising]) Rejected
                   (Sample.world_with Sample.noon_march_3 Sample.granted []))))
  = [Fetch events_url; Fetch events_url]
  /\ events
       (manager (snd (refreshCalendar Sample.zone_utc Sample.noon_march_3
                        (fun _ => Sample.noon_march_3)
                        (Sample.ok_with [Sample.advising]) Rejected
                        (Sample.world_with Sample.noon_march_3 Sample.granted
                           []))))
     = VArr [Sample.advising].
Proof.
  exact (refreshCalendar_two_requests Sample.zone_utc Sample.noon_march_3
           (fun _ => Sample.noon_march_3)
           (Sample.ok_with [Sample.advising]) Rejected
           (Sample.world_with Sample.noon_march_3 Sample.granted [])
           eq_refl eq_refl).
Defined.

End FetcherExtra.

(** ** More on the month grid *)

Module GridExtra.
Import CalendarFacts GridFacts ZoneFacts.

(** Every cell of the grid is the cell the loop body builds for its index. *)
Lemma daysLoop_nth H this today month startDate fuel :
  forall i daysHTML cells,
    daysLoop H this today month startDate fuel i daysHTML = Return cells ->
    exists rest,
      cells = daysHTML ++ rest
      /\ List.length rest = fuel
      /\ forall j cell,
           nth_error rest j = Some cell ->
           dayCell H this today month startDate (i + Z.of_nat j) = Return cell.
Proof.
  induction fuel as [|fuel IH]; intros i daysHTML cells; cbn [daysLoop].
  - intros [= <-]. exists []. rewrite app_nil_r. repeat split.
    intros [|j] cell E; discriminate E.
  - destruct (dayCell H this today month startDate i) as [c|e] eqn:D;
      cbn [rbind]; [|discriminate].
    intros R. destruct (IH _ _ _ R) as [rest [E [L P]]].
    exists (c :: rest). rewrite E, <- app_assoc. split; [reflexivity|].
    split; [cbn; rewrite L; reflexivity|].
    intros [|j] cell N; cbn in N.
    + injection N as <-. rewrite Z.add_0_r. exact D.
    + replace (i + Z.of_nat (S j)) with (i + 1 + Z.of_nat j) by lia.
      apply P, N.
Qed.

Lemma generateCalendarDays_nth H this today cells :
  generateCalendarDays H this today = Return cells ->
  exists startDate,
    forall j cell,
      nth_error cells j = Some cell ->
      dayCell H this today (getMonth H (currentDate this)) startDate
        (Z.of_nat j) = Return cell.
Proof.
  unfold generateCalendarDays. intros R.
  destruct (daysLoop_nth _ _ _ _ _ _ _ _ _ R) as [rest [E [_ P]]].
  cbn [app] in E. subst rest. eexists. intros j cell N.
  exact (P j cell N).
Qed.

(** What the loop body decides for a cell, in terms of the day the cell
    stands for. *)
Lemma dayCell_style H this today month startDate i cell :
  dayCell H this today month startDate i = Return cell ->
  let inMonth :=
    match month with
    | Some m => MonthFromTime (LocalTime H (cell_day cell)) =? m
    | None => false
    end in
  let isToday := sameDateString H (cell_day cell) today in
  cell_style cell
  = (if negb inMonth then OtherMonth else if isToday then Today else Normal)
  /\ cell_marked cell
     = (0 <? Z.of_nat (List.length (cell_titles cell))) && inMonth
       && negb isToday
  /\ cell_data_date cell = isoDate (cell_day cell)
  /\ cell_number cell = DateFromTime (LocalTime H (cell_day cell)).
Proof.
  unfold dayCell.
  destruct (setDate H startDate (num_add (getDate H startDate) (Some i)))
    as [t|]; [|discriminate].
  destruct (getEventsForDate H this (Some t)) as [dayEvents|e];
    [|discriminate].
  cbn [rbind].
  destruct (mapR ToString (map getEventTitle (firstn 2 dayEvents)))
    as [texts|e']; [|discriminate].
  cbn [rbind getMonth option_map]. intros [= <-].
  cbn [cell_day cell_style cell_marked cell_data_date cell_number cell_titles].
  repeat split.
  rewrite length_map.
  destruct dayEvents as [|a [|b rest]]; reflexivity.
Qed.

(** The events behind a cell. *)
Lemma generateCalendarDays_titles_and_more_cells
    (H : Host) (this : CalendarManager) (today : Z) (cells : list DayCell) :
  generateCalendarDays H this today = Return cells ->
  forall cell, In cell cells ->
    exists dayEvents,
      getEventsForDate H this (Some (cell_day cell)) = Return dayEvents
      /\ cell_titles cell = map getEventTitle (firstn 2 dayEvents).
Proof.
  intros R cell I.
  destruct (generateCalendarDays_nth H this today cells R) as [startDate P].
  apply In_nth_error in I. destruct I as [j N].
  specialize (P j cell N). revert P. unfold dayCell.
  destruct (setDate H startDate
              (num_add (getDate H startDate) (Some (Z.of_nat j))))
    as [t|]; [|discriminate].
  destruct (getEventsForDate H this (Some t)) as [dayEvents|e] eqn:G;
    [|discriminate].
  cbn [rbind].
  destruct (mapR ToString (map getEventTitle (firstn 2 dayEvents)))
    as [texts|e']; [|discriminate].
  cbn [rbind]. intros [= <-]. cbn [cell_day cell_titles].
  exists dayEvents. split; [exact G | reflexivity].
Qed.

(** X13. In every grid that is returned, each cell accounts for all the
    events of its day: it lists the titles of the first two and, when there
    are more than two, counts the others in its "+N more" label, so that the
    titles and the count add up to the number of events of the day. *)
Theorem generateCalendarDays_titles_and_more
    (H : Host) (this : CalendarManager) (today : Z) (cells : list DayCell) :
  generateCalendarDays H this today = Return cells ->
  forall cell, In cell cells ->
    exists dayEvents,
      getEventsForDate H this (Some (cell_day cell)) = Return dayEvents
      /\ cell_titles cell = map getEventTitle (firstn 2 dayEvents)
      /\ cell_more cell
         = (if 2 <? Z.of_nat (List.length dayEvents)
            then Some (Z.of_nat (List.length dayEvents) - 2) else None)
      /\ Z.of_nat (List.length (cell_titles cell))
         + match cell_more cell with Some k => k | None => 0 end
         = Z.of_nat (List.length dayEvents).
Proof.
  intros R cell I.
  destruct (generateCalendarDays_nth H this today cells R) as [startDate P].
  apply In_nth_error in I. destruct I as [j N].
  specialize (P j cell N). revert P. unfold dayCell.
  destruct (setDate H startDate
              (num_add (getDate H startDate) (Some (Z.of_nat j))))
    as [t|]; [|discriminate].
  destruct (getEventsForDate H this (Some t)) as [dayEvents|e] eqn:G;
    [|discriminate].
  cbn [rbind].
  destruct (mapR ToString (map getEventTitle (firstn 2 dayEvents)))
    as [texts|e']; [|discriminate].
  cbn [rbind]. intros [= <-]. cbn [cell_day cell_titles cell_more].
  exists dayEvents. split; [exact G|]. split; [reflexivity|].
  split; [reflexivity|].
  rewrite length_map.
  destruct dayEvents as [|a [|b [|c rest]]]; cbn [firstn List.length];
    try reflexivity.
  destruct (2 <? Z.of_nat (S (S (S (List.length rest))))) eqn:L.
  - lia.
  - apply Z.ltb_ge in L. lia.
Qed.

Lemma generateCalendarDays_titles_and_more_witness :
  exists cells,
    generateCalendarDays Sample.zone_utc
      (Sample.manager_with Sample.noon_march_3 Sample.granted
         Sample2.three_events) Sample.noon_march_3 = Return cells
    /\ forall cell, In cell cells ->
       exists dayEvents,
         getEventsForDate Sample.zone_utc
           (Sample.manager_with Sample.noon_march_3 Sample.granted
              Sample2.three_events) (Some (cell_day cell)) = Return dayEvents
         /\ Z.of_nat (List.length (cell_titles cell))
            + match cell_more cell with Some k => k | None => 0 end
            = Z.of_nat (List.length dayEvents).
Proof.
  destruct (generateCalendarDays Sample.zone_utc
              (Sample.manager_with Sample.noon_march_3 Sample.granted
                 Sample2.three_events) Sample.noon_march_3)
    as [cells|e] eqn:R.
  - exists cells. split; [reflexivity|]. intros cell I.
    destruct (generateCalendarDays_titles_and_more Sample.zone_utc
                (Sample.manager_with Sample.noon_march_3 Sample.granted
                   Sample2.three_events) Sample.noon_march_3 cells R cell I)
      as [dayEvents [G [_ [_ S]]]].
    exists dayEvents. split; [exact G | exact S].
  - exfalso. revert R. vm_compute. discriminate.
Defined.

(** X14. In every grid that is returned, a cell is marked as a day with
    events only when it is a day of the reference month other than today
    and shows at least one title; and a cell is styled as today only when
    its day is today's local day. *)
Theorem generateCalendarDays_marks
    (H : Host) (this : CalendarManager) (today : Z) (cells : list DayCell) :
  generateCalendarDays H this today = Return cells ->
  forall cell, In cell cells ->
    (cell_marked cell = true ->
       cell_style cell = Normal /\ cell_titles cell <> [])
    /\ (cell_style cell = Today ->
        Day (LocalTime H (cell_day cell)) = Day (LocalTime H today))
    /\ (cell_titles cell = [] -> cell_more cell = None).
Proof.
  intros R cell I.
  destruct (generateCalendarDays_nth H this today cells R) as [startDate P].
  apply In_nth_error in I. destruct I as [j N].
  specialize (P j cell N).
  destruct (dayCell_style _ _ _ _ _ _ _ P) as [S [M _]].
  cbv zeta in S, M. split; [|split].
  - intros Mk. rewrite Mk in M. symmetry in M.
    apply andb_true_iff in M. destruct M as [M NT].
    apply andb_true_iff in M. destruct M as [L IM].
    rewrite IM in S. apply negb_true_iff in NT. rewrite NT in S.
    split; [exact S|]. intros E. rewrite E in L. discriminate L.
  - intros St. rewrite St in S.
    destruct (negb _) in S; [discriminate S|].
    destruct (sameDateString H (cell_day cell) today) eqn:D;
      [|discriminate S].
    unfold sameDateString in D. apply Z.eqb_eq, D.
  - revert P. unfold dayCell.
    destruct (setDate H startDate
                (num_add (getDate H startDate) (Some (Z.of_nat j))))
      as [t|]; [|discriminate].
    destruct (getEventsForDate H this (Some t)) as [dayEvents|e];
      [|discriminate].
    cbn [rbind].
    destruct (mapR ToString (map getEventTitle (firstn 2 dayEvents)))
      as [texts|e']; [|discriminate].
    cbn [rbind]. intros [= <-]. cbn [cell_titles cell_more].
    destruct dayEvents as [|a [|b [|c rest]]]; cbn; try reflexivity;
      intros E; discriminate E.
Qed.

Lemma generateCalendarDays_marks_witness :
  exists cells,
    generateCalendarDays Sample.zone_utc
      (Sample.manager_with Sample.noon_march_3 Sample.granted
         Sample2.three_events) Sample.noon_march_3 = Return cells
    /\ forall cell, In cell cells ->
       cell_marked cell = true ->
       cell_style cell = Normal /\ cell_titles cell <> [].
Proof.
  destruct (generateCalendarDays Sample.zone_utc
              (Sample.manager_with Sample.noon_march_3 Sample.granted
                 Sample2.three_events) Sample.noon_march_3)
    as [cells|e] eqn:R.
  - exists cells. split; [reflexivity|]. intros cell I.
    exact (proj1 (generateCalendarDays_marks Sample.zone_utc
                    (Sample.manager_with Sample.noon_march_3 Sample.granted
                       Sample2.three_events) Sample.noon_march_3 cells R
                    cell I)).
  - exfalso. revert R. vm_compute. discriminate.
Defined.

End GridExtra.

(** ** The grid and the reference month *)

Module MonthFacts.
Import CalendarFacts GridFacts ZoneFacts GridExtra.

Lemma february_2024_year :
  grid_year
    (YearFromTime (LocalTime Sample.zone_plus_2 Sample.noon_february_2024)).
Proof.
  change (grid_year 2024). unfold grid_year. lia.
Qed.

Lemma march_2025_year_plus_2 :
  grid_year (YearFromTime (LocalTime Sample.zone_plus_2 Sample.noon_march_3)).
Proof.
  change (grid_year 2025). unfold grid_year. lia.
Qed.

Lemma advising_printable :
  Forall (fun e => grid_printable e = true) [Sample.advising].
Proof.
  repeat constructor.
Qed.

Lemma march_3_in_march :
  fst (civil_from_days (Day (LocalTime Sample.zone_plus_2 Sample.noon_march_3)))
  = (YearFromTime (LocalTime Sample.zone_plus_2 Sample.noon_march_3),
     MonthFromTime (LocalTime Sample.zone_plus_2 Sample.noon_march_3)).
Proof.
  reflexivity.
Qed.

Section InZone.
Variable H : Host.
Hypothesis zone : civil_zone H.
Variable this : CalendarManager.
Variable today t : Z.
Variable evs : list JsValue.
Hypothesis reference : currentDate this = Some t.
Hypothesis events_array : events this = VArr evs.
Hypothesis events_printable : Forall (fun e => grid_printable e = true) evs.
Hypothesis year_ok : grid_year (YearFromTime (LocalTime H t)).

Let year := YearFromTime (LocalTime H t).
Let month := MonthFromTime (LocalTime H t).
Let first := days_from_civil year month 1.
Let start := first - WeekDayOfDay first.

(** The grid, cell by cell: the day of each cell and the loop body that
    built it. *)
Lemma grid_structure :
  exists cells startDate,
    generateCalendarDays H this today = Return cells
    /\ List.length cells = 42%nat
    /\ forall i, (i < 42)%nat ->
       exists cell,
         nth_error cells i = Some cell
         /\ Day (LocalTime H (cell_day cell)) = start + Z.of_nat i
         /\ dayCell H this today (Some month) startDate (Z.of_nat i)
            = Return cell.
Proof.
  assert (Hm : 0 <= month <= 11) by apply civil_month_range.
  pose proof (WeekDayOfDay_range first) as Hw.
  unfold generateCalendarDays. rewrite reference.
  cbn [getFullYear getMonth option_map]. fold year month.
  destruct (newDate_ymd_first H zone year month year_ok Hm)
    as [tf [Ef [Df Bf]]].
  fold first in Df, Bf. rewrite Ef.
  cbn [getDate getDay option_map num_sub].
  destruct (setDate_Day H zone tf
              (DateFromTime (LocalTime H tf) - WeekDay (LocalTime H tf)))
    as [ts [Es Ds]].
  { rewrite Df. unfold WeekDay. rewrite Df. unfold dayBound in *. lia. }
  rewrite Es.
  assert (S : Day (LocalTime H ts) = start).
  { rewrite Ds, Df. unfold WeekDay. rewrite Df. unfold start. lia. }
  destruct (daysLoop_cells H zone this today evs events_array
              events_printable (Some month) ts totalDays)
    with (i := 0) (daysHTML := @nil DayCell) as [cells [L [Len P]]].
  { rewrite S. unfold start, dayBound in *. lia. }
  { lia. }
  { unfold totalDays. lia. }
  cbn [app] in L.
  destruct (daysLoop_nth _ _ _ _ _ _ _ _ _ L) as [rest [E [_ Q]]].
  cbn [app] in E. subst rest.
  exists cells, (Some ts). split; [exact L|]. split; [exact Len|].
  intros i Hi. destruct (P i Hi) as [cell [N [D _]]].
  exists cell. split; [exact N|]. split.
  - rewrite S, Z.add_0_r in D. exact D.
  - exact (Q i cell N).
Qed.

Lemma month_day_offset z :
  fst (civil_from_days z) = (year, month) ->
  z = first + snd (civil_from_days z) - 1
  /\ 0 <= z - start <= 36.
Proof.
  intros E.
  pose proof (days_of_civil_from_days z) as R.
  rewrite E in R. cbn [fst snd] in R.
  rewrite days_from_civil_date in R. fold first in R.
  pose proof (civil_date_range z) as Hd.
  pose proof (WeekDayOfDay_range first) as Hw.
  unfold start. lia.
Qed.

Lemma covers_month :
  exists cells,
    generateCalendarDays H this today = Return cells
    /\ (forall z, fst (civil_from_days z) = (year, month) ->
        exists i cell,
          (i < 42)%nat
          /\ nth_error cells i = Some cell
          /\ Day (LocalTime H (cell_day cell)) = z
          /\ cell_number cell = snd (civil_from_days z)
          /\ cell_style cell <> OtherMonth)
    /\ (forall cell, In cell cells ->
        (cell_style cell <> OtherMonth <->
         MonthFromTime (LocalTime H (cell_day cell)) = month)).
Proof.
  destruct grid_structure as [cells [startDate [R [Len P]]]].
  exists cells. split; [exact R|]. split.
  - intros z E. destruct (month_day_offset z E) as [Z0 B].
    set (i := Z.to_nat (z - start)).
    assert (Hi : (i < 42)%nat) by (unfold i; lia).
    destruct (P i Hi) as [cell [N [D C]]].
    exists i, cell. split; [exact Hi|]. split; [exact N|].
    assert (Dz : Day (LocalTime H (cell_day cell)) = z)
      by (rewrite D; unfold i; lia).
    split; [exact Dz|].
    destruct (dayCell_style _ _ _ _ _ _ _ C) as [S [_ [_ Nb]]].
    cbv zeta in S. split.
    + rewrite Nb. unfold DateFromTime. rewrite Dz. reflexivity.
    + assert (M : MonthFromTime (LocalTime H (cell_day cell)) = month).
      { unfold MonthFromTime at 1. rewrite Dz, E. reflexivity. }
      rewrite M, Z.eqb_refl in S. cbn [negb] in S. rewrite S.
      destruct (sameDateString H (cell_day cell) today); discriminate.
  - intros cell I. apply In_nth_error in I. destruct I as [i N].
    assert (Hi : (i < 42)%nat).
    { rewrite <- Len. apply nth_error_Some. rewrite N. discriminate. }
    destruct (P i Hi) as [cell' [N' [_ C]]].
    rewrite N in N'. injection N' as <-.
    destruct (dayCell_style _ _ _ _ _ _ _ C) as [S _]. cbv zeta in S.
    destruct (Z.eqb_spec (MonthFromTime (LocalTime H (cell_day cell))) month)
      as [M|M]; cbn [negb] in S.
    + split; [intros _; exact M|]. intros _. rewrite S.
      destruct (sameDateString H (cell_day cell) today); discriminate.
    + split; [intros NO; contradiction (NO S) | intros E; contradiction].
Qed.

Lemma one_today :
  exists cells,
    generateCalendarDays H this today = Return cells
    /\ (forall i j ci cj,
          nth_error cells i = Some ci -> nth_error cells j = Some cj ->
          cell_style ci = Today -> cell_style cj = Today -> i = j)
    /\ (fst (civil_from_days (Day (LocalTime H today))) = (year, month) ->
        exists i cell,
          nth_error cells i = Some cell /\ cell_style cell = Today
          /\ Day (LocalTime H (cell_day cell)) = Day (LocalTime H today)).
Proof.
  destruct grid_structure as [cells [startDate [R [Len P]]]].
  exists cells. split; [exact R|].
  assert (DayOf : forall i c, nth_error cells i = Some c ->
            Day (LocalTime H (cell_day c)) = start + Z.of_nat i
            /\ dayCell H this today (Some month) startDate (Z.of_nat i)
               = Return c).
  { intros i c N.
    assert (Hi : (i < 42)%nat).
    { rewrite <- Len. apply nth_error_Some. rewrite N. discriminate. }
    destruct (P i Hi) as [c' [N' DC]]. rewrite N in N'.
    injection N' as <-. exact DC. }
  assert (TodayDay : forall i c, nth_error cells i = Some c ->
            cell_style c = Today ->
            Day (LocalTime H (cell_day c)) = Day (LocalTime H today)).
  { intros i c N St. destruct (DayOf i c N) as [_ C].
    destruct (dayCell_style _ _ _ _ _ _ _ C) as [S _]. cbv zeta in S.
    rewrite St in S. destruct (negb _) in S; [discriminate S|].
    destruct (sameDateString H (cell_day c) today) eqn:D; [|discriminate S].
    apply Z.eqb_eq, D. }
  split.
  - intros i j ci cj Ni Nj Si Sj.
    pose proof (TodayDay i ci Ni Si) as Ti.
    pose proof (TodayDay j cj Nj Sj) as Tj.
    destruct (DayOf i ci Ni) as [Di _]. destruct (DayOf j cj Nj) as [Dj _].
    lia.
  - intros E. destruct (month_day_offset _ E) as [_ B].
    set (z := Day (LocalTime H today)) in *.
    set (i := Z.to_nat (z - start)).
    assert (Hi : (i < 42)%nat) by (unfold i; lia).
    destruct (P i Hi) as [cell [N [D C]]].
    assert (Dz : Day (LocalTime H (cell_day cell)) = z)
      by (rewrite D; unfold i; lia).
    exists i, cell. split; [exact N|]. split; [|exact Dz].
    destruct (dayCell_style _ _ _ _ _ _ _ C) as [S _]. cbv zeta in S.
    assert (M : MonthFromTime (LocalTime H (cell_day cell)) = month).
    { unfold MonthFromTime at 1. rewrite Dz, E. reflexivity. }
    rewrite M, Z.eqb_refl in S. cbn [negb] in S.
    unfold sameDateString in S. fold z in S. rewrite Dz, Z.eqb_refl in S.
    exact S.
Qed.

End InZone.

(** X15. In a zone that keeps civil days, for a reference year the grid can
    hold and stored events whose starts and titles can be converted to a
    string: every local day of the reference month has its cell in the
    grid, numbered with its day of the month and not styled as another
    month; and the cells not styled as another month are exactly those whose
    local month number is the reference month's. *)
Theorem generateCalendarDays_covers_month
    (H : Host) (this : CalendarManager) (today t : Z) (evs : list JsValue) :
  civil_zone H ->
  currentDate this = Some t ->
  events this = VArr evs ->
  Forall (fun e => grid_printable e = true) evs ->
  grid_year (YearFromTime (LocalTime H t)) ->
  exists cells,
    generateCalendarDays H this today = Return cells
    /\ (forall z,
          fst (civil_from_days z)
          = (YearFromTime (LocalTime H t), MonthFromTime (LocalTime H t)) ->
          exists i cell,
            (i < 42)%nat
            /\ nth_error cells i = Some cell
            /\ Day (LocalTime H (cell_day cell)) = z
            /\ cell_number cell = snd (civil_from_days z)
            /\ cell_style cell <> OtherMonth)
    /\ (forall cell, In cell cells ->
        (cell_style cell <> OtherMonth <->
         MonthFromTime (LocalTime H (cell_day cell))
         = MonthFromTime (LocalTime H t))).
Proof.
  intros zone Cur Ev Pr Gy.
  exact (covers_month H zone this today t evs Cur Ev Pr Gy).
Qed.

Lemma generateCalendarDays_covers_month_witness :
  exists cells,
    generateCalendarDays Sample.zone_plus_2
      (Sample.manager_with Sample.noon_february_2024 Sample.granted
         [Sample.advising])
      Sample.noon_march_3 = Return cells
    /\ forall cell, In cell cells ->
       (cell_style cell <> OtherMonth <->
        MonthFromTime (LocalTime Sample.zone_plus_2 (cell_day cell)) = 1).
Proof.
  destruct (generateCalendarDays_covers_month Sample.zone_plus_2
              (Sample.manager_with Sample.noon_february_2024 Sample.granted
                 [Sample.advising])
              Sample.noon_march_3 Sample.noon_february_2024 [Sample.advising]
              zone_plus_2_civil eq_refl eq_refl advising_printable
              february_2024_year)
    as [cells [R [_ M]]].
  exists cells. split; [exact R | exact M].
Defined.

(** X16. In a zone that keeps civil days, for a reference year the grid can
    hold and stored events whose starts and titles can be converted to a
    string, at most one cell of the grid is styled as today, and when
    today's local day lies in the reference month the cell of that day is
    styled so. *)
Theorem generateCalendarDays_one_today
    (H : Host) (this : CalendarManager) (today t : Z) (evs : list JsValue) :
  civil_zone H ->
  currentDate this = Some t ->
  events this = VArr evs ->
  Forall (fun e => grid_printable e = true) evs ->
  grid_year (YearFromTime (LocalTime H t)) ->
  exists cells,
    generateCalendarDays H this today = Return cells
    /\ (forall i j ci cj,
          nth_error cells i = Some ci -> nth_error cells j = Some cj ->
          cell_style ci = Today -> cell_style cj = Today -> i = j)
    /\ (fst (civil_from_days (Day (LocalTime H today)))
        = (YearFromTime (LocalTime H t), MonthFromTime (LocalTime H t)) ->
        exists i cell,
          nth_error cells i = Some cell /\ cell_style cell = Today
          /\ Day (LocalTime H (cell_day cell)) = Day (LocalTime H today)).
Proof.
  intros zone Cur Ev Pr Gy.
  exact (one_today H zone this today t evs Cur Ev Pr Gy).
Qed.

Lemma generateCalendarDays_one_today_witness :
  exists cells,
    generateCalendarDays Sample.zone_plus_2
      (Sample.manager_with Sample.noon_march_3 Sample.granted
         [Sample.advising])
      Sample.noon_march_3 = Return cells
    /\ exists i cell,
         nth_error cells i = Some cell /\ cell_style cell = Today.
Proof.
  destruct (generateCalendarDays_one_today Sample.zone_plus_2
              (Sample.manager_with Sample.noon_march_3 Sample.granted
                 [Sample.advising])
              Sample.noon_march_3 Sample.noon_march_3 [Sample.advising]
              zone_plus_2_civil eq_refl eq_refl advising_printable
              march_2025_year_plus_2)
    as [cells [R [_ T]]].
  exists cells. split; [exact R|].
  destruct (T march_3_in_march) as [i [cell [N [S _]]]].
  exists i, cell. split; [exact N | exact S].
Defined.

End MonthFacts.

(** ** Navigation there and back, and the click on a day *)

Module InteractionFacts.
Import CalendarFacts NormalizerFacts ResultFacts GridFacts FetcherFacts
       ZoneFacts NavigationFacts FetcherExtra GridExtra.

Lemma renderCalendar_currentDate H today clock reply w :
  currentDate (manager (snd (renderCalendar H today clock reply w)))
  = currentDate (manager w).
Proof.
  destruct (has_container w) eqn:C.
  - destruct (renderCalendar_outcome H today clock reply w C) as [r [tr [R _]]].
    rewrite R. cbn [snd manager].
    destruct (has_google_access (manager w)) eqn:A; [|reflexivity].
    apply fetchCalendarEvents_frame, A.
  - unfold renderCalendar. rewrite C. reflexivity.
Qed.

Lemma navigateMonth_currentDate H direction today clock reply w :
  currentDate (manager (snd (navigateMonth H direction today clock reply w)))
  = setMonth H (currentDate (manager w))
      (num_add (getMonth H (currentDate (manager w))) (Some direction)).
Proof.
  unfold navigateMonth, bind, get_this, set_currentDate, set_this.
  rewrite renderCalendar_currentDate. reflexivity.
Qed.

Lemma monthIndex_inj y m y' m' :
  0 <= m <= 11 -> 0 <= m' <= 11 ->
  monthIndex y m = monthIndex y' m' -> y = y' /\ m = m'.
Proof.
  unfold monthIndex. lia.
Qed.

(** X17. Going one month forth and back, or back and forth, from a day that
    every month has returns to the same local year, month and day of the
    month, whatever the server answers in between. *)
Theorem navigateMonth_there_and_back
    (H : Host) (direction today t : Z) (clock : nat -> Z)
    (reply1 reply2 : Reply) (w : World) :
  civil_zone H ->
  currentDate (manager w) = Some t ->
  -269999 <= YearFromTime (LocalTime H t) <= 269999 ->
  DateFromTime (LocalTime H t) <= 28 ->
  direction = 1 \/ direction = -1 ->
  exists t',
    currentDate
      (manager
         (snd (navigateMonth H (- direction) today clock reply2
                 (snd (navigateMonth H direction today clock reply1 w)))))
    = Some t'
    /\ civil_from_days (Day (LocalTime H t'))
       = civil_from_days (Day (LocalTime H t)).
Proof.
  intros zone Cur Hy Hd Hdir.
  pose proof (civil_month_range (Day (LocalTime H t))) as Hm.
  pose proof (civil_date_range (Day (LocalTime H t))) as Hd1.
  destruct (setMonth_month H t (MonthFromTime (LocalTime H t) + direction) zone)
    as [t1 [E1 [M1 D1]]];
    [lia | unfold DateFromTime in *; lia | unfold MonthFromTime; lia |].
  pose proof (civil_month_range (Day (LocalTime H t1))) as Hm1.
  assert (Hy1 : -270000 <= YearFromTime (LocalTime H t1) <= 270000).
  { unfold monthIndex, MonthFromTime in *. lia. }
  destruct (setMonth_month H t1
              (MonthFromTime (LocalTime H t1) + - direction) zone)
    as [t2 [E2 [M2 D2]]];
    [exact Hy1 | rewrite D1; unfold DateFromTime in *; lia
    | unfold MonthFromTime; lia |].
  exists t2. split.
  - rewrite navigateMonth_currentDate, navigateMonth_currentDate, Cur.
    cbn [getMonth option_map num_add]. rewrite E1.
    cbn [getMonth option_map num_add]. exact E2.
  - pose proof (civil_month_range (Day (LocalTime H t2))) as Hm2.
    assert (I : monthIndex (YearFromTime (LocalTime H t2))
                  (MonthFromTime (LocalTime H t2))
                = monthIndex (YearFromTime (LocalTime H t))
                    (MonthFromTime (LocalTime H t))).
    { rewrite M2. unfold monthIndex in *. lia. }
    apply monthIndex_inj in I; [|exact Hm2 | exact Hm].
    destruct I as [Y M]. rewrite D1 in D2.
    unfold YearFromTime, MonthFromTime, DateFromTime in Y, M, D2.
    destruct (civil_from_days (Day (LocalTime H t2))) as [[y2 m2] d2].
    destruct (civil_from_days (Day (LocalTime H t))) as [[y0 m0] d0].
    cbn [fst snd] in *. congruence.
Qed.

Lemma noon_march_3_year_inner :
  -269999 <= YearFromTime (LocalTime Sample.zone_utc Sample.noon_march_3)
  <= 269999.
Proof.
  split; apply Z.leb_le; vm_compute; reflexivity.
Qed.

Lemma navigateMonth_there_and_back_witness :
  exists t',
    currentDate
      (manager
         (snd (navigateMonth Sample.zone_utc (- (1)) Sample.noon_march_3
                 (fun _ => Sample.noon_march_3) Rejected
                 (snd (navigateMonth Sample.zone_utc 1 Sample.noon_march_3
                         (fun _ => Sample.noon_march_3) Rejected
                         (Sample.world_with Sample.noon_march_3
                            Sample.granted []))))))
    = Some t'
    /\ civil_from_days (Day (LocalTime Sample.zone_utc t'))
       = civil_from_days (Day (LocalTime Sample.zone_utc Sample.noon_march_3)).
Proof.
  exact (navigateMonth_there_and_back Sample.zone_utc 1 Sample.noon_march_3
           Sample.noon_march_3 (fun _ => Sample.noon_march_3)
           Rejected Rejected
           (Sample.world_with Sample.noon_march_3 Sample.granted [])
           zone_utc_civil eq_refl noon_march_3_year_inner noon_march_3_date
           (or_introl eq_refl)).
Defined.

Lemma isoDate_Day a b : Day a = Day b -> isoDate a = isoDate b.
Proof.
  unfold isoDate. intros ->. reflexivity.
Qed.

(** The template of a block of the modal completes on a printable event
    that is not [null] or [undefined]. *)
Lemma modalItem_returns H event :
  printable event = true -> nullish event = false ->
  exists item, modalItem H event = Return item.
Proof.
  intros P N.
  destruct (printable_parts event P) as [Cs [Ct [_ [Cst [Clo Cd]]]]].
  unfold modalItem, formatEventTimeFromEvent, get.
  rewrite (ToString_convertible _ Ct). rewrite N. cbn [rbind].
  assert (T : exists t,
             rbind (if truthy (event ?. "start_time")
                    then Return (GivenTime (event ?. "start_time"))
                    else rbind (getEventStartDate H event)
                           (fun d => Return (LocaleTime d)))
               time_text = Return t).
  { destruct (truthy (event ?. "start_time")); cbn [rbind time_text].
    - rewrite (ToString_convertible _ Cst). simpl. eauto.
    - destruct (getEventStartDate_returns H event Cs) as [d ->]. simpl. eauto. }
  destruct (truthy (event ?. "start_time")); cbn [rbind] in *;
    [|destruct (getEventStartDate_returns H event Cs) as [d Ed]; rewrite Ed in *;
      cbn [rbind] in *];
    destruct T as [t ->]; cbn [rbind];
    destruct (optional_text_convertible _ Clo) as [lo ->]; cbn [rbind];
    destruct (optional_text_convertible _ Cd) as [de ->]; cbn [rbind];
    eauto.
Qed.

Lemma item_event_Return H event item :
  modalItem H event = Return item -> item_event item = event.
Proof.
  unfold modalItem. intros R. rbind_inv R. inversion R. reflexivity.
Qed.

Lemma map_item_event H evs items :
  mapR (modalItem H) evs = Return items -> map item_event items = evs.
Proof.
  intros R. apply mapR_Return in R.
  induction R as [|x y l l' E _ IH]; simpl; [reflexivity|].
  rewrite IH, (item_event_Return H x y E). reflexivity.
Qed.

(** Only an object can be an event of a day: every other value has no
    start. *)
Lemma onDate_not_nullish H dateStr event :
  holds (onDate H dateStr event) = true -> nullish event = false.
Proof.
  destruct event; try reflexivity; vm_compute; discriminate.
Qed.

Lemma handleDayClick_events H this date tv dayEvents :
  Date_parse H date = Some tv ->
  getEventsForDate H this (Some tv) = Return dayEvents ->
  handleDayClick H this date
  = match dayEvents with
    | [] => Return None
    | _ => rbind (showDayEventsModal H date dayEvents)
             (fun modal => Return (Some modal))
    end.
Proof.
  intros P G. unfold handleDayClick, newDate_value. cbn [ToPrimitive rbind].
  rewrite P, G. cbn [rbind]. destruct dayEvents; reflexivity.
Qed.

(** X18. A click on a cell of the grid asks for the events of the cell's
    [data-date].  When the host reads that key as an instant of the same
    UTC day, no modal is shown for a cell without events, and a modal that
    is shown lists exactly the events the cell stands for - all of them, the
    cell's first two titles included - under the cell's date; the modal is
    shown whenever the cell has events and every printed value of theirs can
    be converted to a string. *)
Theorem handleDayClick_shows_the_cell
    (H : Host) (this : CalendarManager) (today : Z)
    (cells : list DayCell) (cell : DayCell) (tv : Z) :
  generateCalendarDays H this today = Return cells ->
  In cell cells ->
  Date_parse H (cell_data_date cell) = Some tv ->
  Day tv = Day (cell_day cell) ->
  exists dayEvents,
    getEventsForDate H this (Some (cell_day cell)) = Return dayEvents
    /\ cell_titles cell = map getEventTitle (firstn 2 dayEvents)
    /\ (dayEvents = [] ->
        handleDayClick H this (cell_data_date cell) = Return None)
    /\ (dayEvents <> [] ->
        Forall (fun e => printable e = true) dayEvents ->
        exists modal,
          handleDayClick H this (cell_data_date cell) = Return (Some modal))
    /\ (forall modal,
          handleDayClick H this (cell_data_date cell) = Return (Some modal) ->
          dayEvents <> []
          /\ modal_date modal = cell_data_date cell
          /\ map item_event (modal_items modal) = dayEvents).
Proof.
  intros R I P D.
  destruct (generateCalendarDays_titles_and_more_cells H this today cells R
              cell I) as [dayEvents [G T]].
  exists dayEvents. split; [exact G|]. split; [exact T|].
  assert (G' : getEventsForDate H this (Some tv) = Return dayEvents).
  { revert G. unfold getEventsForDate. cbn [toISODate rbind].
    rewrite (isoDate_Day tv (cell_day cell) D). auto. }
  rewrite (handleDayClick_events H this _ tv dayEvents P G').
  split; [|split].
  - intros ->. reflexivity.
  - intros N F.
    assert (Items : exists items, mapR (modalItem H) dayEvents = Return items).
    { apply mapR_returns. apply Forall_forall. intros e Ie.
      apply modalItem_returns.
      - exact (proj1 (Forall_forall _ _) F e Ie).
      - revert G. unfold getEventsForDate. cbn [toISODate rbind].
        destruct (as_array (events this)) as [evs|e0]; cbn [rbind];
          [|discriminate].
        intros Q. apply filterR_Return in Q. destruct Q as [-> _].
        apply filter_In in Ie.
        exact (onDate_not_nullish H _ e (proj2 Ie)). }
    destruct Items as [items It]. unfold showDayEventsModal. rewrite It.
    destruct dayEvents; [contradiction|]. cbn [rbind]. eauto.
  - intros modal. destruct dayEvents as [|e rest]; [discriminate|].
    generalize (e :: rest) (@nil_cons _ e rest). intros l Nl.
    unfold showDayEventsModal. intros Q. rbind_inv Q. rbind_inv R0.
    injection R0 as <-. injection Q as <-. cbn [modal_date modal_items].
    split; [congruence|]. split; [reflexivity|].
    eapply map_item_event. eassumption.
Qed.

Lemma sample_grid :
  generateCalendarDays Sample.zone_utc SampleGrid.this Sample.noon_march_3
  = Return SampleGrid.cells.
Proof.
  vm_compute. reflexivity.
Qed.

Lemma sample_cell : In SampleGrid.march_10 SampleGrid.cells.
Proof.
  apply (nth_error_In SampleGrid.cells 15). reflexivity.
Qed.

Lemma sample_key :
  Date_parse Sample.zone_utc (cell_data_date SampleGrid.march_10)
  = Some 1741564800000.
Proof.
  vm_compute. reflexivity.
Qed.

Lemma sample_day_events :
  getEventsForDate Sample.zone_utc SampleGrid.this
    (Some (cell_day SampleGrid.march_10))
  = Return Sample2.three_events.
Proof.
  vm_compute. reflexivity.
Qed.

Lemma three_events_printable :
  Forall (fun e => printable e = true) Sample2.three_events.
Proof.
  repeat constructor.
Qed.

Lemma three_events_not_empty : Sample2.three_events <> [].
Proof.
  discriminate.
Qed.

Lemma handleDayClick_shows_the_cell_witness :
  exists modal,
    handleDayClick Sample.zone_utc SampleGrid.this "2025-03-10"
    = Return (Some modal)
    /\ map item_event (modal_items modal) = Sample2.three_events.
Proof.
  destruct (handleDayClick_shows_the_cell Sample.zone_utc SampleGrid.this
              Sample.noon_march_3 SampleGrid.cells SampleGrid.march_10
              1741564800000 sample_grid sample_cell sample_key eq_refl)
    as [dayEvents [G [_ [_ [S M]]]]].
  rewrite sample_day_events in G. injection G as <-.
  destruct (S three_events_not_empty three_events_printable) as [modal C].
  exists modal. split; [exact C | exact (proj2 (proj2 (M modal C)))].
Defined.

End InteractionFacts.

(** ** Periodic refresh and startup *)

Module TimerFacts.
Import FetcherFacts NavigationFacts FetcherExtra.

Lemma clearInterval_newest h delay t :
  (forall e, In e (armed t) -> fst e < h) ->
  armed (clearInterval h {| armed := (h, delay) :: armed t;
                            next_handle := h + 1 |})
  = armed t.
Proof.
  intros B. cbn. rewrite Z.eqb_refl. cbn.
  induction (armed t) as [|e rest IH]; cbn; [reflexivity|].
  assert (Ne : (fst e =? h) = false).
  { apply Z.eqb_neq. specialize (B e (or_introl eq_refl)). lia. }
  rewrite Ne. cbn. f_equal. apply IH. intros e' I. apply B. right. exact I.
Qed.

(** After one start or more, one timer of the manager is armed: the one it
    holds. *)
Lemma startAutoRefresh_invariant m0 t0 n :
  held m0 = None -> timers_ok t0 ->
  exists h,
    refreshInterval (fst (Nat.iter (S n) startAutoRefresh (m0, t0))) = Some h
    /\ 0 < h
    /\ snd (Nat.iter (S n) startAutoRefresh (m0, t0))
       = {| armed := (h, refreshDelay) :: armed t0; next_handle := h + 1 |}
    /\ (forall e, In e (armed t0) -> fst e < h).
Proof.
  intros Hd [Pos Ok]. induction n as [|n IH].
  - change (Nat.iter 1 startAutoRefresh (m0, t0))
      with (startAutoRefresh (m0, t0)).
    cbv beta iota zeta delta [startAutoRefresh setInterval].
    rewrite Hd. cbn [fst snd refreshInterval set_refreshInterval].
    exists (next_handle t0). repeat split; auto.
    intros e I. apply Ok, I.
  - destruct IH as [h [R [Ph [T B]]]].
    change (Nat.iter (S (S n)) startAutoRefresh (m0, t0))
      with (startAutoRefresh (Nat.iter (S n) startAutoRefresh (m0, t0))).
    destruct (Nat.iter (S n) startAutoRefresh (m0, t0)) as [m t].
    cbn [fst snd] in *. subst t.
    cbv beta iota zeta delta [startAutoRefresh setInterval held].
    rewrite R.
    assert (Nz : (h =? 0) = false) by (apply Z.eqb_neq; lia).
    rewrite Nz.
    pose proof (clearInterval_newest h refreshDelay t0 B) as C.
    cbn [fst snd refreshInterval set_refreshInterval].
    rewrite C. cbn [next_handle clearInterval].
    exists (h + 1). repeat split; try lia.
    intros e I. specialize (B e I). lia.
Qed.

(** X19. However often [startAutoRefresh] is called on a manager that held
    no timer, exactly one interval of the manager is armed afterwards, with
    the delay of five minutes and the handle the manager holds: each call
    clears the interval of the call before.  [destroy] then clears that one
    too, and the page's other timers are as they were. *)
Theorem startAutoRefresh_one_timer
    (m0 : CalendarManager) (t0 : Timers) (n : nat) :
  held m0 = None ->
  timers_ok t0 ->
  exists h,
    refreshInterval (fst (Nat.iter (S n) startAutoRefresh (m0, t0))) = Some h
    /\ armed (snd (Nat.iter (S n) startAutoRefresh (m0, t0)))
       = (h, 300000) :: armed t0
    /\ armed (snd (destroy (Nat.iter (S n) startAutoRefresh (m0, t0))))
       = armed t0.
Proof.
  intros Hd Ok.
  destruct (startAutoRefresh_invariant m0 t0 n Hd Ok) as [h [R [Ph [T B]]]].
  exists h. split; [exact R|]. split; [rewrite T; reflexivity|].
  destruct (Nat.iter (S n) startAutoRefresh (m0, t0)) as [m t].
  cbn [fst snd] in *. subst t. unfold destroy, held. rewrite R.
  assert (Nz : (h =? 0) = false) by (apply Z.eqb_neq; lia).
  rewrite Nz. cbn [snd]. apply clearInterval_newest, B.
Qed.

Lemma timers0_ok : timers_ok Sample2.timers0.
Proof.
  split; [cbn; lia|]. intros e [<-|[]]. cbn. lia.
Qed.

Lemma startAutoRefresh_one_timer_witness :
  exists h,
    refreshInterval
      (fst (Nat.iter 3 startAutoRefresh
              (constructor Sample.noon_march_3, Sample2.timers0))) = Some h
    /\ armed (snd (Nat.iter 3 startAutoRefresh
                     (constructor Sample.noon_march_3, Sample2.timers0)))
       = (h, 300000) :: [(3, 100)]
    /\ armed (snd (destroy (Nat.iter 3 startAutoRefresh
                              (constructor Sample.noon_march_3,
                               Sample2.timers0))))
       = [(3, 100)].
Proof.
  exact (startAutoRefresh_one_timer (constructor Sample.noon_march_3)
           Sample2.timers0 2 eq_refl timers0_ok).
Defined.

Lemma renders_app tr tr' : renders (tr ++ tr') = renders tr ++ renders tr'.
Proof. apply filter_app. Qed.

Lemma fetchCalendarEvents_renders reply w :
  renders (trace (snd (fetchCalendarEvents reply w))) = renders (trace w).
Proof.
  run. destruct (has_google_access (manager w)); cbn [negb]; [|reflexivity].
  destruct reply as [|status body]; run;
    [| destruct (response_ok status) eqn:OK;
       [| destruct (status =? 403) eqn:D];
       try (destruct body as [v|]; cbn; [destruct (nullish v) eqn:N; cbn|])];
    by_message;
    rewrite !renders_app; cbn; rewrite ?app_nil_r; reflexivity.
Qed.

Lemma fetchCalendarEvents_loading reply w :
  has_google_access (manager w) = true ->
  isLoading (manager (snd (fetchCalendarEvents reply w))) = false.
Proof.
  intros A. run. rewrite !A. cbn [negb].
  destruct reply as [|status body]; run;
    [| destruct (response_ok status) eqn:OK;
       [| destruct (status =? 403) eqn:D];
       try (destruct body as [v|]; cbn; [destruct (nullish v) eqn:N; cbn|])];
    by_message;
    reflexivity.
Qed.

(** X20. A tick of the refresh timer does nothing at all - no request, no
    write, no change of the manager - while a fetch is in flight
    ([isLoading]) or when access is not granted. *)
Theorem refreshTick_skipped
    (H : Host) (today : Z) (clock : nat -> Z) (reply : Reply)
    (has_grid has_upcoming : bool) (w : World) :
  isLoading (manager w) = true \/ has_google_access (manager w) = false ->
  refreshTick H today clock reply has_grid has_upcoming w = (Return tt, w, []).
Proof.
  intros [L|A]; unfold refreshTick.
  - rewrite L, andb_false_r. reflexivity.
  - rewrite A. reflexivity.
Qed.

Lemma refreshTick_skipped_witness :
  refreshTick Sample.zone_utc Sample.noon_march_3
    (fun _ => Sample.noon_march_3) (Sample.ok_with [Sample.advising])
    true true Sample2.loading_world
  = (Return tt, Sample2.loading_world, []).
Proof.
  apply (refreshTick_skipped Sample.zone_utc Sample.noon_march_3
           (fun _ => Sample.noon_march_3) (Sample.ok_with [Sample.advising])
           true true Sample2.loading_world).
  left. reflexivity.
Defined.

(** X21. A tick that runs - access granted, no fetch in flight - makes
    exactly one request, stores the events as a fetch does, leaves the
    reference date alone, ends with [isLoading] false, and never writes the
    whole container: it writes the grid region only if it is there, and then
    42 cells, and the upcoming region only if it is there, after the grid. *)
Theorem refreshTick_runs
    (H : Host) (today : Z) (clock : nat -> Z) (reply : Reply)
    (has_grid has_upcoming : bool) (w : World) :
  has_google_access (manager w) = true ->
  isLoading (manager w) = false ->
  let w' := snd (fst (refreshTick H today clock reply has_grid has_upcoming w)) in
  let writes := snd (refreshTick H today clock reply has_grid has_upcoming w) in
  fetches (trace w') = fetches (trace w) ++ [Fetch events_url]
  /\ renders (trace w') = renders (trace w)
  /\ events (manager w') = events_after true reply (events (manager w))
  /\ currentDate (manager w') = currentDate (manager w)
  /\ isLoading (manager w') = false
  /\ (has_grid = false -> forall days, ~ In (GridHTML days) writes)
  /\ (has_upcoming = false -> forall view, ~ In (UpcomingHTML view) writes)
  /\ (forall days, In (GridHTML days) writes -> List.length days = 42%nat)
  /\ (List.length writes <= 2)%nat.
Proof.
  intros A L w' writes.
  destruct (fetchCalendarEvents_returns reply w) as [v R].
  destruct (fetchCalendarEvents_frame reply w A) as [Cd [St [_ Fe]]].
  pose proof (fetchCalendarEvents_events reply w) as Ev. rewrite A in Ev.
  pose proof (fetchCalendarEvents_renders reply w) as Re.
  pose proof (fetchCalendarEvents_loading reply w A) as Lo.
  subst w' writes. unfold refreshTick. rewrite A, L. cbn [andb negb].
  destruct (fetchCalendarEvents reply w) as [r w1]. cbn [fst snd] in *.
  subst r.
  assert (Frame : forall w2,
            (w2 = w1 \/ w2 = attachCalendarEventListeners w1) ->
            fetches (trace w2) = fetches (trace w) ++ [Fetch events_url]
            /\ renders (trace w2) = renders (trace w)
            /\ events (manager w2) = events_after true reply (events (manager w))
            /\ currentDate (manager w2) = currentDate (manager w)
            /\ isLoading (manager w2) = false).
  { intros w2 [->| ->]; cbn [attachCalendarEventListeners manager trace];
      rewrite ?fetches_app, ?renders_app; cbn; rewrite ?app_nil_r; auto. }
  assert (Len : forall days,
            generateCalendarDays H (manager w1) today = Return days ->
            List.length days = 42%nat)
    by (intros days G; exact (GridFacts.generateCalendarDays_length _ _ _ _ G)).
  destruct has_grid, has_upcoming; cbn [rbind];
    try (destruct (generateCalendarDays H (manager w1) today)
           as [days|e] eqn:G; cbn [rbind]);
    try (cbn [manager attachCalendarEventListeners];
         destruct (generateUpcomingEvents H (manager w1) clock) as [view|e']);
    cbn [fst snd app];
    (match goal with
     | |- context [trace (attachCalendarEventListeners w1)] =>
         destruct (Frame _ (or_intror eq_refl)) as [F1 [F2 [F3 [F4 F5]]]]
     | |- _ => destruct (Frame _ (or_introl eq_refl)) as [F1 [F2 [F3 [F4 F5]]]]
     end);
    (split; [exact F1|]; split; [exact F2|]; split; [exact F3|];
     split; [exact F4|]; split; [exact F5|]);
    (split; [intros Hg; try discriminate Hg; intros d I; cbn in I;
             intuition discriminate|]);
    (split; [intros Hu; try discriminate Hu; intros d I; cbn in I;
             intuition discriminate|]);
    (split; [intros d I; cbn in I; intuition (try discriminate);
             match goal with
             | E : GridHTML _ = GridHTML _ |- _ =>
                 injection E as <-; apply Len; reflexivity
             end
            | cbn; lia]).
Qed.

End TimerFacts.

Module StartupFacts.
Import FetcherFacts NavigationFacts FetcherExtra TimerFacts.

Lemma refreshTick_runs_witness :
  fetches
    (trace (snd (fst (refreshTick Sample.zone_utc Sample.noon_march_3
                        (fun _ => Sample.noon_march_3)
                        (Sample.ok_with [Sample.advising]) true true
                        (Sample.world_with Sample.noon_march_3 Sample.granted
                           [])))))
  = [Fetch events_url]
  /\ renders
       (trace (snd (fst (refreshTick Sample.zone_utc Sample.noon_march_3
                           (fun _ => Sample.noon_march_3)
                           (Sample.ok_with [Sample.advising]) true true
                           (Sample.world_with Sample.noon_march_3
                              Sample.granted [])))))
     = [].
Proof.
  destruct (refreshTick_runs Sample.zone_utc Sample.noon_march_3
              (fun _ => Sample.noon_march_3)
              (Sample.ok_with [Sample.advising]) true true
              (Sample.world_with Sample.noon_march_3 Sample.granted [])
              eq_refl eq_refl) as [F [R _]].
  split; [exact F | exact R].
Defined.

Ltac run2 :=
  cbv [fetchCalendarEvents fetchCalendarEvents_begin
       fetchCalendarEvents_resume renderCalendar_resume renderCalendar_finish
       checkCalendarStatus try_catch_finally try_catch
       bind ret throw emit get_this set_this lift fetch json member
       set_calendarStatus set_events set_isLoading updateLoadingState
       showNotification fst snd];
  cbn [manager has_container trace currentDate events calendarStatus
       refreshInterval isLoading fst snd negb].

(** The two halves of [fetchCalendarEvents], before and after the [await],
    make up the whole. *)
Lemma fetchCalendarEvents_split reply w :
  has_google_access (manager w) = true ->
  fetchCalendarEvents_resume reply (snd (fetchCalendarEvents_begin w))
  = fetchCalendarEvents reply w.
Proof.
  intros A. run2. rewrite !A. cbn [negb].
  destruct reply as [|status body]; run2; [reflexivity|].
  destruct (response_ok status); [|destruct (status =? 403)];
    try (destruct body as [v|]; cbn; [destruct (nullish v); cbn|]);
    reflexivity.
Qed.

Lemma fetchCalendarEvents_refreshInterval reply w :
  refreshInterval (manager (snd (fetchCalendarEvents reply w)))
  = refreshInterval (manager w).
Proof.
  run2. destruct (has_google_access (manager w)); cbn [negb]; [|reflexivity].
  destruct reply as [|status body]; run2; [reflexivity|].
  destruct (response_ok status); [|destruct (status =? 403)];
    try (destruct body as [v|]; cbn; [destruct (nullish v); cbn|]);
    by_message; reflexivity.
Qed.

Lemma renderCalendar_finish_frame H today clock w :
  manager (snd (renderCalendar_finish H today clock w)) = manager w
  /\ fetches (trace (snd (renderCalendar_finish H today clock w)))
     = fetches (trace w).
Proof.
  unfold renderCalendar_finish, bind, get_this, lift, emit.
  destruct (getCalendarHTML H (manager w) today clock) as [html|e];
    cbn [snd manager trace]; split; try reflexivity.
  rewrite !fetches_app. cbn. rewrite !app_nil_r. reflexivity.
Qed.

Lemma checkCalendarStatus_frame reply w :
  fetches (trace (snd (checkCalendarStatus reply w)))
  = fetches (trace w) ++ [Fetch status_url]
  /\ renders (trace (snd (checkCalendarStatus reply w))) = renders (trace w)
  /\ has_container (snd (checkCalendarStatus reply w)) = has_container w
  /\ refreshInterval (manager (snd (checkCalendarStatus reply w)))
     = refreshInterval (manager w)
  /\ events (manager (snd (checkCalendarStatus reply w))) = events (manager w)
  /\ isLoading (manager (snd (checkCalendarStatus reply w)))
     = isLoading (manager w).
Proof.
  destruct reply as [|status [body|]]; run2;
    try destruct (response_ok status); cbn;
    rewrite ?fetches_app, ?renders_app; cbn; rewrite ?app_nil_r;
    repeat split.
Qed.

Lemma checkCalendarStatus_no_access reply w :
  is_success reply = false ->
  has_google_access (manager (snd (checkCalendarStatus reply w))) = false.
Proof.
  intros F. destruct reply as [|status body]; run2; [reflexivity|].
  simpl in F. rewrite F. reflexivity.
Qed.

(** X22. When the status check ends without access - in particular whenever
    it fails - [init] asks the server for the status only: no request for
    events, no timer armed, nothing left waiting; with the container in the
    page the sign-in view is written once. *)
Theorem init_without_access
    (H : Host) (status_reply : Reply) (today : Z) (clock : nat -> Z)
    (w : World) (t : Timers) :
  is_success status_reply = false
  \/ has_google_access (manager (snd (checkCalendarStatus status_reply w)))
     = false ->
  let p := init H status_reply today clock w t in
  pending_render p = false
  /\ timers p = t
  /\ refreshInterval (manager (world p)) = refreshInterval (manager w)
  /\ fetches (trace (world p)) = fetches (trace w) ++ [Fetch status_url]
  /\ (has_container w = true ->
      renders (trace (world p))
      = renders (trace w) ++ [SetInnerHTML NonGoogleUserHTML])
  /\ (has_container w = false -> renders (trace (world p)) = renders (trace w))
  /\ forall reply, init_resume H today clock reply p = p.
Proof.
  intros D p.
  assert (A : has_google_access
                (manager (snd (checkCalendarStatus status_reply w))) = false).
  { destruct D as [F|A]; [apply checkCalendarStatus_no_access, F | exact A]. }
  destruct (checkCalendarStatus_frame status_reply w)
    as [Fe [Re [Co [Ri _]]]].
  subst p. unfold init, renderCalendar_start.
  set (w1 := snd (checkCalendarStatus status_reply w)) in *.
  rewrite Co. destruct (has_container w) eqn:C; cbn [negb].
  - rewrite A.
    destruct (renderCalendar_finish_frame H today clock w1) as [M F].
    unfold has_google_access at 1. rewrite M.
    change (truthy (calendarStatus (manager w1) ?. "has_google_access"))
      with (has_google_access (manager w1)).
    rewrite A. cbn [world timers pending_render].
    split; [reflexivity|]. split; [reflexivity|].
    split; [rewrite M; exact Ri|]. split; [rewrite F; exact Fe|].
    split; [|split].
    + intros _. unfold renderCalendar_finish, bind, get_this, lift, emit,
        getCalendarHTML. rewrite A. cbn [negb snd trace].
      rewrite !renders_app, Re. cbn. rewrite app_nil_r. reflexivity.
    + intros F'. discriminate F'.
    + intros reply. reflexivity.
  - rewrite A. cbn [world timers pending_render].
    repeat split; auto. intros F'. discriminate F'.
Qed.

Lemma init_without_access_witness :
  pending_render
    (init Sample.zone_utc Rejected Sample.noon_march_3
       (fun _ => Sample.noon_march_3)
       (Sample.world_with Sample.noon_march_3 VNull []) Sample2.timers0)
  = false
  /\ timers
       (init Sample.zone_utc Rejected Sample.noon_march_3
          (fun _ => Sample.noon_march_3)
          (Sample.world_with Sample.noon_march_3 VNull []) Sample2.timers0)
     = Sample2.timers0
  /\ fetches
       (trace (world
                 (init Sample.zone_utc Rejected Sample.noon_march_3
                    (fun _ => Sample.noon_march_3)
                    (Sample.world_with Sample.noon_march_3 VNull [])
                    Sample2.timers0)))
     = [Fetch status_url].
Proof.
  destruct (init_without_access Sample.zone_utc Rejected Sample.noon_march_3
              (fun _ => Sample.noon_march_3)
              (Sample.world_with Sample.noon_march_3 VNull [])
              Sample2.timers0 (or_introl eq_refl)) as [P [T [_ [F _]]]].
  split; [exact P | split; [exact T | exact F]].
Defined.

(** X23. When the status check grants access and the container is in the
    page, [init] leaves the render waiting for the events, with the loading
    flag set and exactly one request for events made, and arms exactly one
    timer of five minutes, which the manager holds.  When the answer comes,
    the render ends without a further request: the flag is reset, the events
    are stored as a fetch stores them, and the timer stays armed. *)
Theorem init_with_access
    (H : Host) (status : Z) (body : JsValue) (today : Z) (clock : nat -> Z)
    (w : World) (t : Timers) :
  response_ok status = true ->
  truthy (body ?. "has_google_access") = true ->
  has_container w = true ->
  held (manager w) = None ->
  let p := init H (Response status (Some body)) today clock w t in
  pending_render p = true
  /\ isLoading (manager (world p)) = true
  /\ fetches (trace (world p))
     = fetches (trace w) ++ [Fetch status_url; Fetch events_url]
  /\ refreshInterval (manager (world p)) = Some (next_handle t)
  /\ armed (timers p) = (next_handle t, 300000) :: armed t
  /\ forall reply,
       let p' := init_resume H today clock reply p in
       pending_render p' = false
       /\ isLoading (manager (world p')) = false
       /\ fetches (trace (world p')) = fetches (trace (world p))
       /\ events (manager (world p'))
          = events_after true reply (events (manager w))
       /\ refreshInterval (manager (world p')) = Some (next_handle t)
       /\ timers p' = timers p.
Proof.
  intros OK A C Hd p.
  set (w1 := {| manager :=
                  {| currentDate := currentDate (manager w);
                     events := events (manager w);
                     calendarStatus := body;
                     refreshInterval := Some (next_handle t);
                     isLoading := isLoading (manager w) |};
                has_container := true;
                trace := trace w ++ [Fetch status_url] |}).
  assert (A1 : has_google_access (manager w1) = true) by exact A.
  assert (P : p = {| world := snd (fetchCalendarEvents_begin w1);
                     timers := {| armed := (next_handle t, refreshDelay)
                                           :: armed t;
                                  next_handle := next_handle t + 1 |};
                     pending_render := true |}).
  { subst p. unfold init, renderCalendar_start. run2. rewrite OK. run2.
    rewrite C. cbn [negb]. unfold has_google_access at 1. cbn [manager calendarStatus].
    rewrite A. run2.
    unfold has_google_access. cbn [manager calendarStatus]. rewrite A.
    cbv beta iota zeta delta [startAutoRefresh setInterval].
    unfold held in *. cbn [refreshInterval]. rewrite Hd.
    reflexivity. }
  rewrite P. cbn [world timers pending_render].
  split; [reflexivity|]. split; [reflexivity|].
  split.
  { run2. rewrite !fetches_app. rewrite <- !app_assoc. unfold w1.
    cbn [trace]. rewrite fetches_app, <- app_assoc. reflexivity. }
  split; [reflexivity|]. split; [reflexivity|].
  intros reply. unfold init_resume.
  cbn [world timers pending_render]. unfold renderCalendar_resume, bind.
  rewrite (fetchCalendarEvents_split reply w1 A1).
  destruct (fetchCalendarEvents_returns reply w1) as [v R].
  destruct (fetchCalendarEvents_frame reply w1 A1) as [_ [_ [_ Fe]]].
  pose proof (fetchCalendarEvents_events reply w1) as Ev. rewrite A1 in Ev.
  pose proof (fetchCalendarEvents_loading reply w1 A1) as Lo.
  pose proof (fetchCalendarEvents_refreshInterval reply w1) as Ri.
  destruct (fetchCalendarEvents reply w1) as [r w2]. cbn [fst snd] in *.
  subst r.
  destruct (renderCalendar_finish_frame H today clock w2) as [M F].
  rewrite M, F. split; [reflexivity|]. split; [exact Lo|].
  split.
  { rewrite Fe. run2. rewrite !fetches_app. cbn. rewrite !app_nil_r.
    reflexivity. }
  split; [exact Ev|]. split; [exact Ri | reflexivity].
Qed.

Lemma init_with_access_witness :
  pending_render
    (init Sample.zone_utc Sample2.status_granted Sample.noon_march_3
       (fun _ => Sample.noon_march_3)
       (Sample.world_with Sample.noon_march_3 VNull []) Sample2.timers0)
  = true
  /\ armed
       (timers
          (init Sample.zone_utc Sample2.status_granted Sample.noon_march_3
             (fun _ => Sample.noon_march_3)
             (Sample.world_with Sample.noon_march_3 VNull []) Sample2.timers0))
     = [(7, 300000); (3, 100)].
Proof.
  destruct (init_with_access Sample.zone_utc 200 Sample.granted
              Sample.noon_march_3 (fun _ => Sample.noon_march_3)
              (Sample.world_with Sample.noon_march_3 VNull [])
              Sample2.timers0 eq_refl eq_refl eq_refl eq_refl)
    as [P [_ [_ [_ [T _]]]]].
  split; [exact P | exact T].
Defined.

End StartupFacts.
